(** * Sass alias link provider: alias resolution and caching engine

    A shallow embedding of [src/extension.ts] (the asynchronous link
    provider) and the properties of its four components: the config
    locator [findNearestConfig], the alias table builder
    [getTsConfigAliases], the import resolver [resolveAlias] with
    [tryWithExtensions], and the orchestrator [provideDocumentLinks].

    Modelling conventions.
    - A JavaScript string is a [string]: a sequence of code units below 256.
    - A JavaScript object used as a record ([Record<string, T>]) is the
      ordered list of its properties ([JsObject.t]).  The keys of the three
      caches (names of documents, directories, paths of configuration
      files) are assumed not to be names of members of [Object.prototype].
      The keys of an alias table come from the configuration file and can
      be any name: an assignment treats one of them, [__proto__], unlike
      the others, and [JsObject] follows it.
    - A promise is a computation in the monad [M]: it threads the three
      module-level caches, the [lastIndex] of the shared regular expression
      and a trace of the calls made to the file system and to [JSON.parse];
      a rejected promise is the outcome [Throws].  Requests run one after
      the other, as the host dispatches them, and the file system, a
      function of the path, does not change while one runs.
    - [while] loops take a fuel argument; running out of it is the outcome
      [OutOfFuel], distinct from every outcome of the program.
    - [debug] only writes to the output channel and is left out of the
      four components; [Activation] keeps its messages for [activate],
      the two listeners and [deactivate].
    - The [path] module of the platform and [JSON.parse] are interfaces
      ([path.API], [JSON.API]); [posix] gives the POSIX instance of the
      former. *)

From Stdlib Require Import String Ascii DecimalString List ZArith NArith Arith Bool Lia.

#[local] Set Warnings "-register-all".
Import ListNotations.
Local Open Scope list_scope.
Local Open Scope string_scope.

(** ** JavaScript strings *)

Module JsString.

Fixpoint drop (n : nat) (s : string) : string :=
  match n, s with
  | O, _ => s
  | S _, EmptyString => EmptyString
  | S n', String _ s' => drop n' s'
  end.

(** [s.startsWith(searchString)] *)
Definition startsWith (s searchString : string) : bool :=
  String.prefix searchString s.

(** [s.replace(pattern, replacement)] for a string pattern and a replacement
    without [$]: the first occurrence only. *)
Fixpoint replace (s pattern replacement : string) : string :=
  if String.prefix pattern s then replacement ++ drop (String.length pattern) s
  else match s with
       | EmptyString => EmptyString
       | String c s' => String c (replace s' pattern replacement)
       end.

Fixpoint indexOf_from (s pattern : string) (i : Z) : Z :=
  if String.prefix pattern s then i
  else match s with
       | EmptyString => (-1)%Z
       | String _ s' => indexOf_from s' pattern (i + 1)%Z
       end.

(** [s.indexOf(pattern)] *)
Definition indexOf (s pattern : string) : Z := indexOf_from s pattern 0%Z.

(** [s.substring(start, start + len)] *)
Definition slice (start len : nat) (s : string) : string :=
  String.substring start len s.

(** Whether [pattern] occurs somewhere in [s]. *)
Fixpoint includes (s pattern : string) : bool :=
  if String.prefix pattern s then true
  else match s with
       | EmptyString => false
       | String _ s' => includes s' pattern
       end.

End JsString.

(** ** JavaScript objects as ordered property lists

    The list of an object holds its own properties in enumeration order.
    One name is unlike the others in an object that a literal made and
    assignments fill: [__proto__] is the accessor of [Object.prototype], so
    the assignment [o.__proto__ = v] of an object [v] replaces the
    prototype of [o] and creates no own property, and [o.__proto__] reads
    the prototype back.  The list of such an object keeps the prototype so
    assigned under that name: [get] reads it as the program does, and [own]
    leaves it out, which gives the properties that [Object.keys] lists.
    In the list of an object that [JSON.parse] made, or of a table given by
    its own properties, every entry is an own property. *)

Module JsObject.

Definition t (V : Type) : Type := list (string * V).

Definition digit (c : ascii) : option N :=
  let n := N_of_ascii c in
  if (48 <=? n)%N && (n <=? 57)%N then Some (n - 48)%N else None.

Fixpoint digits (s : string) (acc : N) : option N :=
  match s with
  | EmptyString => Some acc
  | String c s' =>
      match digit c with
      | Some d => digits s' (10 * acc + d)%N
      | None => None
      end
  end.

(** A property name is an array index when it is the canonical decimal
    form of an integer below 2^32 - 1. *)
Definition arrayIndex (k : string) : option N :=
  match k with
  | EmptyString => None
  | String c rest =>
      if Ascii.eqb c "0" && negb (String.eqb rest "") then None
      else match digits k 0%N with
           | Some n => if (n <? 4294967295)%N then Some n else None
           | None => None
           end
  end.

(** Own properties are enumerated array indices first, in ascending order,
    then the other names in the order they were created. *)
Definition precedes (k k' : string) : bool :=
  match arrayIndex k, arrayIndex k' with
  | Some n, Some n' => (n <? n')%N
  | Some _, None => true
  | None, _ => false
  end.

Section Ops.
Context {V : Type}.

(** [Object.keys(o)], for an object given by its own properties *)
Definition keys (o : t V) : list string := map fst o.

(** The name whose assignment replaces the prototype. *)
Definition isPrototype (k : string) : bool := String.eqb k "__proto__".

(** The own properties of an object that assignments filled: the
    prototype assigned to it is none of them. *)
Definition own (o : t V) : t V :=
  filter (fun kv => negb (isPrototype (fst kv))) o.

(** [o[k]]; [None] is [undefined]. *)
Fixpoint get (k : string) (o : t V) : option V :=
  match o with
  | [] => None
  | (k', v) :: o' => if String.eqb k' k then Some v else get k o'
  end.

Definition has (k : string) (o : t V) : bool :=
  match get k o with Some _ => true | None => false end.

Fixpoint update (k : string) (v : V) (o : t V) : t V :=
  match o with
  | [] => []
  | (k', v') :: o' =>
      if String.eqb k' k then (k, v) :: o' else (k', v') :: update k v o'
  end.

Fixpoint insert_new (k : string) (v : V) (o : t V) : t V :=
  match o with
  | [] => [(k, v)]
  | (k', v') :: o' =>
      if precedes k k' then (k, v) :: o else (k', v') :: insert_new k v o'
  end.

(** [o[k] = v] for an object [v]: the own property [k] is replaced, or
    created in its place of the enumeration order; for the name [__proto__]
    it is the prototype that is replaced, [own] does not list it. *)
Definition set (k : string) (v : V) (o : t V) : t V :=
  if has k o then update k v o else insert_new k v o.

End Ops.

End JsObject.

(** ** The platform's [path] module *)

Module path.

Class API : Type := {
  (** [path.join(a, b)] *)
  join : string -> string -> string;
  (** [path.dirname(p)] *)
  dirname : string -> string;
  (** [path.parse(p).root] *)
  root : string -> string;
  (** [path.resolve(a, b)] *)
  resolve : string -> string -> string
}.

End path.

(** ** The POSIX instance of [path]

    Node's [path.posix], on the two-argument calls the program makes.
    [resolve] needs the working directory of the process for a relative
    result; it is a parameter of the instance. *)

Module posix.

Definition slash : ascii := "/"%char.

Definition isAbsolute (p : string) : bool :=
  match p with
  | String c _ => Ascii.eqb c slash
  | EmptyString => false
  end.

Fixpoint endsWithSlash (p : string) : bool :=
  match p with
  | EmptyString => false
  | String c EmptyString => Ascii.eqb c slash
  | String _ p' => endsWithSlash p'
  end.

(** The segments between separators, empty ones included. *)
Fixpoint split (p : string) : list string :=
  match p with
  | EmptyString => [EmptyString]
  | String c p' =>
      if Ascii.eqb c slash then EmptyString :: split p'
      else match split p' with
           | seg :: segs => String c seg :: segs
           | [] => [String c EmptyString]
           end
  end.

(** [normalizeString]: the result is kept as the reversed list of its
    segments. *)
Fixpoint normalizeSegments (allowAboveRoot : bool) (segs res : list string)
  : list string :=
  match segs with
  | [] => rev res
  | seg :: segs' =>
      if String.eqb seg "" || String.eqb seg "." then
        normalizeSegments allowAboveRoot segs' res
      else if String.eqb seg ".." then
        match res with
        | last :: res' =>
            if String.eqb last ".." then
              normalizeSegments allowAboveRoot segs'
                (if allowAboveRoot then ".." :: res else res)
            else normalizeSegments allowAboveRoot segs' res'
        | [] =>
            normalizeSegments allowAboveRoot segs'
              (if allowAboveRoot then [".."] else [])
        end
      else normalizeSegments allowAboveRoot segs' (seg :: res)
  end.

Definition normalizeString (p : string) (allowAboveRoot : bool) : string :=
  String.concat "/" (normalizeSegments allowAboveRoot (split p) []).

Definition normalize (p : string) : string :=
  if String.eqb p "" then "."
  else
    let isAbs := isAbsolute p in
    let trailingSeparator := endsWithSlash p in
    let p' := normalizeString p (negb isAbs) in
    if String.eqb p' "" then
      if isAbs then "/" else if trailingSeparator then "./" else "."
    else
      let p'' := if trailingSeparator then p' ++ "/" else p' in
      if isAbs then "/" ++ p'' else p''.

Definition join (a b : string) : string :=
  match String.eqb a "", String.eqb b "" with
  | true, true => "."
  | true, false => normalize b
  | false, true => normalize a
  | false, false => normalize (a ++ "/" ++ b)
  end.

Definition root (p : string) : string :=
  if isAbsolute p then "/" else "".

Fixpoint dropWhile {A : Type} (f : A -> bool) (l : list A) : list A :=
  match l with
  | [] => []
  | x :: l' => if f x then dropWhile f l' else l
  end.

Definition dirname (p : string) : string :=
  match p with
  | EmptyString => "."
  | String c0 rest =>
      let hasRoot := Ascii.eqb c0 slash in
      let isSlash := fun c => Ascii.eqb c slash in
      let r := dropWhile (fun c => negb (isSlash c))
                 (dropWhile isSlash (rev (list_ascii_of_string rest))) in
      match r with
      | [] => if hasRoot then "/" else "."
      | _ :: _ =>
          let end_ := List.length r in
          if hasRoot && Nat.eqb end_ 1 then "//"
          else String.substring 0 end_ p
      end
  end.

(** [path.resolve(a, b)], with [cwd] the absolute working directory. *)
Definition resolve (cwd a b : string) : string :=
  let step (acc : string * bool) (p : string) :=
    let '(resolvedPath, resolvedAbsolute) := acc in
    if resolvedAbsolute || String.eqb p "" then acc
    else (p ++ "/" ++ resolvedPath, isAbsolute p) in
  let '(resolvedPath, resolvedAbsolute) := fold_left step [b; a; cwd] ("", false) in
  let resolvedPath' := normalizeString resolvedPath (negb resolvedAbsolute) in
  if resolvedAbsolute then "/" ++ resolvedPath'
  else if String.eqb resolvedPath' "" then "." else resolvedPath'.

Definition api (cwd : string) : path.API :=
  {| path.join := join;
     path.dirname := dirname;
     path.root := root;
     path.resolve := resolve cwd |}.

End posix.

Definition posix_examples : list (string * string) :=
  [ (posix.join "/proj/src" "tsconfig.json", "/proj/src/tsconfig.json");
    (posix.join "/proj/styles" "/button", "/proj/styles/button");
    (posix.join "/proj/src" "./foo", "/proj/src/foo");
    (posix.join "/proj/src" "../lib//x/", "/proj/lib/x/");
    (posix.join "//" "tsconfig.json", "/tsconfig.json");
    (posix.join "" "", ".");
    (posix.dirname "/proj/src/a.scss", "/proj/src");
    (posix.dirname "/proj", "/");
    (posix.dirname "/", "/");
    (posix.dirname "//a", "//");
    (posix.dirname "/a//b", "/a/");
    (posix.dirname "/a/b/", "/a");
    (posix.dirname "a", ".");
    (posix.dirname ".", ".");
    (posix.dirname "a/b", "a");
    (posix.root "/proj", "/");
    (posix.root "proj", "");
    (posix.resolve "/home" "/proj" "./src", "/proj/src");
    (posix.resolve "/home" "/proj" "/abs/x", "/abs/x");
    (posix.resolve "/home" "proj" "../x", "/home/x");
    (posix.resolve "/home" "/proj" "", "/proj");
    (posix.resolve "/home" "/" "..", "/") ].

(** ** JSON values and [JSON.parse] *)

Inductive JsError : Type :=
| SyntaxError
| TypeError
| SystemError (code : string).

Module JSON.

(** Numbers are only tested for truthiness; integers stand for them. *)
Inductive value : Type :=
| Null
| Bool (b : bool)
| Number (n : Z)
| String (s : string)
| Array (items : list value)
| Object (props : JsObject.t value).

(** [JSON.parse(text)]; [None] when the text is not JSON.  An object comes
    with its properties in enumeration order, each name once. *)
Class API : Type := { parse : string -> option value }.

Definition truthy (v : value) : bool :=
  match v with
  | Null => false
  | Bool b => b
  | Number n => negb (n =? 0)%Z
  | String s => negb (String.eqb s "")
  | Array _ => true
  | Object _ => true
  end.

(** [v.name] for a name that is neither an index nor a member of a
    prototype ([compilerOptions], [paths]); the inner [None] is
    [undefined]. *)
Definition member (v : value) (name : string) : JsError + option value :=
  match v with
  | Null => inl TypeError
  | Object props => inr (JsObject.get name props)
  | _ => inr None
  end.

Definition indexName (i : nat) : string :=
  NilEmpty.string_of_uint (Nat.to_uint i).

Fixpoint indexed (i : nat) (items : list value) : list (string * value) :=
  match items with
  | [] => []
  | x :: items' => (indexName i, x) :: indexed (S i) items'
  end.

Fixpoint chars (s : string) : list value :=
  match s with
  | EmptyString => []
  | String.String c s' => String (String.String c EmptyString) :: chars s'
  end.

(** The pairs [(k, v[k])] that [for (const k in v)] visits, in order. *)
Definition forIn (v : value) : list (string * value) :=
  match v with
  | Object props => props
  | Array items => indexed 0 items
  | String s => indexed 0 (chars s)
  | _ => []
  end.

End JSON.

(** ** The editor's types *)

Module vscode.

Record Position : Type := { line : Z; character : Z }.

(** [pos.translate(lineDelta, characterDelta)] *)
Definition translate (pos : Position) (lineDelta characterDelta : Z) : Position :=
  {| line := line pos + lineDelta; character := character pos + characterDelta |}.

Definition isBefore (a b : Position) : bool :=
  (line a <? line b)%Z || ((line a =? line b)%Z && (character a <? character b)%Z).

Record Range : Type := { start : Position; end_ : Position }.

(** [new vscode.Range(a, b)] orders its two ends. *)
Definition newRange (a b : Position) : Range :=
  if isBefore b a then {| start := b; end_ := a |} else {| start := a; end_ := b |}.

(** [new vscode.DocumentLink(range, vscode.Uri.file(path))]; the file URI
    is identified with its path. *)
Record DocumentLink : Type := { range : Range; target : string }.

Record TextDocument : Type := {
  fileName : string;
  getText : string;
  positionAt : Z -> Position
}.

End vscode.

(** ** Module state and the promise monad *)

Module ConfigCacheEntry.

Record t : Type := {
  aliases : JsObject.t (list string);
  lastModified : Z;
  configPath : string
}.

End ConfigCacheEntry.

Inductive Event : Type :=
| Access (p : string)
| Stat (p : string)
| ReadFile (p : string)
| Parse (text : string).

Record State : Type := {
  configCache : JsObject.t ConfigCacheEntry.t;
  configPathCache : JsObject.t (option string);
  documentLinkCache : JsObject.t (list vscode.DocumentLink);
  lastIndex : nat;
  trace : list Event
}.

(** The state of a freshly loaded module. *)
Definition initial : State :=
  {| configCache := []; configPathCache := []; documentLinkCache := [];
     lastIndex := 0; trace := [] |}.

Inductive Outcome (A : Type) : Type :=
| Returns (a : A)
| Throws (e : JsError)
| OutOfFuel.

Arguments Returns {A} a.
Arguments Throws {A} e.
Arguments OutOfFuel {A}.

Definition M (A : Type) : Type := State -> Outcome A * State.

Definition ret {A : Type} (a : A) : M A := fun st => (Returns a, st).

Definition bind {A B : Type} (m : M A) (k : A -> M B) : M B :=
  fun st =>
    match m st with
    | (Returns a, st') => k a st'
    | (Throws e, st') => (Throws e, st')
    | (OutOfFuel, st') => (OutOfFuel, st')
    end.

Definition throw {A : Type} (e : JsError) : M A := fun st => (Throws e, st).

Definition outOfFuel {A : Type} : M A := fun st => (OutOfFuel, st).

(** [try { m } catch { h }] *)
Definition tryCatch {A : Type} (m : M A) (h : M A) : M A :=
  fun st =>
    match m st with
    | (Throws _, st') => h st'
    | r => r
    end.

Definition gets {A : Type} (f : State -> A) : M A := fun st => (Returns (f st), st).

Definition modify (f : State -> State) : M unit := fun st => (Returns tt, f st).

Definition lift {A : Type} (r : JsError + A) : M A :=
  match r with
  | inl e => throw e
  | inr a => ret a
  end.

Declare Scope promise_scope.
Delimit Scope promise_scope with promise.
Notation "x <- m ;; k" := (bind m (fun x => k))
  (at level 61, m at next level, right associativity) : promise_scope.
Notation "m ;; k" := (bind m (fun _ => k))
  (at level 61, right associativity) : promise_scope.

(** [st] after the calls [es] were made. *)
Definition logged (es : list Event) (st : State) : State :=
  {| configCache := configCache st; configPathCache := configPathCache st;
     documentLinkCache := documentLinkCache st; lastIndex := lastIndex st;
     trace := (trace st ++ es)%list |}.

Definition record (e : Event) : M unit := modify (logged [e]).

(** The assignments to the module-level variables. *)
Definition cachedConfig (k : string) (v : ConfigCacheEntry.t) (st : State) : State :=
  {| configCache := JsObject.set k v (configCache st);
     configPathCache := configPathCache st;
     documentLinkCache := documentLinkCache st; lastIndex := lastIndex st;
     trace := trace st |}.

Definition cachedPath (k : string) (v : option string) (st : State) : State :=
  {| configCache := configCache st;
     configPathCache := JsObject.set k v (configPathCache st);
     documentLinkCache := documentLinkCache st; lastIndex := lastIndex st;
     trace := trace st |}.

Definition cachedLinks (k : string) (v : list vscode.DocumentLink) (st : State) : State :=
  {| configCache := configCache st; configPathCache := configPathCache st;
     documentLinkCache := JsObject.set k v (documentLinkCache st);
     lastIndex := lastIndex st; trace := trace st |}.

Definition atIndex (i : nat) (st : State) : State :=
  {| configCache := configCache st; configPathCache := configPathCache st;
     documentLinkCache := documentLinkCache st; lastIndex := i;
     trace := trace st |}.

Definition set_configCache (k : string) (v : ConfigCacheEntry.t) : M unit :=
  modify (cachedConfig k v).

Definition set_configPathCache (k : string) (v : option string) : M unit :=
  modify (cachedPath k v).

Definition set_documentLinkCache (k : string) (v : list vscode.DocumentLink) : M unit :=
  modify (cachedLinks k v).

Definition set_lastIndex (i : nat) : M unit := modify (atIndex i).

(** ** The file system *)

Module fs.

Inductive Kind : Type := RegularFile | Directory | Special.

(** [mtimeMs] is only ever compared with [===]; an integer stands for
    it. *)
Record Node : Type := {
  kind : Kind;
  readable : bool;
  mtimeMs : Z;
  content : string
}.

(** What a path leads to, if anything.  The program never writes. *)
Definition FileSystem : Type := string -> option Node.

Record Stats : Type := { st_kind : Kind; st_mtimeMs : Z }.

Definition isFile (s : Stats) : bool :=
  match st_kind s with RegularFile => true | _ => false end.

Definition isDirectory (s : Stats) : bool :=
  match st_kind s with Directory => true | _ => false end.

(** [fs.access(p, fs.constants.R_OK)] *)
Definition access (disk : FileSystem) (p : string) : M unit :=
  (record (Access p) ;;
   match disk p with
   | Some n => if readable n then ret tt else throw (SystemError "EACCES")
   | None => throw (SystemError "ENOENT")
   end)%promise.

(** [fs.stat(p)] *)
Definition stat (disk : FileSystem) (p : string) : M Stats :=
  (record (Stat p) ;;
   match disk p with
   | Some n => ret {| st_kind := kind n; st_mtimeMs := mtimeMs n |}
   | None => throw (SystemError "ENOENT")
   end)%promise.

(** [fs.readFile(p, 'utf-8')] *)
Definition readFile (disk : FileSystem) (p : string) : M string :=
  (record (ReadFile p) ;;
   match disk p with
   | Some n =>
       if negb (readable n) then throw (SystemError "EACCES")
       else match kind n with
            | Directory => throw (SystemError "EISDIR")
            | _ => ret (content n)
            end
   | None => throw (SystemError "ENOENT")
   end)%promise.

End fs.

(** ** [importRegex]

    The global regular expression of the program: an at sign, [use] or
    [import], any white space, a single or double quote, one or more
    characters that are not quotes (the group), and a single or double
    quote. *)

Module importRegex.

Record RegExpExecArray : Type := {
  index : nat;
  (** [match[0]], the whole match *)
  whole : string;
  (** [match[1]], the quoted specifier *)
  group1 : string
}.

(** [\s] on code units below 256 *)
Definition isSpace (c : ascii) : bool :=
  let n := nat_of_ascii c in
  (((9 <=? n) && (n <=? 13)) || (n =? 32) || (n =? 160))%nat.

Definition isQuote (c : ascii) : bool :=
  let n := nat_of_ascii c in ((n =? 39) || (n =? 34))%nat.

Fixpoint takeWhile (f : ascii -> bool) (s : string) : string :=
  match s with
  | EmptyString => EmptyString
  | String c s' => if f c then String c (takeWhile f s') else EmptyString
  end.

Fixpoint dropWhile (f : ascii -> bool) (s : string) : string :=
  match s with
  | EmptyString => EmptyString
  | String c s' => if f c then dropWhile f s' else s
  end.

(** [(?:use|import)] at the start of [s]: the rest of [s] after it. *)
Definition keyword (s : string) : option string :=
  if String.prefix "use" s then Some (JsString.drop 3 s)
  else if String.prefix "import" s then Some (JsString.drop 6 s)
  else None.

(** The match that starts at the first character of [s], if there is one:
    its length and its group.  Every quantifier is followed by a character
    it cannot match itself, so the greedy choice is the only one. *)
Definition matchHere (s : string) : option (nat * string) :=
  match s with
  | String c r1 =>
      if Ascii.eqb c "@" then
        match keyword r1 with
        | Some r2 =>
            match dropWhile isSpace r2 with
            | String q r4 =>
                if isQuote q then
                  let specifier := takeWhile (fun c => negb (isQuote c)) r4 in
                  match specifier, dropWhile (fun c => negb (isQuote c)) r4 with
                  | String _ _, String _ r6 =>
                      Some (String.length s - String.length r6, specifier)
                  | _, _ => None
                  end
                else None
            | EmptyString => None
            end
        | None => None
        end
      else None
  | EmptyString => None
  end.

(** The leftmost match in [s], whose first character has offset [i]. *)
Fixpoint search (s : string) (i : nat) : option RegExpExecArray :=
  match matchHere s with
  | Some (len, specifier) =>
      Some {| index := i; whole := JsString.slice 0 len s; group1 := specifier |}
  | None =>
      match s with
      | EmptyString => None
      | String _ s' => search s' (S i)
      end
  end.

(** [importRegex.exec(text)]: the regular expression is global, it starts
    at its [lastIndex] and moves it. *)
Definition exec (text : string) : M (option RegExpExecArray) :=
  (i <- gets lastIndex ;;
   if (String.length text <? i)%nat then set_lastIndex 0 ;; ret None
   else match search (JsString.drop i text) i with
        | Some m => set_lastIndex (index m + String.length (whole m)) ;; ret (Some m)
        | None => set_lastIndex 0 ;; ret None
        end)%promise.

End importRegex.

(** ** The program *)

Section Extension.

Context {path_api : path.API} {json_api : JSON.API}.
Variable disk : fs.FileSystem.

Local Open Scope promise_scope.

(** A value of type [string | null] in a condition. *)
Definition truthy (v : option string) : bool :=
  match v with
  | Some s => negb (String.eqb s "")
  | None => false
  end.

Definition fileExists (filePath : string) : M bool :=
  tryCatch (fs.access disk filePath ;; ret true) (ret false).

Fixpoint findNearestConfig_while (fuel : nat) (currentDir : string) : M (option string) :=
  match fuel with
  | O => outOfFuel
  | S fuel' =>
      if negb (String.eqb currentDir (path.root currentDir)) then
        let probe : M (option string) :=
          let tsConfigPath := path.join currentDir "tsconfig.json" in
          found <- fileExists tsConfigPath ;;
          if found then
            set_configPathCache currentDir (Some tsConfigPath) ;;
            ret (Some tsConfigPath)
          else
            let jsConfigPath := path.join currentDir "jsconfig.json" in
            found <- fileExists jsConfigPath ;;
            if found then
              set_configPathCache currentDir (Some jsConfigPath) ;;
              ret (Some jsConfigPath)
            else
              set_configPathCache currentDir None ;;
              findNearestConfig_while fuel' (path.dirname currentDir) in
        cached <- gets (fun st => JsObject.get currentDir (configPathCache st)) ;;
        match cached with
        | Some cachedPath => if truthy cachedPath then ret cachedPath else probe
        | None => probe
        end
      else ret None
  end.

Definition findNearestConfig (fuel : nat) (fileDir : string) : M (option string) :=
  findNearestConfig_while fuel fileDir.

(** [config.compilerOptions?.paths || {}] *)
Definition pathsOf (config : JSON.value) : JsError + JSON.value :=
  match JSON.member config "compilerOptions" with
  | inl e => inl e
  | inr None => inr (JSON.Object [])
  | inr (Some JSON.Null) => inr (JSON.Object [])
  | inr (Some compilerOptions) =>
      match JSON.member compilerOptions "paths" with
      | inl e => inl e
      | inr (Some paths) => inr (if JSON.truthy paths then paths else JSON.Object [])
      | inr None => inr (JSON.Object [])
      end
  end.

(** [p.replace('/*', '')]: the first occurrence of the two characters. *)
Definition stripWildcard (s : string) : string := JsString.replace s "/*" "".

(** [targets.map((p: string) => path.resolve(path.dirname(configPath), p.replace('/*', '')))];
    [p.replace] is a function for a string only. *)
Fixpoint mapTargets (configPath : string) (targets : list JSON.value)
  : JsError + list string :=
  match targets with
  | [] => inr []
  | JSON.String p :: targets' =>
      match mapTargets configPath targets' with
      | inr rest =>
          inr (path.resolve (path.dirname configPath) (stripWildcard p) :: rest)
      | inl e => inl e
      end
  | _ :: _ => inl TypeError
  end.

(** The body of [for (const alias in paths)], over the pairs
    [(alias, paths[alias])]; [paths[alias].map] is a function for an array
    only. *)
Fixpoint buildAliases (configPath : string) (entries : list (string * JSON.value))
  (aliases : JsObject.t (list string)) : JsError + JsObject.t (list string) :=
  match entries with
  | [] => inr aliases
  | (alias, JSON.Array targets) :: entries' =>
      match mapTargets configPath targets with
      | inr actualPaths =>
          buildAliases configPath entries'
            (JsObject.set (stripWildcard alias) actualPaths aliases)
      | inl e => inl e
      end
  | (_, _) :: _ => inl TypeError
  end.

Definition JSON_parse (text : string) : M JSON.value :=
  record (Parse text) ;;
  match JSON.parse text with
  | Some v => ret v
  | None => throw SyntaxError
  end.

Definition getTsConfigAliases (configPath : string) : M (JsObject.t (list string)) :=
  stat <- fs.stat disk configPath ;;
  let lastModified := fs.st_mtimeMs stat in
  cachedConfig <- gets (fun st => JsObject.get configPath (configCache st)) ;;
  let parseConfig : M (JsObject.t (list string)) :=
    configContent <- fs.readFile disk configPath ;;
    config <- JSON_parse configContent ;;
    paths <- lift (pathsOf config) ;;
    aliases <- lift (buildAliases configPath (JSON.forIn paths) []) ;;
    set_configCache configPath
      {| ConfigCacheEntry.aliases := aliases;
         ConfigCacheEntry.lastModified := lastModified;
         ConfigCacheEntry.configPath := configPath |} ;;
    ret aliases in
  match cachedConfig with
  | Some cached =>
      if (ConfigCacheEntry.lastModified cached =? lastModified)%Z
      then ret (ConfigCacheEntry.aliases cached)
      else parseConfig
  | None => parseConfig
  end.

Definition extensions : list string := [""; ".sass"; ".scss"; ".css"].

Fixpoint tryWithExtensions_for (filePath : string) (exts : list string) : M (option string) :=
  match exts with
  | [] => ret None
  | ext :: exts' =>
      let possiblePath := filePath ++ ext in
      found <- fileExists possiblePath ;;
      if found then ret (Some possiblePath)
      else tryWithExtensions_for filePath exts'
  end.

Definition tryWithExtensions (document : vscode.TextDocument) (importPath : string)
  : M (option string) :=
  let filePath := path.join (path.dirname (vscode.fileName document)) importPath in
  tryWithExtensions_for filePath extensions.

Fixpoint resolveAlias_for (relativePath : string) (basePaths : list string)
  : M (option string) :=
  match basePaths with
  | [] => ret None
  | basePath :: basePaths' =>
      let resolvedPath := path.join basePath relativePath in
      found <- fileExists resolvedPath ;;
      if negb found then resolveAlias_for relativePath basePaths'
      else
        stat <- fs.stat disk resolvedPath ;;
        if fs.isFile stat then ret (Some resolvedPath)
        else if negb (fs.isDirectory stat) then ret None
        else
          let indexPath := path.join resolvedPath "index.scss" in
          let mainPath := path.join resolvedPath "main.scss" in
          found <- fileExists indexPath ;;
          if found then ret (Some indexPath)
          else
            found <- fileExists mainPath ;;
            if found then ret (Some mainPath)
            else ret None
  end.

(** [Object.keys(aliases).find(alias => importPath.startsWith(alias))] *)
Definition findAliasKey (importPath : string) (aliases : JsObject.t (list string))
  : option string :=
  List.find (fun alias => JsString.startsWith importPath alias) (JsObject.keys aliases).

(** [resolveAlias] reads its table through [Object.keys] and under the
    keys so listed only: the table is given by its own properties. *)
Definition resolveAlias (document : vscode.TextDocument) (importPath : string)
  (aliases : JsObject.t (list string)) : M (option string) :=
  let aliasKey := findAliasKey importPath aliases in
  if negb (truthy aliasKey) then tryWithExtensions document importPath
  else
    match aliasKey with
    | Some aliasKey =>
        let relativePath := JsString.replace importPath aliasKey "" in
        match JsObject.get aliasKey aliases with
        | Some basePaths => resolveAlias_for relativePath basePaths
        | None => throw TypeError
        end
    | None => tryWithExtensions document importPath
    end.

(** The [while ((match = importRegex.exec(text)) !== null)] loop.  The
    table is the object that [getTsConfigAliases] built; [resolveAlias]
    gets it by its own properties. *)
Fixpoint provideDocumentLinks_while (fuel : nat) (document : vscode.TextDocument)
  (aliases : JsObject.t (list string)) (links : list vscode.DocumentLink)
  : M (list vscode.DocumentLink) :=
  match fuel with
  | O => outOfFuel
  | S fuel' =>
      m <- importRegex.exec (vscode.getText document) ;;
      match m with
      | None => ret links
      | Some m =>
          let alias := importRegex.group1 m in
          let startPos :=
            vscode.positionAt document
              (Z.of_nat (importRegex.index m)
               + JsString.indexOf (importRegex.whole m) alias)%Z in
          let endPos := vscode.translate startPos 0 (Z.of_nat (String.length alias)) in
          let range := vscode.newRange startPos endPos in
          resolvedPath <- resolveAlias document alias (JsObject.own aliases) ;;
          match resolvedPath with
          | Some p =>
              if truthy resolvedPath then
                let link := {| vscode.range := range; vscode.target := p |} in
                provideDocumentLinks_while fuel' document aliases (links ++ [link])%list
              else provideDocumentLinks_while fuel' document aliases links
          | None => provideDocumentLinks_while fuel' document aliases links
          end
      end
  end.

Definition provideDocumentLinks (fuel : nat) (document : vscode.TextDocument)
  : M (list vscode.DocumentLink) :=
  cached <- gets (fun st => JsObject.get (vscode.fileName document) (documentLinkCache st)) ;;
  match cached with
  | Some links => ret links
  | None =>
      let fileDir := path.dirname (vscode.fileName document) in
      configPath <- findNearestConfig fuel fileDir ;;
      match configPath with
      | Some p =>
          if negb (truthy configPath) then ret []
          else
            aliases <- getTsConfigAliases p ;;
            links <- provideDocumentLinks_while fuel document aliases [] ;;
            set_documentLinkCache (vscode.fileName document) links ;;
            ret links
      | None => ret []
      end
  end.

(** The [onDidChangeTextDocument] listener. *)
Definition onDidChangeTextDocument (document : vscode.TextDocument) : M unit :=
  modify (fun st =>
    {| configCache := configCache st; configPathCache := configPathCache st;
       documentLinkCache :=
         filter (fun kv => negb (String.eqb (fst kv) (vscode.fileName document)))
           (documentLinkCache st);
       lastIndex := lastIndex st; trace := trace st |}).

End Extension.

(** ** Vocabulary of the statements *)

(** What [fileExists] answers: something readable is at the path, of
    whatever kind. *)
Definition readableAt (disk : fs.FileSystem) (p : string) : bool :=
  match disk p with
  | Some n => fs.readable n
  | None => false
  end.

(** The path leads to a readable regular file. *)
Definition existsAsFile (disk : fs.FileSystem) (p : string) : bool :=
  match disk p with
  | Some n => fs.readable n && match fs.kind n with fs.RegularFile => true | _ => false end
  | None => false
  end.

(** The candidates up to and including the first one that satisfies [f]. *)
Fixpoint upToFirst {A : Type} (f : A -> bool) (l : list A) : list A :=
  match l with
  | [] => []
  | x :: l' => if f x then [x] else x :: upToFirst f l'
  end.

(** A trailing wildcard marker, and nothing else, removed: the reading of
    the specification, to compare with [stripWildcard]. *)
Fixpoint stripTrailingWildcard (s : string) : string :=
  match s with
  | EmptyString => EmptyString
  | String c s' => if String.eqb s "/*" then EmptyString else String c (stripTrailingWildcard s')
  end.




Section Vocabulary.

Context {path_api : path.API}.


(** Going up from [dir], a root is reached in [n] steps at most. *)
Fixpoint rootWithin (n : nat) (dir : string) : bool :=
  String.eqb dir (path.root dir)
  || match n with
     | O => false
     | S n' => rootWithin n' (path.dirname dir)
     end.

(** The two probes of the walk in the directory [dir]. *)
Definition configProbes (dir : string) : list string :=
  [path.join dir "tsconfig.json"; path.join dir "jsconfig.json"].

(** No configuration file can be read in [dir]. *)
Definition noConfigIn (disk : fs.FileSystem) (dir : string) : bool :=
  forallb (fun p => negb (readableAt disk p)) (configProbes dir).

(** The per-directory cache holds nothing truthy for [dir]. *)
Definition notCachedIn (st : State) (dir : string) : bool :=
  match JsObject.get dir (configPathCache st) with
  | Some cachedPath => negb (truthy cachedPath)
  | None => true
  end.

(** The candidates of the relative fallback for [importPath]. *)
Definition candidates (document : vscode.TextDocument) (importPath : string) : list string :=
  map (fun ext => path.join (path.dirname (vscode.fileName document)) importPath ++ ext)
    extensions.

(** What the loop over the base paths answers, and the calls it makes. *)
Fixpoint resolveFor (disk : fs.FileSystem) (relativePath : string)
  (basePaths : list string)
  : option string * list Event :=
  match basePaths with
  | [] => (None, [])
  | basePath :: basePaths' =>
      let resolvedPath := path.join basePath relativePath in
      match disk resolvedPath with
      | Some node =>
          if fs.readable node then
            match fs.kind node with
            | fs.RegularFile =>
                (Some resolvedPath, [Access resolvedPath; Stat resolvedPath])
            | fs.Special => (None, [Access resolvedPath; Stat resolvedPath])
            | fs.Directory =>
                let indexPath := path.join resolvedPath "index.scss" in
                let mainPath := path.join resolvedPath "main.scss" in
                if readableAt disk indexPath then
                  (Some indexPath,
                   [Access resolvedPath; Stat resolvedPath; Access indexPath])
                else
                  (if readableAt disk mainPath then Some mainPath else None,
                   [Access resolvedPath; Stat resolvedPath; Access indexPath;
                    Access mainPath])
            end
          else
            let '(r, es) := resolveFor disk relativePath basePaths' in
            (r, Access resolvedPath :: es)
      | None =>
          let '(r, es) := resolveFor disk relativePath basePaths' in
          (r, Access resolvedPath :: es)
      end
  end.

End Vocabulary.

Section BuilderVocabulary.

Context {path_api : path.API} {json_api : JSON.API}.

(** The table a configuration text declares: parsed, its alias map
    extracted and normalised. *)
Definition parseAliases (configPath text : string) : JsError + JsObject.t (list string) :=
  match JSON.parse text with
  | None => inl SyntaxError
  | Some config =>
      match pathsOf config with
      | inl e => inl e
      | inr paths => buildAliases configPath (JSON.forIn paths) []
      end
  end.

(** The cached table for [configPath], when its timestamp is [mtime]. *)
Definition freshTable (st : State) (configPath : string) (mtime : Z)
  : option (JsObject.t (list string)) :=
  match JsObject.get configPath (configCache st) with
  | Some cached =>
      if (ConfigCacheEntry.lastModified cached =? mtime)%Z
      then Some (ConfigCacheEntry.aliases cached)
      else None
  | None => None
  end.

End BuilderVocabulary.

(** ** Concrete worlds for the examples *)

Module Examples.

Definition dq : string := String (ascii_of_nat 34) EmptyString.

Definition quoted (s : string) : string := dq ++ s ++ dq.

Definition file (mtime : Z) (text : string) : fs.Node :=
  {| fs.kind := fs.RegularFile; fs.readable := true; fs.mtimeMs := mtime;
     fs.content := text |}.

Definition dir : fs.Node :=
  {| fs.kind := fs.Directory; fs.readable := true; fs.mtimeMs := 0;
     fs.content := "" |}.

Fixpoint diskOf (entries : list (string * fs.Node)) : fs.FileSystem :=
  fun p =>
    match entries with
    | [] => None
    | (q, n) :: entries' => if String.eqb q p then Some n else diskOf entries' p
    end.

(** A configuration text: under [compilerOptions], [paths] maps the alias
    [@styles] with a trailing wildcard marker to the one target [./styles]
    with a trailing marker, and the alias [@a] to the targets [lib] and
    [vendor]. *)
Definition configText : string :=
  "{" ++ quoted "compilerOptions" ++ ":{" ++ quoted "paths" ++ ":{"
  ++ quoted "@styles/*" ++ ":[" ++ quoted "./styles/*" ++ "],"
  ++ quoted "@a" ++ ":[" ++ quoted "lib" ++ "," ++ quoted "vendor" ++ "]}}}".

Definition configValue : JSON.value :=
  JSON.Object
    [("compilerOptions",
      JSON.Object
        [("paths",
          JSON.Object
            [("@styles/*", JSON.Array [JSON.String "./styles/*"]);
             ("@a", JSON.Array [JSON.String "lib"; JSON.String "vendor"])])])].

(** A configuration text whose one alias and its target carry the
    wildcard marker in the middle. *)
Definition midText : string :=
  "{" ++ quoted "compilerOptions" ++ ":{" ++ quoted "paths" ++ ":{"
  ++ quoted "@lib/*/scss" ++ ":[" ++ quoted "./lib/*/scss" ++ "]}}}".

Definition midValue : JSON.value :=
  JSON.Object
    [("compilerOptions",
      JSON.Object
        [("paths",
          JSON.Object
            [("@lib/*/scss", JSON.Array [JSON.String "./lib/*/scss"])])])].

(** A text that is not JSON: an opening brace alone. *)
Definition brokenText : string := "{".

(** [JSON.parse] on the texts of the examples. *)
Definition parseTable : string -> option JSON.value :=
  fun text =>
    if String.eqb text configText then Some configValue
    else if String.eqb text midText then Some midValue
    else None.

Definition json : JSON.API := {| JSON.parse := parseTable |}.

Definition paths : path.API := posix.api "/home/user".

Definition positionAt (text : string) (offset : Z) : vscode.Position :=
  {| vscode.line := 0; vscode.character := offset |}.

Definition document (name text : string) : vscode.TextDocument :=
  {| vscode.fileName := name; vscode.getText := text;
     vscode.positionAt := positionAt text |}.

(** A project with a configuration file, a directory alias target and
    relative candidates next to the document. *)
Definition project (configMtime : Z) (config : string) : fs.FileSystem :=
  diskOf
    [ ("/proj", dir);
      ("/proj/tsconfig.json", file configMtime config);
      ("/proj/styles", dir);
      ("/proj/styles/button", dir);
      ("/proj/styles/button/index.scss", file 1 "");
      ("/proj/styles/button/main.scss", file 1 "");
      ("/proj/vendor", dir);
      ("/proj/vendor/bc", dir);
      ("/proj/vendor/bc/main.scss", file 1 "");
      ("/proj/src", dir);
      ("/proj/src/app.scss", file 1 "");
      ("/proj/src/foo", dir);
      ("/proj/src/foo.scss", file 1 "");
      ("/proj/src/foo.css", file 1 "");
      ("/proj/src/bar.scss", file 1 "");
      ("/proj/src/bar.css", file 1 "") ].

Definition appText : string :=
  "@use '@styles/button';" ++ "@import './bar';" ++ "@use '@abc';" ++ "@use './foo';"
  ++ "@use 'missing';".

Definition app : vscode.TextDocument := document "/proj/src/app.scss" appText.

Definition link (first last : Z) (path : string) : vscode.DocumentLink :=
  {| vscode.range :=
       {| vscode.start := {| vscode.line := 0; vscode.character := first |};
          vscode.end_ := {| vscode.line := 0; vscode.character := last |} |};
     vscode.target := path |}.

(** The links of [app] in [project]. *)
Definition appLinks : list vscode.DocumentLink :=
  [ link 6 20 "/proj/styles/button/index.scss";
    link 31 36 "/proj/src/bar.scss";
    link 44 48 "/proj/vendor/bc/main.scss";
    link 56 61 "/proj/src/foo" ].

(** A tree whose only configuration file sits in the root directory. *)
Definition rootOnly : fs.FileSystem :=
  diskOf
    [ ("/", dir);
      ("/tsconfig.json", file 1 configText);
      ("/jsconfig.json", file 1 configText);
      ("/work", dir);
      ("/work/css", dir);
      ("/work/css/site.scss", file 1 "");
      ("/work/page.scss", file 1 "") ].

Definition site : vscode.TextDocument :=
  document "/work/css/site.scss" "@use './other';".

Definition page : vscode.TextDocument :=
  document "/work/page.scss" "@import './css/site';".

End Examples.

(** ** Vocabulary of the further properties *)

Section LocatorVocabulary.

Context {path_api : path.API}.

(** What a probe of [dir] answers on [disk]: [tsconfig.json] first. *)
Definition probeAnswer (disk : fs.FileSystem) (dir : string) : option string :=
  if readableAt disk (path.join dir "tsconfig.json")
  then Some (path.join dir "tsconfig.json")
  else if readableAt disk (path.join dir "jsconfig.json")
  then Some (path.join dir "jsconfig.json")
  else None.

(** The nearest configuration file by the file system alone: the answer of
    the first directory, from [dir] upwards and below the root, whose probe
    answers. *)
Fixpoint nearestConfig (disk : fs.FileSystem) (fuel : nat) (dir : string)
  : Outcome (option string) :=
  match fuel with
  | O => OutOfFuel
  | S fuel' =>
      if String.eqb dir (path.root dir) then Returns None
      else match probeAnswer disk dir with
           | Some p => Returns (Some p)
           | None => nearestConfig disk fuel' (path.dirname dir)
           end
  end.

(** Every truthy entry of the per-directory cache is what a probe of its
    directory answers on [disk]. *)
Definition cacheSound (disk : fs.FileSystem) (st : State) : Prop :=
  forall dir p,
    JsObject.get dir (configPathCache st) = Some (Some p) ->
    p <> "" ->
    probeAnswer disk dir = Some p.

End LocatorVocabulary.

(** A declared alias the loop accepts: its value is an array of strings. *)
Definition isStringArray (v : JSON.value) : bool :=
  match v with
  | JSON.Array items =>
      forallb (fun item => match item with JSON.String _ => true | _ => false end) items
  | _ => false
  end.

(** The properties of a parsed configuration object declare no alias. *)
Definition declaresNoAlias (props : JsObject.t JSON.value) : bool :=
  match JsObject.get "compilerOptions" props with
  | Some (JSON.Object options) =>
      match JsObject.get "paths" options with
      | Some paths => negb (JSON.truthy paths)
      | None => true
      end
  | _ => true
  end.

Module MoreExamples.

(** A configuration text that is an empty object, and one whose alias [@x]
    maps to the string [src] instead of an array. *)
Definition emptyText : string := "{}".

Definition badText : string :=
  "{" ++ Examples.quoted "compilerOptions" ++ ":{" ++ Examples.quoted "paths" ++ ":{"
  ++ Examples.quoted "@x" ++ ":" ++ Examples.quoted "src" ++ "}}}".

Definition badValue : JSON.value :=
  JSON.Object
    [("compilerOptions",
      JSON.Object [("paths", JSON.Object [("@x", JSON.String "src")])])].

Definition json : JSON.API :=
  {| JSON.parse := fun text =>
       if String.eqb text emptyText then Some (JSON.Object [])
       else if String.eqb text badText then Some badValue
       else Examples.parseTable text |}.

End MoreExamples.

(** ** Vocabulary of the import pattern *)

(** Every character of [s] satisfies [f]. *)
Fixpoint every (f : ascii -> bool) (s : string) : bool :=
  match s with
  | EmptyString => true
  | String c s' => f c && every f s'
  end.

Definition notQuote (c : ascii) : bool := negb (importRegex.isQuote c).

(** The texts the pattern matches from their first character on: an at
    sign, a keyword, white space, a quote, a specifier without quotes that
    is not empty, and a quote. *)
Definition importShape (kw ws : string) (q1 : ascii) (specifier : string) (q2 : ascii)
  : Prop :=
  (kw = "use" \/ kw = "import")
  /\ every importRegex.isSpace ws = true
  /\ importRegex.isQuote q1 = true
  /\ specifier <> ""
  /\ every notQuote specifier = true
  /\ importRegex.isQuote q2 = true.

Definition importText (kw ws : string) (q1 : ascii) (specifier : string) (q2 : ascii)
  : string :=
  "@" ++ kw ++ ws ++ String q1 (specifier ++ String q2 "").

(** ** Activation and settings

    The module variables of the program next to the caches, and what the
    editor holds for it: the settings of the section [sass-alias], the live
    registrations of link providers, the listeners, the subscriptions of
    the extension context and the lines of the output channel.  The two
    settings are taken to hold booleans where they are set.  The messages
    of [debug] are kept for [activate], its two listeners and
    [deactivate]; the calls of a link provider run one after the other. *)

Module WorkspaceConfiguration.

Record t : Type := { enabled : option bool; debugMode : option bool }.

(** [extensionConfig.get<boolean>(key, defaultValue)] *)
Definition get (value : option bool) (defaultValue : bool) : bool :=
  match value with
  | Some b => b
  | None => defaultValue
  end.

End WorkspaceConfiguration.

Module Activation.

Inductive ExtensionMode : Type := Production | Development | Test.

Definition isDevelopmentMode (mode : ExtensionMode) : bool :=
  match mode with
  | Development => true
  | _ => false
  end.

(** A disposable is named by its rank among the registrations made. *)
Definition Disposable : Type := nat.

Record World : Type := {
  (** the module variables *)
  debugMode : bool;
  isEnabled : bool;
  isDevelopment : bool;
  provider : option Disposable;
  memory : State;
  (** the editor *)
  configuration : WorkspaceConfiguration.t;
  extensionMode : ExtensionMode;
  linkProviders : list Disposable;
  registrations : nat;
  subscriptions : list Disposable;
  textListeners : nat;
  configurationListeners : nat;
  outputChannel : list string
}.

(** The module has been loaded: its variables hold their initial values. *)
Definition loaded (settings : WorkspaceConfiguration.t) (mode : ExtensionMode) : World :=
  {| debugMode := WorkspaceConfiguration.get (WorkspaceConfiguration.debugMode settings) false;
     isEnabled := WorkspaceConfiguration.get (WorkspaceConfiguration.enabled settings) true;
     isDevelopment := false;
     provider := None;
     memory := initial;
     configuration := settings;
     extensionMode := mode;
     linkProviders := [];
     registrations := 0;
     subscriptions := [];
     textListeners := 0;
     configurationListeners := 0;
     outputChannel := [] |}.

Definition appendLine (msg : string) (w : World) : World :=
  {| debugMode := debugMode w; isEnabled := isEnabled w;
     isDevelopment := isDevelopment w; provider := provider w; memory := memory w;
     configuration := configuration w; extensionMode := extensionMode w;
     linkProviders := linkProviders w; registrations := registrations w;
     subscriptions := subscriptions w; textListeners := textListeners w;
     configurationListeners := configurationListeners w;
     outputChannel := (outputChannel w ++ [msg])%list |}.

Definition debug (msg : string) (w : World) : World :=
  if debugMode w || isDevelopment w then appendLine msg w else w.

Definition set_debugMode (b : bool) (w : World) : World :=
  {| debugMode := b; isEnabled := isEnabled w;
     isDevelopment := isDevelopment w; provider := provider w; memory := memory w;
     configuration := configuration w; extensionMode := extensionMode w;
     linkProviders := linkProviders w; registrations := registrations w;
     subscriptions := subscriptions w; textListeners := textListeners w;
     configurationListeners := configurationListeners w;
     outputChannel := outputChannel w |}.

Definition set_isEnabled (b : bool) (w : World) : World :=
  {| debugMode := debugMode w; isEnabled := b;
     isDevelopment := isDevelopment w; provider := provider w; memory := memory w;
     configuration := configuration w; extensionMode := extensionMode w;
     linkProviders := linkProviders w; registrations := registrations w;
     subscriptions := subscriptions w; textListeners := textListeners w;
     configurationListeners := configurationListeners w;
     outputChannel := outputChannel w |}.

Definition set_isDevelopment (b : bool) (w : World) : World :=
  {| debugMode := debugMode w; isEnabled := isEnabled w;
     isDevelopment := b; provider := provider w; memory := memory w;
     configuration := configuration w; extensionMode := extensionMode w;
     linkProviders := linkProviders w; registrations := registrations w;
     subscriptions := subscriptions w; textListeners := textListeners w;
     configurationListeners := configurationListeners w;
     outputChannel := outputChannel w |}.

Definition set_memory (m : State) (w : World) : World :=
  {| debugMode := debugMode w; isEnabled := isEnabled w;
     isDevelopment := isDevelopment w; provider := provider w; memory := m;
     configuration := configuration w; extensionMode := extensionMode w;
     linkProviders := linkProviders w; registrations := registrations w;
     subscriptions := subscriptions w; textListeners := textListeners w;
     configurationListeners := configurationListeners w;
     outputChannel := outputChannel w |}.

Definition set_configuration (settings : WorkspaceConfiguration.t) (w : World) : World :=
  {| debugMode := debugMode w; isEnabled := isEnabled w;
     isDevelopment := isDevelopment w; provider := provider w; memory := memory w;
     configuration := settings; extensionMode := extensionMode w;
     linkProviders := linkProviders w; registrations := registrations w;
     subscriptions := subscriptions w; textListeners := textListeners w;
     configurationListeners := configurationListeners w;
     outputChannel := outputChannel w |}.

(** [registerProvider(context)]: the registration is live, it is kept in
    [provider] and pushed to the subscriptions of the context. *)
Definition registerProvider (w : World) : World :=
  let d := registrations w in
  {| debugMode := debugMode w; isEnabled := isEnabled w;
     isDevelopment := isDevelopment w; provider := Some d; memory := memory w;
     configuration := configuration w; extensionMode := extensionMode w;
     linkProviders := (linkProviders w ++ [d])%list; registrations := S d;
     subscriptions := (subscriptions w ++ [d])%list; textListeners := textListeners w;
     configurationListeners := configurationListeners w;
     outputChannel := outputChannel w |}.

(** [provider.dispose()] followed by [provider = undefined] *)
Definition disposeProvider (d : Disposable) (w : World) : World :=
  {| debugMode := debugMode w; isEnabled := isEnabled w;
     isDevelopment := isDevelopment w; provider := None; memory := memory w;
     configuration := configuration w; extensionMode := extensionMode w;
     linkProviders := filter (fun d' => negb (Nat.eqb d' d)) (linkProviders w);
     registrations := registrations w;
     subscriptions := subscriptions w; textListeners := textListeners w;
     configurationListeners := configurationListeners w;
     outputChannel := outputChannel w |}.

(** [vscode.workspace.onDidChangeTextDocument(listener)] *)
Definition addTextListener (w : World) : World :=
  {| debugMode := debugMode w; isEnabled := isEnabled w;
     isDevelopment := isDevelopment w; provider := provider w; memory := memory w;
     configuration := configuration w; extensionMode := extensionMode w;
     linkProviders := linkProviders w; registrations := registrations w;
     subscriptions := subscriptions w; textListeners := S (textListeners w);
     configurationListeners := configurationListeners w;
     outputChannel := outputChannel w |}.

(** [vscode.workspace.onDidChangeConfiguration(listener)] *)
Definition addConfigurationListener (w : World) : World :=
  {| debugMode := debugMode w; isEnabled := isEnabled w;
     isDevelopment := isDevelopment w; provider := provider w; memory := memory w;
     configuration := configuration w; extensionMode := extensionMode w;
     linkProviders := linkProviders w; registrations := registrations w;
     subscriptions := subscriptions w; textListeners := textListeners w;
     configurationListeners := S (configurationListeners w);
     outputChannel := outputChannel w |}.

(** The listener of [onDidChangeTextDocument], with its message. *)
Definition textListener (document : vscode.TextDocument) (w : World) : World :=
  match JsObject.get (vscode.fileName document) (documentLinkCache (memory w)) with
  | Some _ =>
      let w := debug ("Document edited: " ++ vscode.fileName document
                      ++ ", invalidating link cache") w in
      set_memory (snd (onDidChangeTextDocument document (memory w))) w
  | None => w
  end.

(** The listener of [onDidChangeConfiguration]; [affectsConfiguration] is
    the method of the event. *)
Definition configurationListener (affectsConfiguration : string -> bool) (w : World)
  : World :=
  let w :=
    if affectsConfiguration "sass-alias.enabled" then
      let w :=
        set_isEnabled
          (WorkspaceConfiguration.get
             (WorkspaceConfiguration.enabled (configuration w)) true) w in
      if negb (isEnabled w) then
        let w := debug "Extension disabled via settings." w in
        match provider w with
        | Some d => disposeProvider d w
        | None => w
        end
      else
        let w := debug "Extension enabled via settings." w in
        match provider w with
        | None => registerProvider w
        | Some _ => w
        end
    else w in
  if affectsConfiguration "sass-alias.debugMode" then
    let w :=
      set_debugMode
        (WorkspaceConfiguration.get
           (WorkspaceConfiguration.debugMode (configuration w)) false) w in
    debug "Debug mode changed via settings." w
  else w.

Definition activate (w : World) : World :=
  let w :=
    set_debugMode
      (WorkspaceConfiguration.get
         (WorkspaceConfiguration.debugMode (configuration w)) false) w in
  let w :=
    set_isEnabled
      (WorkspaceConfiguration.get
         (WorkspaceConfiguration.enabled (configuration w)) true) w in
  let w := set_isDevelopment (isDevelopmentMode (extensionMode w)) w in
  if negb (isEnabled w) then debug "Extension is disabled via settings." w
  else
    let w := debug "Sass Alias Fixer extension activated" w in
    let w := addTextListener w in
    let w :=
      match provider w with
      | None => registerProvider w
      | Some _ => w
      end in
    addConfigurationListener w.

Definition deactivate (w : World) : World :=
  debug "Sass Alias Fixer extension deactivated" w.

(** What [debug] and the calls of the provider leave alone. *)
Definition sameRegistrations (w w' : World) : Prop :=
  isEnabled w' = isEnabled w
  /\ provider w' = provider w
  /\ configuration w' = configuration w
  /\ linkProviders w' = linkProviders w
  /\ registrations w' = registrations w
  /\ subscriptions w' = subscriptions w
  /\ textListeners w' = textListeners w
  /\ configurationListeners w' = configurationListeners w.

(** The registration follows the variable [isEnabled]. *)
Definition live (w : World) : Prop :=
  textListeners w = 1
  /\ configurationListeners w = 1
  /\ linkProviders w = match provider w with Some d => [d] | None => [] end
  /\ (isEnabled w = true <-> provider w <> None)
  /\ subscriptions w = seq 0 (registrations w).

(** What no event reaches when no listener is registered. *)
Definition idle (w : World) : Prop :=
  linkProviders w = [] /\ provider w = None /\ textListeners w = 0
  /\ configurationListeners w = 0 /\ isEnabled w = false /\ memory w = initial.

(** What stays when nothing switches the messages on. *)
Definition quiet (w : World) : Prop :=
  debugMode w = false /\ isDevelopment w = false /\ outputChannel w = [].

Section Editor.

Context {path_api : path.API} {json_api : JSON.API}.

(** The editor asks every live registration for the links of a document;
    all registrations carry the one provider of the program. *)
Definition provideLinks (disk : fs.FileSystem) (fuel : nat)
  (document : vscode.TextDocument) (w : World)
  : list (Outcome (list vscode.DocumentLink)) * World :=
  let '(answers, m) :=
    fold_left
      (fun acc (_ : Disposable) =>
         let '(answers, m) := acc in
         let '(answer, m') := provideDocumentLinks disk fuel document m in
         ((answers ++ [answer])%list, m'))
      (linkProviders w) ([], memory w) in
  (answers, set_memory m w).

(** What happens in the editor while the extension is active. *)
Inductive HostEvent : Type :=
| SettingsChanged (settings : WorkspaceConfiguration.t)
    (affectsConfiguration : string -> bool)
| DocumentChanged (document : vscode.TextDocument)
| LinksRequested (disk : fs.FileSystem) (fuel : nat) (document : vscode.TextDocument).

Definition deliver (e : HostEvent) (w : World) : World :=
  match e with
  | SettingsChanged settings affectsConfiguration =>
      Nat.iter (configurationListeners w) (configurationListener affectsConfiguration)
        (set_configuration settings w)
  | DocumentChanged document =>
      Nat.iter (textListeners w) (textListener document) w
  | LinksRequested disk fuel document => snd (provideLinks disk fuel document w)
  end.

Fixpoint run (events : list HostEvent) (w : World) : World :=
  match events with
  | [] => w
  | e :: events' => run events' (deliver e w)
  end.

(** The events tell the truth about the setting [enabled]: a change of
    its value is announced by [affectsConfiguration]. *)
Fixpoint announced (current : WorkspaceConfiguration.t) (events : list HostEvent) : Prop :=
  match events with
  | [] => True
  | SettingsChanged settings affectsConfiguration :: events' =>
      (WorkspaceConfiguration.get (WorkspaceConfiguration.enabled settings) true
       <> WorkspaceConfiguration.get (WorkspaceConfiguration.enabled current) true ->
       affectsConfiguration "sass-alias.enabled" = true)
      /\ announced settings events'
  | _ :: events' => announced current events'
  end.

(** No settings of the events switch the debug mode on. *)
Fixpoint debugOff (events : list HostEvent) : Prop :=
  match events with
  | [] => True
  | SettingsChanged settings _ :: events' =>
      WorkspaceConfiguration.get (WorkspaceConfiguration.debugMode settings) false = false
      /\ debugOff events'
  | _ :: events' => debugOff events'
  end.

Definition settingsOnly (e : HostEvent) : bool :=
  match e with
  | SettingsChanged _ _ => true
  | _ => false
  end.

End Editor.

End Activation.

Module ActivationExamples.

Definition defaults : WorkspaceConfiguration.t :=
  {| WorkspaceConfiguration.enabled := None; WorkspaceConfiguration.debugMode := None |}.

Definition switched (on : bool) : WorkspaceConfiguration.t :=
  {| WorkspaceConfiguration.enabled := Some on;
     WorkspaceConfiguration.debugMode := None |}.

(** An event of the settings that affects every section. *)
Definition changed (settings : WorkspaceConfiguration.t) : Activation.HostEvent :=
  Activation.SettingsChanged settings (fun _ => true).

Definition scanned : Activation.HostEvent :=
  Activation.LinksRequested (Examples.project 100 Examples.configText) 30 Examples.app.

End ActivationExamples.

(** * Properties *)

(** ** Strings *)

Lemma prefix_app (k rest : string) : String.prefix k (k ++ rest) = true.
Proof.
  induction k as [|c k IH]; simpl.
  - destruct rest; reflexivity.
  - rewrite IH. destruct (ascii_dec c c); [reflexivity | contradiction].
Qed.

Lemma prefix_split (k s : string) :
  String.prefix k s = true -> s = k ++ JsString.drop (String.length k) s.
Proof.
  revert s. induction k as [|c k IH]; intros s H; simpl.
  - reflexivity.
  - destruct s as [|d s]; simpl in H; [discriminate|].
    destruct (ascii_dec c d) as [->|]; [|discriminate].
    simpl. f_equal. apply IH, H.
Qed.

Lemma drop_app (k rest : string) : JsString.drop (String.length k) (k ++ rest) = rest.
Proof. induction k; simpl; [destruct rest; reflexivity | assumption]. Qed.

(** Removing a prefix with [replace] leaves what follows it. *)
Lemma replace_prefix (k s : string) :
  String.prefix k s = true -> JsString.replace s k "" = JsString.drop (String.length k) s.
Proof. intros H. destruct s; cbn [JsString.replace]; rewrite H; reflexivity. Qed.

Lemma includes_cons (c : ascii) (s pat : string) :
  JsString.includes (String c s) pat = false ->
  String.prefix pat (String c s) = false /\ JsString.includes s pat = false.
Proof.
  intros H. cbn [JsString.includes] in H.
  destruct (String.prefix pat (String c s)); [discriminate | auto].
Qed.

Lemma stripWildcard_absent (s : string) :
  JsString.includes s "/*" = false -> stripWildcard s = s.
Proof.
  unfold stripWildcard. induction s as [|c s IH]; intros H.
  - reflexivity.
  - apply includes_cons in H as [Hp Hi].
    cbn [JsString.replace]. rewrite Hp. f_equal. apply IH, Hi.
Qed.

Lemma prefix_nil (s : string) : String.prefix "" s = true.
Proof. destruct s; reflexivity. Qed.

Lemma prefix_cons (c d : ascii) (p s : string) :
  String.prefix (String c p) (String d s)
  = if ascii_dec c d then String.prefix p s else false.
Proof. reflexivity. Qed.

Lemma stripWildcard_first (a b : string) :
  JsString.includes a "/*" = false -> stripWildcard (a ++ "/*" ++ b) = a ++ b.
Proof.
  unfold stripWildcard. induction a as [|c a IH]; intros H.
  - destruct b; reflexivity.
  - apply includes_cons in H as [Hp Hi].
    change (String c a ++ "/*" ++ b) with (String c (a ++ "/*" ++ b)).
    cbn [JsString.replace].
    assert (Hq : String.prefix "/*" (String c (a ++ "/*" ++ b)) = false).
    { destruct a as [|d a].
      - change ("" ++ "/*" ++ b) with (String "/" (String "*" b)).
        rewrite !prefix_cons.
        destruct (ascii_dec "/" c); [|reflexivity].
        destruct (ascii_dec "*" "/"); [discriminate | reflexivity].
      - change (String d a ++ "/*" ++ b) with (String d (a ++ "/*" ++ b)).
        rewrite !prefix_cons, prefix_nil in *. exact Hp. }
    rewrite Hq. change (String c a ++ b) with (String c (a ++ b)).
    f_equal. apply IH, Hi.
Qed.

(** ** Object properties *)

Section ObjectLemmas.

Context {V : Type}.

Lemma get_update_eq (k : string) (v : V) (o : JsObject.t V) :
  JsObject.has k o = true -> JsObject.get k (JsObject.update k v o) = Some v.
Proof.
  unfold JsObject.has. induction o as [|[k' v'] o IH]; simpl; intros H.
  - discriminate.
  - destruct (String.eqb k' k) eqn:E; simpl.
    + rewrite String.eqb_refl. reflexivity.
    + rewrite E. apply IH, H.
Qed.

Lemma get_update_ne (k k' : string) (v : V) (o : JsObject.t V) :
  k <> k' -> JsObject.get k' (JsObject.update k v o) = JsObject.get k' o.
Proof.
  intros Hne. induction o as [|[k'' v''] o IH]; simpl.
  - reflexivity.
  - destruct (String.eqb k'' k) eqn:E; simpl.
    + apply String.eqb_eq in E. subst k''.
      apply String.eqb_neq in Hne. rewrite Hne. reflexivity.
    + rewrite IH. reflexivity.
Qed.

Lemma get_insert_new_eq (k : string) (v : V) (o : JsObject.t V) :
  JsObject.has k o = false -> JsObject.get k (JsObject.insert_new k v o) = Some v.
Proof.
  unfold JsObject.has. induction o as [|[k' v'] o IH]; simpl; intros H.
  - rewrite String.eqb_refl. reflexivity.
  - destruct (String.eqb k' k) eqn:E; [discriminate|].
    destruct (JsObject.precedes k k'); simpl.
    + rewrite String.eqb_refl. reflexivity.
    + rewrite E. apply IH, H.
Qed.

Lemma get_insert_new_ne (k k' : string) (v : V) (o : JsObject.t V) :
  k <> k' -> JsObject.get k' (JsObject.insert_new k v o) = JsObject.get k' o.
Proof.
  intros Hne. apply String.eqb_neq in Hne.
  induction o as [|[k'' v''] o IH]; simpl.
  - rewrite Hne. reflexivity.
  - destruct (JsObject.precedes k k''); simpl.
    + rewrite Hne. reflexivity.
    + rewrite IH. reflexivity.
Qed.

Lemma get_set_eq (k : string) (v : V) (o : JsObject.t V) :
  JsObject.get k (JsObject.set k v o) = Some v.
Proof.
  unfold JsObject.set. destruct (JsObject.has k o) eqn:E.
  - apply get_update_eq, E.
  - apply get_insert_new_eq, E.
Qed.

Lemma get_set_ne (k k' : string) (v : V) (o : JsObject.t V) :
  k <> k' -> JsObject.get k' (JsObject.set k v o) = JsObject.get k' o.
Proof.
  intros Hne. unfold JsObject.set. destruct (JsObject.has k o).
  - apply get_update_ne, Hne.
  - apply get_insert_new_ne, Hne.
Qed.

Lemma get_of_key (k : string) (o : JsObject.t V) :
  In k (JsObject.keys o) -> exists v, JsObject.get k o = Some v.
Proof.
  induction o as [|[k' v'] o IH]; simpl; intros H.
  - contradiction.
  - destruct (String.eqb k' k) eqn:E; [eauto|].
    destruct H as [H|H]; [|auto].
    apply String.eqb_neq in E. contradiction.
Qed.

End ObjectLemmas.

(** ** Runs of the primitive operations *)

Lemma logged_nil (st : State) : logged [] st = st.
Proof. destruct st; unfold logged; simpl; rewrite app_nil_r; reflexivity. Qed.

Lemma logged_logged (es1 es2 : list Event) (st : State) :
  logged es2 (logged es1 st) = logged (es1 ++ es2) st.
Proof. unfold logged; simpl; rewrite app_assoc; reflexivity. Qed.

Lemma fileExists_run (disk : fs.FileSystem) (p : string) (st : State) :
  fileExists disk p st = (Returns (readableAt disk p), logged [Access p] st).
Proof.
  unfold fileExists, tryCatch, fs.access, bind, record, modify, readableAt, ret, throw.
  destruct (disk p) as [n|]; [destruct (fs.readable n)|]; reflexivity.
Qed.

Lemma stat_run (disk : fs.FileSystem) (p : string) (st : State) :
  fs.stat disk p st
  = (match disk p with
     | Some n => Returns {| fs.st_kind := fs.kind n; fs.st_mtimeMs := fs.mtimeMs n |}
     | None => Throws (SystemError "ENOENT")
     end, logged [Stat p] st).
Proof.
  unfold fs.stat, bind, record, modify, ret, throw.
  destruct (disk p); reflexivity.
Qed.

(** ** The config locator *)

Section Locator.

Context {path_api : path.API}.
Variable disk : fs.FileSystem.

(** One turn of the loop of [findNearestConfig]. *)
Lemma findNearestConfig_while_step (fuel : nat) (dir : string) (st : State) :
  findNearestConfig_while disk (S fuel) dir st
  = if String.eqb dir (path.root dir) then (Returns None, st)
    else if notCachedIn st dir then
      let tsConfigPath := path.join dir "tsconfig.json" in
      let jsConfigPath := path.join dir "jsconfig.json" in
      if readableAt disk tsConfigPath then
        (Returns (Some tsConfigPath),
         cachedPath dir (Some tsConfigPath) (logged [Access tsConfigPath] st))
      else if readableAt disk jsConfigPath then
        (Returns (Some jsConfigPath),
         cachedPath dir (Some jsConfigPath)
           (logged [Access tsConfigPath; Access jsConfigPath] st))
      else
        findNearestConfig_while disk fuel (path.dirname dir)
          (cachedPath dir None (logged [Access tsConfigPath; Access jsConfigPath] st))
    else (Returns (match JsObject.get dir (configPathCache st) with
                   | Some cachedPath => cachedPath
                   | None => None
                   end), st).
Proof.
  cbn [findNearestConfig_while]. unfold notCachedIn.
  destruct (String.eqb dir (path.root dir)); [reflexivity|]. cbn [negb].
  unfold bind at 1, gets at 1.
  assert (Hprobe :
    bind (fileExists disk (path.join dir "tsconfig.json"))
      (fun found : bool =>
       if found
       then bind (set_configPathCache dir (Some (path.join dir "tsconfig.json")))
              (fun _ => ret (Some (path.join dir "tsconfig.json")))
       else bind (fileExists disk (path.join dir "jsconfig.json"))
              (fun found0 : bool =>
               if found0
               then bind (set_configPathCache dir (Some (path.join dir "jsconfig.json")))
                      (fun _ => ret (Some (path.join dir "jsconfig.json")))
               else bind (set_configPathCache dir None)
                      (fun _ => findNearestConfig_while disk fuel (path.dirname dir)))) st
    = if readableAt disk (path.join dir "tsconfig.json") then
        (Returns (Some (path.join dir "tsconfig.json")),
         cachedPath dir (Some (path.join dir "tsconfig.json"))
           (logged [Access (path.join dir "tsconfig.json")] st))
      else if readableAt disk (path.join dir "jsconfig.json") then
        (Returns (Some (path.join dir "jsconfig.json")),
         cachedPath dir (Some (path.join dir "jsconfig.json"))
           (logged [Access (path.join dir "tsconfig.json");
                    Access (path.join dir "jsconfig.json")] st))
      else
        findNearestConfig_while disk fuel (path.dirname dir)
          (cachedPath dir None
             (logged [Access (path.join dir "tsconfig.json");
                      Access (path.join dir "jsconfig.json")] st))).
  { unfold bind at 1. rewrite fileExists_run.
    destruct (readableAt disk (path.join dir "tsconfig.json")); [reflexivity|].
    unfold bind at 1. rewrite fileExists_run, logged_logged.
    destruct (readableAt disk (path.join dir "jsconfig.json")); reflexivity. }
  destruct (JsObject.get dir (configPathCache st)) as [cachedPath|].
  - destruct (truthy cachedPath); [reflexivity | exact Hprobe].
  - exact Hprobe.
Qed.

End Locator.

Section Walk.

Context {path_api : path.API}.
Variable disk : fs.FileSystem.




(** Recording that a directory holds no configuration leaves every
    directory without a truthy entry as it was: the recorded value is
    [null]. *)
Lemma notCachedIn_cachedPath_none (dir c : string) (st : State) :
  notCachedIn st c = true -> notCachedIn (cachedPath dir None st) c = true.
Proof.
  unfold notCachedIn, cachedPath; simpl. intros H.
  destruct (String.eqb dir c) eqn:E.
  - apply String.eqb_eq in E. subst c. rewrite get_set_eq. reflexivity.
  - apply String.eqb_neq in E. rewrite get_set_ne by exact E. exact H.
Qed.


(** A walk that answers [null] has only recorded [null]s: a directory
    without a truthy entry before has none after, and the other module
    variables are untouched. *)
Lemma findNearestConfig_null_state (fuel : nat) (dir : string) (st st' : State) :
  findNearestConfig disk fuel dir st = (Returns None, st') ->
  (forall c, notCachedIn st c = true -> notCachedIn st' c = true)
  /\ (String.eqb dir (path.root dir) = false -> notCachedIn st' dir = true)
  /\ configCache st' = configCache st
  /\ documentLinkCache st' = documentLinkCache st
  /\ lastIndex st' = lastIndex st.
Proof.
  unfold findNearestConfig. revert dir st.
  induction fuel as [|fuel IH]; intros dir st H.
  - discriminate.
  - rewrite findNearestConfig_while_step in H.
    destruct (String.eqb dir (path.root dir)) eqn:E.
    { inversion H; subst. repeat split; auto. discriminate. }
    destruct (notCachedIn st dir) eqn:Hc.
    2:{ unfold notCachedIn in Hc.
        destruct (JsObject.get dir (configPathCache st)) as [[p|]|];
          simpl in Hc; discriminate. }
    cbv zeta in H.
    destruct (readableAt disk (path.join dir "tsconfig.json")); [discriminate|].
    destruct (readableAt disk (path.join dir "jsconfig.json")); [discriminate|].
    apply IH in H as (Hpres & _ & H1 & H2 & H3).
    assert (Hall : forall c, notCachedIn st c = true -> notCachedIn st' c = true).
    { intros c Hn. apply Hpres, notCachedIn_cachedPath_none. exact Hn. }
    repeat split; auto.
Qed.


End Walk.

(** C2 at the failing input.  After a first walk from [/work/css] found
    nothing, the per-directory cache holds [null] for [/work/css] and for
    [/work]; the next walk still probes both directories on the file
    system: the test [if (configPathCache[currentDir])] takes the cached
    [null] for a miss. *)
Theorem cached_none_is_probed_again :
  let st1 :=
    snd (findNearestConfig (path_api := Examples.paths) Examples.rootOnly 10
           "/work/css" initial) in
  JsObject.get "/work/css" (configPathCache st1) = Some None
  /\ JsObject.get "/work" (configPathCache st1) = Some None
  /\ trace (snd (findNearestConfig (path_api := Examples.paths) Examples.rootOnly 10
                   "/work/css" st1))
     = (trace st1
        ++ [Access "/work/css/tsconfig.json"; Access "/work/css/jsconfig.json";
            Access "/work/tsconfig.json"; Access "/work/jsconfig.json"])%list.
Proof. vm_compute. repeat split; reflexivity. Qed.

(** The other half of the cache test: a cached path answers at once. *)
Lemma cached_path_short_circuits {path_api : path.API}
  (disk : fs.FileSystem) (fuel : nat) (dir p : string) (st : State) :
  String.eqb dir (path.root dir) = false ->
  JsObject.get dir (configPathCache st) = Some (Some p) ->
  p <> "" ->
  findNearestConfig disk (S fuel) dir st = (Returns (Some p), st).
Proof.
  intros Hroot Hget Hp. unfold findNearestConfig.
  rewrite findNearestConfig_while_step, Hroot.
  unfold notCachedIn. rewrite Hget. simpl.
  apply String.eqb_neq in Hp. rewrite Hp. reflexivity.
Qed.

(** ** The alias table builder *)

Section Builder.

Context {path_api : path.API} {json_api : JSON.API}.
Variable disk : fs.FileSystem.

Lemma readFile_run (p : string) (st : State) :
  fs.readFile disk p st
  = (match disk p with
     | Some n =>
         if negb (fs.readable n) then Throws (SystemError "EACCES")
         else match fs.kind n with
              | fs.Directory => Throws (SystemError "EISDIR")
              | _ => Returns (fs.content n)
              end
     | None => Throws (SystemError "ENOENT")
     end, logged [ReadFile p] st).
Proof.
  unfold fs.readFile, bind, record, modify, ret, throw.
  destruct (disk p) as [n|]; [|reflexivity].
  destruct (fs.readable n); [|reflexivity].
  destruct (fs.kind n); reflexivity.
Qed.

(** The whole of [getTsConfigAliases], case by case. *)
Lemma getTsConfigAliases_run (configPath : string) (st : State) :
  getTsConfigAliases disk configPath st
  = match disk configPath with
    | None => (Throws (SystemError "ENOENT"), logged [Stat configPath] st)
    | Some node =>
        match freshTable st configPath (fs.mtimeMs node) with
        | Some table => (Returns table, logged [Stat configPath] st)
        | None =>
            if negb (fs.readable node) then
              (Throws (SystemError "EACCES"),
               logged [Stat configPath; ReadFile configPath] st)
            else
              match fs.kind node with
              | fs.Directory =>
                  (Throws (SystemError "EISDIR"),
                   logged [Stat configPath; ReadFile configPath] st)
              | _ =>
                  let es := [Stat configPath; ReadFile configPath;
                             Parse (fs.content node)] in
                  match parseAliases configPath (fs.content node) with
                  | inr table =>
                      (Returns table,
                       cachedConfig configPath
                         {| ConfigCacheEntry.aliases := table;
                            ConfigCacheEntry.lastModified := fs.mtimeMs node;
                            ConfigCacheEntry.configPath := configPath |}
                         (logged es st))
                  | inl e => (Throws e, logged es st)
                  end
              end
        end
    end.
Proof.
  unfold getTsConfigAliases. unfold bind at 1. rewrite stat_run.
  destruct (disk configPath) as [node|] eqn:D; [|reflexivity].
  unfold bind at 1, gets at 1. cbn [fs.st_mtimeMs]. unfold freshTable.
  cbn [configCache logged].
  assert (Hparse :
    bind (fs.readFile disk configPath)
      (fun configContent =>
       bind (JSON_parse configContent)
         (fun config =>
          bind (lift (pathsOf config))
            (fun paths =>
             bind (lift (buildAliases configPath (JSON.forIn paths) []))
               (fun aliases =>
                bind (set_configCache configPath
                        {| ConfigCacheEntry.aliases := aliases;
                           ConfigCacheEntry.lastModified := fs.mtimeMs node;
                           ConfigCacheEntry.configPath := configPath |})
                  (fun _ => ret aliases)))))
      (logged [Stat configPath] st)
    = if negb (fs.readable node) then
        (Throws (SystemError "EACCES"),
         logged [Stat configPath; ReadFile configPath] st)
      else
        match fs.kind node with
        | fs.Directory =>
            (Throws (SystemError "EISDIR"),
             logged [Stat configPath; ReadFile configPath] st)
        | _ =>
            match parseAliases configPath (fs.content node) with
            | inr table =>
                (Returns table,
                 cachedConfig configPath
                   {| ConfigCacheEntry.aliases := table;
                      ConfigCacheEntry.lastModified := fs.mtimeMs node;
                      ConfigCacheEntry.configPath := configPath |}
                   (logged [Stat configPath; ReadFile configPath;
                            Parse (fs.content node)] st))
            | inl e =>
                (Throws e,
                 logged [Stat configPath; ReadFile configPath;
                         Parse (fs.content node)] st)
            end
        end).
  { unfold bind at 1. rewrite readFile_run, D, logged_logged.
    destruct (fs.readable node); [|reflexivity]. cbn [negb app].
    assert (Hrest : forall st0,
      bind (JSON_parse (fs.content node))
        (fun config =>
         bind (lift (pathsOf config))
           (fun paths =>
            bind (lift (buildAliases configPath (JSON.forIn paths) []))
              (fun aliases =>
               bind (set_configCache configPath
                       {| ConfigCacheEntry.aliases := aliases;
                          ConfigCacheEntry.lastModified := fs.mtimeMs node;
                          ConfigCacheEntry.configPath := configPath |})
                 (fun _ => ret aliases)))) st0
      = match parseAliases configPath (fs.content node) with
        | inr table =>
            (Returns table,
             cachedConfig configPath
               {| ConfigCacheEntry.aliases := table;
                  ConfigCacheEntry.lastModified := fs.mtimeMs node;
                  ConfigCacheEntry.configPath := configPath |}
               (logged [Parse (fs.content node)] st0))
        | inl e => (Throws e, logged [Parse (fs.content node)] st0)
        end).
    { intros st0. unfold parseAliases, JSON_parse, bind, record, modify, lift,
        set_configCache, ret, throw.
      destruct (JSON.parse (fs.content node)) as [config|]; [|reflexivity].
      destruct (pathsOf config) as [e|paths]; [reflexivity|].
      destruct (buildAliases configPath (JSON.forIn paths) []); reflexivity. }
    destruct (fs.kind node); try reflexivity;
      rewrite Hrest, logged_logged; reflexivity. }
  destruct (JsObject.get configPath (configCache st)) as [cached|]; [|exact Hparse].
  destruct (ConfigCacheEntry.lastModified cached =? fs.mtimeMs node)%Z;
    [reflexivity | exact Hparse].
Qed.

End Builder.

Section BuilderProperties.

Context {path_api : path.API} {json_api : JSON.API}.

(** C6.  [getTsConfigAliases] first reads the modification timestamp of the
    configuration file.  With a cache entry for the path that carries the
    same timestamp it returns the cached table: the only call made is that
    [stat], the file is neither read nor parsed, and the caches are left as
    they were.  Without such an entry (none, or another timestamp) the file
    is read again; when it can be read its text is parsed again, and the
    table it declares is returned and replaces the cache entry, together
    with the timestamp just observed. *)
Theorem alias_table_cache_follows_timestamp
  (disk : fs.FileSystem) (configPath : string) (st : State) :
  (exists es,
     trace (snd (getTsConfigAliases disk configPath st))
     = (trace st ++ Stat configPath :: es)%list)
  /\ (forall node cached,
        disk configPath = Some node ->
        JsObject.get configPath (configCache st) = Some cached ->
        ConfigCacheEntry.lastModified cached = fs.mtimeMs node ->
        getTsConfigAliases disk configPath st
        = (Returns (ConfigCacheEntry.aliases cached), logged [Stat configPath] st))
  /\ (forall node,
        disk configPath = Some node ->
        (forall cached,
           JsObject.get configPath (configCache st) = Some cached ->
           ConfigCacheEntry.lastModified cached <> fs.mtimeMs node) ->
        (exists es,
           trace (snd (getTsConfigAliases disk configPath st))
           = (trace st ++ Stat configPath :: ReadFile configPath :: es)%list)
        /\ (fs.readable node = true ->
            fs.kind node <> fs.Directory ->
            trace (snd (getTsConfigAliases disk configPath st))
            = (trace st ++ [Stat configPath; ReadFile configPath;
                            Parse (fs.content node)])%list
            /\ forall table,
                 parseAliases configPath (fs.content node) = inr table ->
                 let st' := snd (getTsConfigAliases disk configPath st) in
                 fst (getTsConfigAliases disk configPath st) = Returns table
                 /\ JsObject.get configPath (configCache st')
                    = Some {| ConfigCacheEntry.aliases := table;
                              ConfigCacheEntry.lastModified := fs.mtimeMs node;
                              ConfigCacheEntry.configPath := configPath |}
                 /\ configPathCache st' = configPathCache st
                 /\ documentLinkCache st' = documentLinkCache st)).
Proof.
  split; [|split].
  - rewrite getTsConfigAliases_run.
    destruct (disk configPath) as [node|]; [|exists []; reflexivity].
    destruct (freshTable st configPath (fs.mtimeMs node)); [exists []; reflexivity|].
    destruct (fs.readable node); [|eexists; reflexivity].
    cbn [negb].
    destruct (fs.kind node); cbv zeta;
      try (eexists; reflexivity);
      destruct (parseAliases configPath (fs.content node));
      eexists; reflexivity.
  - intros node cached D Hget Hts.
    rewrite getTsConfigAliases_run, D. unfold freshTable.
    rewrite Hget, Hts, Z.eqb_refl. reflexivity.
  - intros node D Hstale.
    assert (Hmiss : freshTable st configPath (fs.mtimeMs node) = None).
    { unfold freshTable.
      destruct (JsObject.get configPath (configCache st)) as [cached|] eqn:Hget;
        [|reflexivity].
      specialize (Hstale cached eq_refl). apply Z.eqb_neq in Hstale.
      rewrite Hstale. reflexivity. }
    rewrite getTsConfigAliases_run, D, Hmiss. split.
    + destruct (fs.readable node); [|eexists; reflexivity].
      cbn [negb].
      destruct (fs.kind node); cbv zeta;
        try (eexists; reflexivity);
        destruct (parseAliases configPath (fs.content node));
        eexists; reflexivity.
    + intros Hr Hk. rewrite Hr. cbn [negb]. split.
      * destruct (fs.kind node); [| contradiction |]; cbv zeta;
          destruct (parseAliases configPath (fs.content node)); reflexivity.
      * intros table Hp. rewrite Hp.
        destruct (fs.kind node); [| contradiction |]; cbv zeta;
          (split; [reflexivity|]); cbn [snd cachedConfig configCache];
          rewrite get_set_eq; auto.
Qed.

End BuilderProperties.

Lemma alias_table_cache_follows_timestamp_witness :
  let disk := Examples.project 100 Examples.configText in
  let build :=
    getTsConfigAliases (path_api := Examples.paths) (json_api := Examples.json)
      disk "/proj/tsconfig.json" in
  let table := [("@styles", ["/proj/styles"]); ("@a", ["/proj/lib"; "/proj/vendor"])] in
  let st1 := snd (build initial) in
  fst (build initial) = Returns table
  /\ trace st1
     = [Stat "/proj/tsconfig.json"; ReadFile "/proj/tsconfig.json";
        Parse Examples.configText]
  /\ build st1 = (Returns table, logged [Stat "/proj/tsconfig.json"] st1).
Proof.
  intros disk build table st1.
  destruct (@alias_table_cache_follows_timestamp Examples.paths Examples.json
              disk "/proj/tsconfig.json" initial) as (_ & _ & H).
  destruct (@alias_table_cache_follows_timestamp Examples.paths Examples.json
              disk "/proj/tsconfig.json" st1) as (_ & Hhit & _).
  destruct (H (Examples.file 100 Examples.configText)) as (_ & H').
  - reflexivity.
  - intros cached Hget. vm_compute in Hget. discriminate.
  - destruct H' as (Htr & Htable).
    + reflexivity.
    + discriminate.
    + split; [|split].
      * apply (Htable _ eq_refl).
      * exact Htr.
      * apply (Hhit (Examples.file 100 Examples.configText)
                 {| ConfigCacheEntry.aliases := table;
                    ConfigCacheEntry.lastModified := 100;
                    ConfigCacheEntry.configPath := "/proj/tsconfig.json" |});
          reflexivity.
Defined.

Section AliasTable.

Context {path_api : path.API}.
Variable configPath : string.

(** The absolute target of a declared pattern. *)
Let target (p : string) : string :=
  path.resolve (path.dirname configPath) (stripWildcard p).

Lemma mapTargets_inr (targets : list JSON.value) (actualPaths : list string) :
  mapTargets configPath targets = inr actualPaths ->
  exists ps, targets = map JSON.String ps /\ actualPaths = map target ps.
Proof.
  revert actualPaths. induction targets as [|t targets IH]; intros actualPaths H.
  - inversion H. exists []. auto.
  - cbn [mapTargets] in H. destruct t as [| | |p| |]; try discriminate.
    destruct (mapTargets configPath targets) as [e|rest]; [discriminate|].
    inversion H; subst. destruct (IH rest eq_refl) as (ps & -> & ->).
    exists (p :: ps). auto.
Qed.

(** A key that no remaining alias strips to keeps its value. *)
Lemma buildAliases_frame (entries : list (string * JSON.value))
  (acc table : JsObject.t (list string)) (key : string) :
  buildAliases configPath entries acc = inr table ->
  (forall alias v, In (alias, v) entries -> stripWildcard alias <> key) ->
  JsObject.get key table = JsObject.get key acc.
Proof.
  revert acc. induction entries as [|[alias v] entries IH]; intros acc H Hne.
  - inversion H. reflexivity.
  - cbn [buildAliases] in H. destruct v as [| | | |targets|]; try discriminate.
    destruct (mapTargets configPath targets) as [e|actualPaths]; [discriminate|].
    rewrite (IH _ H).
    + apply get_set_ne. apply (Hne alias (JSON.Array targets)). left. reflexivity.
    + intros a' v' Hin. apply (Hne a' v'). right. exact Hin.
Qed.

Lemma buildAliases_entry (pre post : list (string * JSON.value)) (alias : string)
  (v : JSON.value) (acc table : JsObject.t (list string)) :
  buildAliases configPath (pre ++ (alias, v) :: post) acc = inr table ->
  exists ps,
    v = JSON.Array (map JSON.String ps)
    /\ ((forall alias' v', In (alias', v') post ->
           stripWildcard alias' <> stripWildcard alias) ->
        JsObject.get (stripWildcard alias) table = Some (map target ps)).
Proof.
  revert acc. induction pre as [|[a0 v0] pre IH]; intros acc H.
  - cbn [app buildAliases] in H. destruct v as [| | | |targets|]; try discriminate.
    destruct (mapTargets configPath targets) as [e|actualPaths] eqn:Hm; [discriminate|].
    destruct (mapTargets_inr _ _ Hm) as (ps & -> & ->).
    exists ps. split; [reflexivity|]. intros Hlast.
    rewrite (buildAliases_frame _ _ _ _ H Hlast). apply get_set_eq.
  - cbn [app buildAliases] in H. destruct v0 as [| | | |targets|]; try discriminate.
    destruct (mapTargets configPath targets) as [e|actualPaths]; [discriminate|].
    eapply IH, H.
Qed.

(** C5, as the code has it.  For every declared alias of a table that was
    built, its value is an array of strings; the first occurrence of the
    wildcard marker is removed from the alias and from each target (the
    trailing marker when there is no earlier one, one in the middle
    otherwise), each target is resolved against the directory of the
    configuration file, and the targets are stored, in order, under the
    stripped alias, unless a later declared alias strips to the same key
    and replaces them. *)
Theorem declared_alias_is_stored (entries : list (string * JSON.value))
  (table : JsObject.t (list string)) :
  buildAliases configPath entries [] = inr table ->
  (forall pre alias v post,
     entries = (pre ++ (alias, v) :: post)%list ->
     exists ps,
       v = JSON.Array (map JSON.String ps)
       /\ ((forall alias' v', In (alias', v') post ->
              stripWildcard alias' <> stripWildcard alias) ->
           JsObject.get (stripWildcard alias) table
           = Some (map (fun p => path.resolve (path.dirname configPath)
                                   (stripWildcard p)) ps)))
  /\ (forall a b, JsString.includes a "/*" = false ->
                  stripWildcard (a ++ "/*" ++ b) = a ++ b)
  /\ (forall s, JsString.includes s "/*" = false -> stripWildcard s = s).
Proof.
  intros H. split; [|split].
  - intros pre alias v post ->. eapply buildAliases_entry, H.
  - apply stripWildcard_first.
  - apply stripWildcard_absent.
Qed.

End AliasTable.

Lemma declared_alias_is_stored_witness :
  buildAliases (path_api := Examples.paths) "/proj/tsconfig.json"
    [("@styles/*", JSON.Array [JSON.String "./styles/*"]);
     ("@a", JSON.Array [JSON.String "lib"; JSON.String "vendor"])] []
  = inr [("@styles", ["/proj/styles"]); ("@a", ["/proj/lib"; "/proj/vendor"])]
  /\ JsObject.get "@styles"
       [("@styles", ["/proj/styles"]); ("@a", ["/proj/lib"; "/proj/vendor"])]
     = Some ["/proj/styles"].
Proof.
  split; [reflexivity|].
  destruct (@declared_alias_is_stored Examples.paths "/proj/tsconfig.json"
              [("@styles/*", JSON.Array [JSON.String "./styles/*"]);
               ("@a", JSON.Array [JSON.String "lib"; JSON.String "vendor"])]
              [("@styles", ["/proj/styles"]); ("@a", ["/proj/lib"; "/proj/vendor"])]
              eq_refl) as (H & _ & _).
  destruct (H [] "@styles/*" (JSON.Array [JSON.String "./styles/*"])
              [("@a", JSON.Array [JSON.String "lib"; JSON.String "vendor"])]
              eq_refl) as (ps & Hps & Hget).
  destruct ps as [|p [|q ps]]; try discriminate Hps.
  injection Hps as <-.
  assert (Hlast : forall alias' v',
            In (alias', v') [("@a", JSON.Array [JSON.String "lib"; JSON.String "vendor"])] ->
            stripWildcard alias' <> stripWildcard "@styles/*").
  { intros alias' v' [Heq|[]]. injection Heq as <- <-. vm_compute. discriminate. }
  specialize (Hget Hlast). vm_compute in Hget. vm_compute. exact Hget.
Defined.

(** C5 as stated fails where the marker is not trailing.  The declared
    alias [@lib/*/scss] with the target [./lib/*/scss] has no trailing
    marker, so stripping a trailing marker leaves both as they are; the
    table the code builds holds nothing under that key: it holds
    [/proj/lib/scss] under [@lib/scss]. *)
Lemma trailing_marker_counterexample :
  let run :=
    getTsConfigAliases (path_api := Examples.paths) (json_api := Examples.json)
      (Examples.project 100 Examples.midText) "/proj/tsconfig.json" initial in
  JSON.parse (API := Examples.json) Examples.midText
  = Some (JSON.Object
            [("compilerOptions",
              JSON.Object
                [("paths",
                  JSON.Object
                    [("@lib/*/scss", JSON.Array [JSON.String "./lib/*/scss"])])])])
  /\ stripTrailingWildcard "@lib/*/scss" = "@lib/*/scss"
  /\ stripTrailingWildcard "./lib/*/scss" = "./lib/*/scss"
  /\ fst run = Returns [("@lib/scss", ["/proj/lib/scss"])]
  /\ ~ (exists table,
          fst run = Returns table
          /\ JsObject.get (stripTrailingWildcard "@lib/*/scss") table
             = Some [path.resolve (API := Examples.paths) "/proj"
                       (stripTrailingWildcard "./lib/*/scss")]).
Proof.
  cbv zeta. repeat split; try reflexivity.
  intros (table & Hrun & Hget).
  vm_compute in Hrun. injection Hrun as <-.
  vm_compute in Hget. discriminate.
Qed.

(** ** The import resolver *)

Lemma append_empty (s : string) : s ++ "" = s.
Proof. induction s as [|c s IH]; simpl; [reflexivity | rewrite IH; reflexivity]. Qed.

Lemma find_first {A : Type} (f : A -> bool) (l : list A) (x : A) :
  List.find f l = Some x ->
  exists pre post,
    l = (pre ++ x :: post)%list /\ f x = true /\ forall y, In y pre -> f y = false.
Proof.
  induction l as [|a l IH]; simpl; intros H.
  - discriminate.
  - destruct (f a) eqn:E.
    + inversion H; subst. exists [], l. repeat split; auto. intros y [].
    + destruct (IH H) as (pre & post & -> & Hx & Hpre).
      exists (a :: pre), post. repeat split; auto.
      intros y [<-|Hy]; auto.
Qed.

Lemma find_nothing {A : Type} (f : A -> bool) (l : list A) :
  List.find f l = None -> forall y, In y l -> f y = false.
Proof.
  induction l as [|a l IH]; simpl; intros H y Hy.
  - contradiction.
  - destruct (f a) eqn:E; [discriminate|].
    destruct Hy as [<-|Hy]; auto.
Qed.

Section Resolver.

Context {path_api : path.API}.
Variable disk : fs.FileSystem.

Lemma tryWithExtensions_for_run (filePath : string) (exts : list string) (st : State) :
  tryWithExtensions_for disk filePath exts st
  = (Returns (List.find (readableAt disk) (map (fun ext => filePath ++ ext) exts)),
     logged (map Access (upToFirst (readableAt disk)
                           (map (fun ext => filePath ++ ext) exts))) st).
Proof.
  revert st. induction exts as [|ext exts IH]; intros st.
  - simpl. rewrite logged_nil. reflexivity.
  - cbn [tryWithExtensions_for map List.find upToFirst].
    unfold bind at 1. rewrite fileExists_run.
    destruct (readableAt disk (filePath ++ ext)); [reflexivity|].
    rewrite IH, logged_logged. reflexivity.
Qed.

Lemma tryWithExtensions_run (document : vscode.TextDocument) (importPath : string)
  (st : State) :
  tryWithExtensions disk document importPath st
  = (Returns (List.find (readableAt disk) (candidates document importPath)),
     logged (map Access (upToFirst (readableAt disk) (candidates document importPath)))
       st).
Proof. unfold tryWithExtensions. apply tryWithExtensions_for_run. Qed.

Lemma resolveAlias_for_run (relativePath : string) (basePaths : list string)
  (st : State) :
  resolveAlias_for disk relativePath basePaths st
  = (Returns (fst (resolveFor disk relativePath basePaths)),
     logged (snd (resolveFor disk relativePath basePaths)) st).
Proof.
  revert st. induction basePaths as [|basePath basePaths IH]; intros st.
  - simpl. rewrite logged_nil. reflexivity.
  - cbn [resolveAlias_for resolveFor].
    unfold bind at 1. rewrite fileExists_run. unfold readableAt at 1.
    destruct (disk (path.join basePath relativePath)) as [node|] eqn:D.
    2:{ cbn [negb]. rewrite IH, logged_logged.
        destruct (resolveFor disk relativePath basePaths). reflexivity. }
    destruct (fs.readable node).
    2:{ cbn [negb]. rewrite IH, logged_logged.
        destruct (resolveFor disk relativePath basePaths). reflexivity. }
    cbn [negb]. unfold bind at 1. rewrite stat_run, D, logged_logged.
    unfold fs.isFile, fs.isDirectory. cbn [fs.st_kind].
    destruct (fs.kind node); cbn [negb]; try reflexivity.
    unfold bind at 1. rewrite fileExists_run, logged_logged.
    destruct (readableAt disk (path.join (path.join basePath relativePath) "index.scss"));
      [reflexivity|].
    unfold bind at 1. rewrite fileExists_run, logged_logged.
    destruct (readableAt disk (path.join (path.join basePath relativePath) "main.scss"));
      reflexivity.
Qed.

Lemma findAliasKey_get (importPath aliasKey : string) (aliases : JsObject.t (list string)) :
  findAliasKey importPath aliases = Some aliasKey ->
  exists basePaths, JsObject.get aliasKey aliases = Some basePaths.
Proof.
  intros H. apply get_of_key. unfold findAliasKey in H.
  destruct (find_first _ _ _ H) as (pre & post & -> & _).
  apply in_or_app. right. left. reflexivity.
Qed.

(** [resolveAlias], case by case: the relative fallback when no key, or
    the empty key, was selected; the loop over the base paths otherwise. *)
Lemma resolveAlias_run (document : vscode.TextDocument) (importPath : string)
  (aliases : JsObject.t (list string)) (st : State) :
  resolveAlias disk document importPath aliases st
  = match findAliasKey importPath aliases with
    | Some aliasKey =>
        if String.eqb aliasKey "" then tryWithExtensions disk document importPath st
        else
          match JsObject.get aliasKey aliases with
          | Some basePaths =>
              resolveAlias_for disk (JsString.replace importPath aliasKey "") basePaths st
          | None => (Throws TypeError, st)
          end
    | None => tryWithExtensions disk document importPath st
    end.
Proof.
  unfold resolveAlias.
  destruct (findAliasKey importPath aliases) as [aliasKey|]; [|reflexivity].
  cbn [truthy]. destruct (String.eqb aliasKey ""); cbn [negb]; [reflexivity|].
  destruct (JsObject.get aliasKey aliases); reflexivity.
Qed.

(** Resolving a specifier never raises, changes no module variable and
    answers by the file system alone. *)
Lemma resolveAlias_total (document : vscode.TextDocument) (importPath : string)
  (aliases : JsObject.t (list string)) :
  exists r es, forall st,
    resolveAlias disk document importPath aliases st = (Returns r, logged es st).
Proof.
  destruct (findAliasKey importPath aliases) as [aliasKey|] eqn:F.
  - destruct (String.eqb aliasKey "") eqn:E.
    + do 2 eexists. intros st. rewrite resolveAlias_run, F, E.
      apply tryWithExtensions_run.
    + destruct (findAliasKey_get _ _ _ F) as (basePaths & G).
      do 2 eexists. intros st. rewrite resolveAlias_run, F, E, G.
      apply resolveAlias_for_run.
  - do 2 eexists. intros st. rewrite resolveAlias_run, F.
    apply tryWithExtensions_run.
Qed.

End Resolver.

(** What the relative fallback answers, and the calls it makes. *)
Lemma relative_fallback_run {path_api : path.API}
  (disk : fs.FileSystem) (document : vscode.TextDocument) (importPath : string)
  (aliases : JsObject.t (list string)) (st : State) :
  truthy (findAliasKey importPath aliases) = false ->
  resolveAlias disk document importPath aliases st
  = (Returns (List.find (readableAt disk) (candidates document importPath)),
     logged (map Access (upToFirst (readableAt disk)
                           (candidates document importPath))) st).
Proof.
  intros Hkey. rewrite resolveAlias_run.
  destruct (findAliasKey importPath aliases) as [aliasKey|].
  - cbn [truthy] in Hkey. apply negb_false_iff in Hkey. rewrite Hkey.
    apply tryWithExtensions_run.
  - apply tryWithExtensions_run.
Qed.

(** X27.  When no alias key (or only the empty one) is selected for the
    specifier, [resolveAlias] joins it onto the directory of the document
    and probes that path, then the path followed by [.sass], [.scss] and
    [.css], in that order; it answers the first candidate at which
    [fileExists] succeeds (something readable is there, a regular file or
    not), probes nothing after it, and answers [null] when there is
    none. *)
Theorem relative_fallback_probes_in_order {path_api : path.API}
  (disk : fs.FileSystem) (document : vscode.TextDocument) (importPath : string)
  (aliases : JsObject.t (list string)) (st : State) :
  truthy (findAliasKey importPath aliases) = false ->
  let filePath := path.join (path.dirname (vscode.fileName document)) importPath in
  candidates document importPath
  = [filePath; filePath ++ ".sass"; filePath ++ ".scss"; filePath ++ ".css"]
  /\ resolveAlias disk document importPath aliases st
     = (Returns (List.find (readableAt disk) (candidates document importPath)),
        logged (map Access (upToFirst (readableAt disk)
                              (candidates document importPath))) st).
Proof.
  intros Hkey filePath. split.
  - unfold candidates, extensions. cbn [map]. fold filePath.
    rewrite append_empty. reflexivity.
  - apply relative_fallback_run, Hkey.
Qed.

Lemma relative_fallback_probes_in_order_witness :
  let disk := Examples.project 100 Examples.configText in
  resolveAlias (path_api := Examples.paths) disk Examples.app "./bar"
    [("@styles", ["/proj/styles"])] initial
  = (Returns (Some "/proj/src/bar.scss"),
     logged [Access "/proj/src/bar"; Access "/proj/src/bar.sass";
             Access "/proj/src/bar.scss"] initial).
Proof.
  intros disk.
  destruct (@relative_fallback_probes_in_order Examples.paths disk Examples.app
              "./bar" [("@styles", ["/proj/styles"])] initial) as (_ & H).
  - reflexivity.
  - rewrite H. reflexivity.
Defined.

(** C4.  The relative fallback does not look at what it has found, as the
    alias branch of the same function does with [stat.isFile] and
    [stat.isDirectory].  When no alias key is selected and the exact path
    is a readable directory, [resolveAlias] answers the directory after
    the one probe: it does not exist as a file, the candidates with an
    extension are not probed, and the answer is not the first candidate
    that exists as a file, whether one does or none. *)
Theorem relative_fallback_answers_a_directory {path_api : path.API}
  (disk : fs.FileSystem) (document : vscode.TextDocument) (importPath : string)
  (aliases : JsObject.t (list string)) (st : State) (node : fs.Node) :
  truthy (findAliasKey importPath aliases) = false ->
  let filePath := path.join (path.dirname (vscode.fileName document)) importPath in
  disk filePath = Some node ->
  fs.readable node = true ->
  fs.kind node = fs.Directory ->
  existsAsFile disk filePath = false
  /\ resolveAlias disk document importPath aliases st
     = (Returns (Some filePath), logged [Access filePath] st)
  /\ fst (resolveAlias disk document importPath aliases st)
     <> Returns (List.find (existsAsFile disk) (candidates document importPath)).
Proof.
  intros Hkey filePath Hnode Hread Hkind.
  assert (Hfile : existsAsFile disk filePath = false).
  { unfold existsAsFile. rewrite Hnode, Hread, Hkind. reflexivity. }
  assert (Hthere : readableAt disk (filePath ++ "") = true).
  { rewrite append_empty. unfold readableAt. rewrite Hnode. exact Hread. }
  assert (Hrun : resolveAlias disk document importPath aliases st
                 = (Returns (Some filePath), logged [Access filePath] st)).
  { rewrite (relative_fallback_run disk document importPath aliases st Hkey).
    unfold candidates, extensions. cbn [map]. fold filePath.
    cbn [List.find upToFirst]. rewrite Hthere. cbn [map].
    rewrite append_empty. reflexivity. }
  split; [exact Hfile|]. split; [exact Hrun|].
  rewrite Hrun. cbn [fst]. intros Heq.
  assert (Hfind : List.find (existsAsFile disk) (candidates document importPath)
                  = Some filePath) by congruence.
  apply find_some in Hfind as [_ Hf]. rewrite Hfile in Hf. discriminate.
Qed.

(** For the specifier [./foo] next to a directory [foo] and the files
    [foo.scss] and [foo.css], no alias key matches and the first candidate
    that exists as a file is [foo.scss]; the code answers the directory. *)
Lemma relative_fallback_answers_a_directory_witness :
  let disk := Examples.project 100 Examples.configText in
  let aliases := [("@styles", ["/proj/styles"]); ("@a", ["/proj/lib"; "/proj/vendor"])] in
  findAliasKey "./foo" aliases = None
  /\ List.find (existsAsFile disk) (candidates (path_api := Examples.paths) Examples.app "./foo")
     = Some "/proj/src/foo.scss"
  /\ resolveAlias (path_api := Examples.paths) disk Examples.app "./foo" aliases initial
     = (Returns (Some "/proj/src/foo"), logged [Access "/proj/src/foo"] initial)
  /\ fst (resolveAlias (path_api := Examples.paths) disk Examples.app "./foo" aliases initial)
     <> Returns (List.find (existsAsFile disk)
                   (candidates (path_api := Examples.paths) Examples.app "./foo")).
Proof.
  intros disk aliases. split; [reflexivity|]. split; [reflexivity|].
  destruct (@relative_fallback_answers_a_directory Examples.paths disk Examples.app
              "./foo" aliases initial Examples.dir eq_refl eq_refl eq_refl eq_refl)
    as (_ & Hrun & Hne).
  split; [exact Hrun | exact Hne].
Defined.

(** C7.  When an alias key is selected and, going through its base paths
    in order, the first joined path at which something readable exists is
    a directory, [resolveAlias] probes [index.scss] inside it and then,
    only if that is absent, [main.scss]; it answers the first one found
    and [null] when neither is, and in no case goes on to the base paths
    that remain. *)
Theorem directory_target_uses_index_then_main {path_api : path.API}
  (disk : fs.FileSystem) (document : vscode.TextDocument) (importPath : string)
  (aliases : JsObject.t (list string)) (st : State)
  (aliasKey : string) (pre post : list string) (basePath : string) (node : fs.Node) :
  findAliasKey importPath aliases = Some aliasKey ->
  aliasKey <> "" ->
  JsObject.get aliasKey aliases = Some (pre ++ basePath :: post)%list ->
  let relativePath := JsString.replace importPath aliasKey "" in
  let resolvedPath := path.join basePath relativePath in
  let indexPath := path.join resolvedPath "index.scss" in
  let mainPath := path.join resolvedPath "main.scss" in
  (forall b, In b pre -> readableAt disk (path.join b relativePath) = false) ->
  disk resolvedPath = Some node ->
  fs.readable node = true ->
  fs.kind node = fs.Directory ->
  resolveAlias disk document importPath aliases st
  = (Returns (if readableAt disk indexPath then Some indexPath
              else if readableAt disk mainPath then Some mainPath
              else None),
     logged (map (fun b => Access (path.join b relativePath)) pre
             ++ [Access resolvedPath; Stat resolvedPath; Access indexPath]
             ++ (if readableAt disk indexPath then [] else [Access mainPath]))%list
       st).
Proof.
  intros Hkey Hne Hget relativePath resolvedPath indexPath mainPath Hpre D Hr Hk.
  rewrite resolveAlias_run, Hkey, Hget.
  apply String.eqb_neq in Hne. rewrite Hne.
  rewrite resolveAlias_for_run. fold relativePath.
  assert (Hfor : resolveFor disk relativePath (pre ++ basePath :: post)%list
                 = (if readableAt disk indexPath then Some indexPath
                    else if readableAt disk mainPath then Some mainPath
                    else None,
                    (map (fun b => Access (path.join b relativePath)) pre
                     ++ [Access resolvedPath; Stat resolvedPath; Access indexPath]
                     ++ (if readableAt disk indexPath then [] else [Access mainPath]))%list)).
  { clear Hget. induction pre as [|b pre IH].
    - cbn [app resolveFor map]. fold resolvedPath. rewrite D, Hr, Hk.
      fold indexPath mainPath.
      destruct (readableAt disk indexPath); reflexivity.
    - cbn [app resolveFor map].
      assert (Hb : readableAt disk (path.join b relativePath) = false)
        by (apply Hpre; left; reflexivity).
      rewrite IH by (intros b' Hb'; apply Hpre; right; exact Hb').
      unfold readableAt in Hb.
      destruct (disk (path.join b relativePath)) as [n|]; [|reflexivity].
      rewrite Hb. reflexivity. }
  rewrite Hfor. reflexivity.
Qed.

Lemma directory_target_uses_index_then_main_witness :
  let disk := Examples.project 100 Examples.configText in
  let aliases := [("@ui", ["/proj/lib"; "/proj/styles"; "/proj/vendor"])] in
  readableAt disk "/proj/styles/button/main.scss" = true
  /\ resolveAlias (path_api := Examples.paths) disk Examples.app "@ui/button" aliases initial
     = (Returns (Some "/proj/styles/button/index.scss"),
        logged [Access "/proj/lib/button"; Access "/proj/styles/button";
                Stat "/proj/styles/button"; Access "/proj/styles/button/index.scss"]
          initial).
Proof.
  intros disk aliases. split; [reflexivity|].
  rewrite (@directory_target_uses_index_then_main Examples.paths disk Examples.app
             "@ui/button" aliases initial "@ui" ["/proj/lib"] ["/proj/vendor"]
             "/proj/styles" Examples.dir).
  - reflexivity.
  - reflexivity.
  - discriminate.
  - reflexivity.
  - intros b [<-|[]]. reflexivity.
  - reflexivity.
  - reflexivity.
  - reflexivity.
Defined.

(** C9.  Alias matching is a plain prefix test on characters.  The key
    [find] selects is the first key, in the enumeration order of the table,
    that the specifier starts with, and the remainder is what follows that
    prefix in the specifier, wherever the prefix ends: a key followed by
    any text is selected for it and leaves that text.  With the key [@a]
    the specifier [@abc] is matched and leaves [bc], which is joined onto
    each base path.  (A selected key that is the empty string is then
    treated as no key.) *)
Theorem alias_match_is_first_prefix {path_api : path.API}
  (aliases : JsObject.t (list string)) (importPath : string) :
  match findAliasKey importPath aliases with
  | Some aliasKey =>
      (exists pre post,
         JsObject.keys aliases = (pre ++ aliasKey :: post)%list
         /\ forall k, In k pre -> String.prefix k importPath = false)
      /\ importPath = aliasKey ++ JsString.replace importPath aliasKey ""
      /\ (aliasKey <> "" ->
          exists basePaths,
            JsObject.get aliasKey aliases = Some basePaths
            /\ forall disk document st,
                 resolveAlias disk document importPath aliases st
                 = resolveAlias_for disk (JsString.replace importPath aliasKey "")
                     basePaths st)
  | None => forall k, In k (JsObject.keys aliases) -> String.prefix k importPath = false
  end
  /\ (forall key rest basePaths,
        findAliasKey (key ++ rest) [(key, basePaths)] = Some key
        /\ JsString.replace (key ++ rest) key "" = rest)
  /\ findAliasKey "@abc" [("@a", ["/proj/lib"])] = Some "@a"
  /\ JsString.replace "@abc" "@a" "" = "bc"
  /\ (forall disk document st,
        resolveAlias disk document "@abc" [("@a", ["/proj/lib"])] st
        = resolveAlias_for disk "bc" ["/proj/lib"] st).
Proof.
  split; [|split; [|repeat split]].
  - destruct (findAliasKey importPath aliases) as [aliasKey|] eqn:F.
    + unfold findAliasKey in F.
      destruct (find_first _ _ _ F) as (pre & post & Hkeys & Hp & Hpre).
      unfold JsString.startsWith in Hp. split; [|split].
      * exists pre, post. split; [exact Hkeys | exact Hpre].
      * rewrite (replace_prefix _ _ Hp). apply prefix_split, Hp.
      * intros Hne.
        destruct (findAliasKey_get importPath aliasKey aliases F) as (basePaths & G).
        exists basePaths. split; [exact G|]. intros disk document st.
        rewrite resolveAlias_run. unfold findAliasKey. rewrite F, G.
        apply String.eqb_neq in Hne. rewrite Hne. reflexivity.
    + apply (find_nothing _ _ F).
  - intros key rest basePaths.
    unfold findAliasKey, JsString.startsWith. cbn [JsObject.keys map fst List.find].
    rewrite prefix_app. split; [reflexivity|].
    rewrite replace_prefix by apply prefix_app. apply drop_app.
Qed.

Lemma alias_match_is_first_prefix_witness :
  let aliases := [("@b", ["/proj/styles"]); ("@a", ["/proj/lib"; "/proj/vendor"])] in
  findAliasKey "@abc" aliases = Some "@a"
  /\ exists basePaths,
       JsObject.get "@a" aliases = Some basePaths
       /\ forall disk document st,
            resolveAlias (path_api := Examples.paths) disk document "@abc" aliases st
            = resolveAlias_for (path_api := Examples.paths) disk "bc" basePaths st.
Proof.
  intros aliases. split; [reflexivity|].
  pose proof (@alias_match_is_first_prefix Examples.paths aliases "@abc") as (H & _).
  change (findAliasKey "@abc" aliases) with (Some "@a") in H.
  cbv beta iota in H. destruct H as (_ & _ & H).
  destruct H as (basePaths & Hget & Hrun); [discriminate|].
  exists basePaths. split; [exact Hget | exact Hrun].
Defined.

(** ** The orchestrator *)

Lemma atIndex_compose (i i' : nat) (es es' : list Event) (st : State) :
  atIndex i' (logged es' (logged es (atIndex i st))) = atIndex i' (logged (es ++ es') st).
Proof. unfold atIndex, logged; simpl. rewrite app_assoc. reflexivity. Qed.

Lemma exec_run (text : string) (st : State) :
  exists r i, importRegex.exec text st = (Returns r, atIndex i st).
Proof.
  unfold importRegex.exec, bind, gets, set_lastIndex, modify, ret.
  destruct (String.length text <? lastIndex st)%nat; [eauto|].
  destruct (importRegex.search (JsString.drop (lastIndex st) text) (lastIndex st)); eauto.
Qed.

Section Orchestrator.

Context {path_api : path.API} {json_api : JSON.API}.
Variable disk : fs.FileSystem.

(** The scanning loop never raises; it only moves [lastIndex] and makes
    calls. *)
Lemma provideDocumentLinks_while_effect (fuel : nat) (document : vscode.TextDocument)
  (aliases : JsObject.t (list string)) (links : list vscode.DocumentLink) (st : State) :
  exists out es i,
    provideDocumentLinks_while disk fuel document aliases links st
    = (out, atIndex i (logged es st))
    /\ forall e, out <> Throws e.
Proof.
  revert links st. induction fuel as [|fuel IH]; intros links st.
  - exists OutOfFuel, [], (lastIndex st). split; [|discriminate].
    simpl. unfold outOfFuel. destruct st; unfold atIndex, logged; simpl.
    rewrite app_nil_r. reflexivity.
  - cbn [provideDocumentLinks_while]. unfold bind at 1.
    destruct (exec_run (vscode.getText document) st) as (r & i & ->).
    destruct r as [m|].
    2:{ exists (Returns links), [], i. split; [|discriminate].
        unfold ret. rewrite logged_nil. reflexivity. }
    destruct (resolveAlias_total disk document (importRegex.group1 m) (JsObject.own aliases))
      as (r & es & Hres).
    unfold bind at 1. rewrite Hres.
    destruct r as [p|].
    + destruct (truthy (Some p)).
      * destruct (IH (links ++ [{| vscode.range :=
                                     vscode.newRange
                                       (vscode.positionAt document
                                          (Z.of_nat (importRegex.index m)
                                           + JsString.indexOf (importRegex.whole m)
                                               (importRegex.group1 m)))
                                       (vscode.translate
                                          (vscode.positionAt document
                                             (Z.of_nat (importRegex.index m)
                                              + JsString.indexOf (importRegex.whole m)
                                                  (importRegex.group1 m)))
                                          0 (Z.of_nat (String.length (importRegex.group1 m))));
                                   vscode.target := p |}])%list
                    (logged es (atIndex i st))) as (out & es' & i' & Hrun & Hout).
        exists out, (es ++ es')%list, i'. split; [|exact Hout].
        rewrite Hrun, atIndex_compose. reflexivity.
      * destruct (IH links (logged es (atIndex i st))) as (out & es' & i' & Hrun & Hout).
        exists out, (es ++ es')%list, i'. split; [|exact Hout].
        rewrite Hrun, atIndex_compose. reflexivity.
    + destruct (IH links (logged es (atIndex i st))) as (out & es' & i' & Hrun & Hout).
      exists out, (es ++ es')%list, i'. split; [|exact Hout].
      rewrite Hrun, atIndex_compose. reflexivity.
Qed.

(** Whatever its outcome, the walk only appends to the trace and writes
    the per-directory cache. *)
Lemma findNearestConfig_frame (fuel : nat) (dir : string) (st : State) :
  let st' := snd (findNearestConfig disk fuel dir st) in
  (exists es, trace st' = (trace st ++ es)%list)
  /\ configCache st' = configCache st
  /\ documentLinkCache st' = documentLinkCache st
  /\ lastIndex st' = lastIndex st.
Proof.
  unfold findNearestConfig. revert dir st.
  induction fuel as [|fuel IH]; intros dir st.
  - simpl. repeat split; auto. exists []. rewrite app_nil_r. reflexivity.
  - rewrite findNearestConfig_while_step.
    destruct (String.eqb dir (path.root dir)).
    { simpl. repeat split; auto. exists []. rewrite app_nil_r. reflexivity. }
    destruct (notCachedIn st dir).
    2:{ simpl. repeat split; auto. exists []. rewrite app_nil_r. reflexivity. }
    cbv zeta.
    destruct (readableAt disk (path.join dir "tsconfig.json")).
    { simpl. repeat split; auto. eexists. reflexivity. }
    destruct (readableAt disk (path.join dir "jsconfig.json")).
    { simpl. repeat split; auto. eexists. reflexivity. }
    destruct (IH (path.dirname dir)
                (cachedPath dir None
                   (logged [Access (path.join dir "tsconfig.json");
                            Access (path.join dir "jsconfig.json")] st)))
      as ((es & Htr) & H1 & H2 & H3).
    cbv zeta. repeat split; auto.
    eexists. rewrite Htr. simpl. rewrite <- app_assoc. reflexivity.
Qed.

Lemma getTsConfigAliases_frame (configPath : string) (st : State) :
  let st' := snd (getTsConfigAliases disk configPath st) in
  (exists es, trace st' = (trace st ++ es)%list)
  /\ configPathCache st' = configPathCache st
  /\ documentLinkCache st' = documentLinkCache st
  /\ lastIndex st' = lastIndex st.
Proof.
  rewrite getTsConfigAliases_run.
  destruct (disk configPath) as [node|].
  2:{ simpl. repeat split; auto. eexists. reflexivity. }
  destruct (freshTable st configPath (fs.mtimeMs node)).
  { simpl. repeat split; auto. eexists. reflexivity. }
  destruct (fs.readable node); cbn [negb].
  2:{ simpl. repeat split; auto. eexists. reflexivity. }
  destruct (fs.kind node); cbv zeta;
    try (simpl; repeat split; auto; eexists; reflexivity);
    destruct (parseAliases configPath (fs.content node));
    simpl; repeat split; auto; eexists; reflexivity.
Qed.

(** A cached sequence is returned as it is, without a call. *)
Lemma provideDocumentLinks_cached (fuel : nat) (document : vscode.TextDocument)
  (links : list vscode.DocumentLink) (st : State) :
  JsObject.get (vscode.fileName document) (documentLinkCache st) = Some links ->
  provideDocumentLinks disk fuel document st = (Returns links, st).
Proof.
  intros H. unfold provideDocumentLinks, bind, gets. rewrite H. reflexivity.
Qed.

(** A scan, stage by stage. *)
Lemma provideDocumentLinks_uncached (fuel : nat) (document : vscode.TextDocument)
  (st : State) :
  JsObject.get (vscode.fileName document) (documentLinkCache st) = None ->
  provideDocumentLinks disk fuel document st
  = match findNearestConfig disk fuel (path.dirname (vscode.fileName document)) st with
    | (Returns (Some p), s1) =>
        if String.eqb p "" then (Returns [], s1)
        else
          match getTsConfigAliases disk p s1 with
          | (Returns aliases, s2) =>
              match provideDocumentLinks_while disk fuel document aliases [] s2 with
              | (Returns links, s3) =>
                  (Returns links, cachedLinks (vscode.fileName document) links s3)
              | (Throws e, s3) => (Throws e, s3)
              | (OutOfFuel, s3) => (OutOfFuel, s3)
              end
          | (Throws e, s2) => (Throws e, s2)
          | (OutOfFuel, s2) => (OutOfFuel, s2)
          end
    | (Returns None, s1) => (Returns [], s1)
    | (Throws e, s1) => (Throws e, s1)
    | (OutOfFuel, s1) => (OutOfFuel, s1)
    end.
Proof.
  intros H. unfold provideDocumentLinks. unfold bind at 1, gets at 1. rewrite H.
  unfold bind at 1.
  destruct (findNearestConfig disk fuel (path.dirname (vscode.fileName document)) st)
    as [[[p|]|e|] s1]; try reflexivity.
  cbn [truthy]. destruct (String.eqb p ""); cbn [negb]; [reflexivity|].
  unfold bind at 1.
  destruct (getTsConfigAliases disk p s1) as [[aliases|e|] s2]; reflexivity.
Qed.

(** Every scan only appends to the trace. *)
Lemma provideDocumentLinks_trace (fuel : nat) (document : vscode.TextDocument)
  (st : State) :
  exists es, trace (snd (provideDocumentLinks disk fuel document st)) = (trace st ++ es)%list.
Proof.
  destruct (JsObject.get (vscode.fileName document) (documentLinkCache st))
    as [links|] eqn:Hget.
  { rewrite (provideDocumentLinks_cached _ _ _ _ Hget). exists []. simpl.
    rewrite app_nil_r. reflexivity. }
  rewrite (provideDocumentLinks_uncached _ _ _ Hget).
  pose proof (findNearestConfig_frame fuel (path.dirname (vscode.fileName document)) st)
    as ((es1 & H1) & _).
  destruct (findNearestConfig disk fuel (path.dirname (vscode.fileName document)) st)
    as [[[p|]|e|] s1]; cbn [snd] in *; try (exists es1; exact H1).
  destruct (String.eqb p ""); [exists es1; exact H1|].
  pose proof (getTsConfigAliases_frame p s1) as ((es2 & H2) & _).
  destruct (getTsConfigAliases disk p s1) as [[aliases|e|] s2]; cbn [snd] in *;
    try (exists (es1 ++ es2)%list; rewrite H2, H1, app_assoc; reflexivity).
  destruct (provideDocumentLinks_while_effect fuel document aliases [] s2)
    as (out & es3 & i & Hrun & _).
  rewrite Hrun.
  exists (es1 ++ es2 ++ es3)%list.
  destruct out; simpl; rewrite H2, H1, !app_assoc; reflexivity.
Qed.

End Orchestrator.

Section Scans.

Context {path_api : path.API} {json_api : JSON.API}.

Lemma walk_first_probe (disk : fs.FileSystem) (fuel : nat) (dir : string) (st : State) :
  String.eqb dir (path.root dir) = false ->
  notCachedIn st dir = true ->
  exists es,
    trace (snd (findNearestConfig disk (S fuel) dir st))
    = (trace st ++ Access (path.join dir "tsconfig.json") :: es)%list.
Proof.
  intros Hroot Hc. unfold findNearestConfig.
  rewrite findNearestConfig_while_step, Hroot, Hc. cbv zeta.
  destruct (readableAt disk (path.join dir "tsconfig.json")); [eexists; reflexivity|].
  destruct (readableAt disk (path.join dir "jsconfig.json")); [eexists; reflexivity|].
  destruct (findNearestConfig_frame disk fuel (path.dirname dir)
              (cachedPath dir None
                 (logged [Access (path.join dir "tsconfig.json");
                          Access (path.join dir "jsconfig.json")] st)))
    as ((es & Htr) & _).
  unfold findNearestConfig in Htr. rewrite Htr. simpl.
  rewrite <- app_assoc. eexists. reflexivity.
Qed.

(** The general form of the miss on a cached [null]: a directory that is
    not a root and has [null] in the cache is probed on the file system. *)
Lemma cached_null_is_probed (disk : fs.FileSystem) (fuel : nat) (dir : string)
  (st : State) :
  String.eqb dir (path.root dir) = false ->
  JsObject.get dir (configPathCache st) = Some None ->
  exists es,
    trace (snd (findNearestConfig disk (S fuel) dir st))
    = (trace st ++ Access (path.join dir "tsconfig.json") :: es)%list.
Proof.
  intros Hroot Hget. apply walk_first_probe; [exact Hroot|].
  unfold notCachedIn. rewrite Hget. reflexivity.
Qed.

Lemma provideDocumentLinks_after_walk (disk : fs.FileSystem) (fuel : nat)
  (document : vscode.TextDocument) (st : State) :
  JsObject.get (vscode.fileName document) (documentLinkCache st) = None ->
  exists es,
    trace (snd (provideDocumentLinks disk fuel document st))
    = (trace (snd (findNearestConfig disk fuel
                     (path.dirname (vscode.fileName document)) st)) ++ es)%list.
Proof.
  intros Hget. rewrite (provideDocumentLinks_uncached _ _ _ _ Hget).
  destruct (findNearestConfig disk fuel (path.dirname (vscode.fileName document)) st)
    as [[[p|]|e|] s1]; cbn [snd];
    try (exists []; rewrite app_nil_r; reflexivity).
  destruct (String.eqb p ""); [exists []; rewrite app_nil_r; reflexivity|].
  pose proof (getTsConfigAliases_frame disk p s1) as ((es2 & H2) & _).
  destruct (getTsConfigAliases disk p s1) as [[aliases|e|] s2]; cbn [snd] in *;
    try (exists es2; exact H2).
  destruct (provideDocumentLinks_while_effect disk fuel document aliases [] s2)
    as (out & es3 & i & Hrun & _).
  rewrite Hrun. exists (es2 ++ es3)%list.
  destruct out; simpl; rewrite H2, !app_assoc; reflexivity.
Qed.

(** Idempotence where it holds.  When a scan of a document returns after a
    configuration file was located for it, or returns the sequence that was
    already cached, the next scan of the unmodified document returns the
    identical sequence, whatever the file system holds by then, and leaves
    the state as it is: it makes no call to the file system. *)
Lemma second_scan_returns_cached (disk : fs.FileSystem) (fuel : nat)
  (document : vscode.TextDocument) (st st1 : State)
  (links : list vscode.DocumentLink) :
  provideDocumentLinks disk fuel document st = (Returns links, st1) ->
  (JsObject.get (vscode.fileName document) (documentLinkCache st) <> None
   \/ exists p s1,
        findNearestConfig disk fuel (path.dirname (vscode.fileName document)) st
        = (Returns (Some p), s1) /\ p <> "") ->
  forall disk' fuel',
    provideDocumentLinks disk' fuel' document st1 = (Returns links, st1).
Proof.
  intros Hrun Hfound disk' fuel'.
  apply provideDocumentLinks_cached.
  destruct (JsObject.get (vscode.fileName document) (documentLinkCache st))
    as [cached|] eqn:Hget.
  - rewrite (provideDocumentLinks_cached _ _ _ _ _ Hget) in Hrun.
    inversion Hrun; subst. exact Hget.
  - destruct Hfound as [Hc|(p & s1 & Hwalk & Hp)]; [contradiction|].
    rewrite (provideDocumentLinks_uncached _ _ _ _ Hget), Hwalk in Hrun.
    apply String.eqb_neq in Hp. rewrite Hp in Hrun.
    destruct (getTsConfigAliases disk p s1) as [[aliases|e|] s2]; try discriminate.
    destruct (provideDocumentLinks_while disk fuel document aliases [] s2)
      as [[links'|e|] s3]; try discriminate.
    inversion Hrun; subst. cbn [cachedLinks documentLinkCache].
    apply get_set_eq.
Qed.

(** C3, as the code has it.  When the walk finds no configuration file for
    the directory of a document, the scan returns the empty sequence and
    caches nothing for the document; the next scan does not answer from the
    document cache: it runs the walk again, makes the calls this walk
    makes, and returns the empty sequence when the walk finds nothing
    again. *)
Theorem no_config_scan_is_empty_and_not_cached (disk : fs.FileSystem) (fuel : nat)
  (document : vscode.TextDocument) (st st1 : State) :
  let fileDir := path.dirname (vscode.fileName document) in
  JsObject.get (vscode.fileName document) (documentLinkCache st) = None ->
  findNearestConfig disk fuel fileDir st = (Returns None, st1) ->
  provideDocumentLinks disk fuel document st = (Returns [], st1)
  /\ JsObject.get (vscode.fileName document) (documentLinkCache st1) = None
  /\ (forall disk' fuel',
        (exists es,
           trace (snd (provideDocumentLinks disk' fuel' document st1))
           = (trace (snd (findNearestConfig disk' fuel' fileDir st1)) ++ es)%list)
        /\ forall st2,
             findNearestConfig disk' fuel' fileDir st1 = (Returns None, st2) ->
             provideDocumentLinks disk' fuel' document st1 = (Returns [], st2)).
Proof.
  intros fileDir Hget Hwalk.
  destruct (findNearestConfig_null_state disk fuel fileDir st st1 Hwalk)
    as (_ & _ & _ & Hlinks & _).
  assert (Hget1 : JsObject.get (vscode.fileName document) (documentLinkCache st1) = None)
    by (rewrite Hlinks; exact Hget).
  split; [|split].
  - rewrite (provideDocumentLinks_uncached _ _ _ _ Hget). fold fileDir.
    rewrite Hwalk. reflexivity.
  - exact Hget1.
  - intros disk' fuel'. split.
    + apply provideDocumentLinks_after_walk, Hget1.
    + intros st2 Hwalk2.
      rewrite (provideDocumentLinks_uncached _ _ _ _ Hget1). fold fileDir.
      rewrite Hwalk2. reflexivity.
Qed.

(** C1, as the code has it.  A failure while the alias table is built is
    not absorbed: the scan is rejected with it, with no link for any
    specifier and nothing cached for the document; a configuration text
    that is not JSON makes the build fail so.  What is absorbed is the
    failure of a probe: resolving a specifier never raises, answers by the
    file system, the document and the table alone, and changes no module
    variable, so the other specifiers of the document are resolved as they
    would be without it. *)
Theorem config_failure_rejects_scan (disk : fs.FileSystem) (fuel : nat)
  (document : vscode.TextDocument) (st s1 : State) (p : string) :
  JsObject.get (vscode.fileName document) (documentLinkCache st) = None ->
  findNearestConfig disk fuel (path.dirname (vscode.fileName document)) st
  = (Returns (Some p), s1) ->
  p <> "" ->
  (forall e s2,
     getTsConfigAliases disk p s1 = (Throws e, s2) ->
     provideDocumentLinks disk fuel document st = (Throws e, s2)
     /\ documentLinkCache s2 = documentLinkCache st)
  /\ (forall node,
        disk p = Some node ->
        fs.readable node = true ->
        fs.kind node <> fs.Directory ->
        freshTable s1 p (fs.mtimeMs node) = None ->
        JSON.parse (fs.content node) = None ->
        getTsConfigAliases disk p s1
        = (Throws SyntaxError,
           logged [Stat p; ReadFile p; Parse (fs.content node)] s1))
  /\ (forall importPath aliases,
        exists r es, forall st0,
          resolveAlias disk document importPath aliases st0
          = (Returns r, logged es st0)).
Proof.
  intros Hget Hwalk Hp. split; [|split].
  - intros e s2 Hbuild. split.
    + rewrite (provideDocumentLinks_uncached _ _ _ _ Hget), Hwalk.
      apply String.eqb_neq in Hp. rewrite Hp, Hbuild. reflexivity.
    + pose proof (getTsConfigAliases_frame disk p s1) as (_ & _ & H2 & _).
      pose proof (findNearestConfig_frame disk fuel
                    (path.dirname (vscode.fileName document)) st) as (_ & _ & H1 & _).
      rewrite Hbuild in H2. rewrite Hwalk in H1. cbn [snd] in *.
      rewrite H2, H1. reflexivity.
  - intros node D Hr Hk Hfresh Hparse.
    rewrite getTsConfigAliases_run, D, Hfresh, Hr. cbn [negb].
    unfold parseAliases. rewrite Hparse.
    destruct (fs.kind node); [reflexivity | contradiction | reflexivity].
  - intros importPath aliases. apply resolveAlias_total.
Qed.

End Scans.

Example second_scan_returns_cached_on_app :
  let run1 :=
    provideDocumentLinks (path_api := Examples.paths) (json_api := Examples.json)
      (Examples.project 100 Examples.configText) 30 Examples.app initial in
  fst run1 = Returns Examples.appLinks
  /\ provideDocumentLinks (path_api := Examples.paths) (json_api := Examples.json)
       Examples.rootOnly 0 Examples.app (snd run1)
     = (Returns Examples.appLinks, snd run1).
Proof.
  intros run1. split; [vm_compute; reflexivity|].
  apply (@second_scan_returns_cached Examples.paths Examples.json
           (Examples.project 100 Examples.configText) 30 Examples.app initial).
  - vm_compute. reflexivity.
  - right.
    exists "/proj/tsconfig.json",
      (snd (findNearestConfig (path_api := Examples.paths)
              (Examples.project 100 Examples.configText) 30 "/proj/src" initial)).
    split; [vm_compute; reflexivity | discriminate].
Qed.

(** C8 at the failing input.  For [site], a document without a
    configuration file above it, the first scan leaves [null] in the
    per-directory cache for [/work/css] and [/work]; the second scan of the
    unmodified document returns the same empty sequence, but the cached
    [null]s are taken for misses and the file system is probed four times
    more. *)
Theorem second_scan_probes_again :
  let scan :=
    provideDocumentLinks (path_api := Examples.paths) (json_api := Examples.json)
      Examples.rootOnly 10 Examples.site in
  let st1 := snd (scan initial) in
  fst (scan initial) = Returns []
  /\ fst (scan st1) = Returns []
  /\ trace (snd (scan st1))
     = (trace st1
        ++ [Access "/work/css/tsconfig.json"; Access "/work/css/jsconfig.json";
            Access "/work/tsconfig.json"; Access "/work/jsconfig.json"])%list
  /\ snd (scan st1) <> st1.
Proof.
  cbv zeta. repeat split; try (vm_compute; reflexivity).
  intros H. apply (f_equal trace) in H. vm_compute in H. discriminate.
Qed.

Lemma no_config_scan_is_empty_and_not_cached_witness :
  let scan :=
    provideDocumentLinks (path_api := Examples.paths) (json_api := Examples.json)
      Examples.rootOnly 10 Examples.page in
  let walk :=
    findNearestConfig (path_api := Examples.paths) Examples.rootOnly 10 "/work" in
  let st1 := snd (walk initial) in
  scan initial = (Returns [], st1)
  /\ JsObject.get "/work/page.scss" (documentLinkCache st1) = None
  /\ scan st1 = (Returns [], snd (walk st1)).
Proof.
  intros scan walk st1.
  destruct (@no_config_scan_is_empty_and_not_cached Examples.paths Examples.json
              Examples.rootOnly 10 Examples.page initial st1) as (H1 & H2 & H3).
  - reflexivity.
  - vm_compute. reflexivity.
  - split; [exact H1 | split; [exact H2|]].
    destruct (H3 Examples.rootOnly 10) as (_ & Hagain).
    apply Hagain. vm_compute. reflexivity.
Defined.

(** C3 as stated fails: for [page], whose directory has no configuration
    file, the scan returns the empty sequence but the document cache holds
    nothing for it afterwards, and the next scan probes the directory
    again. *)
Lemma empty_result_not_cached_counterexample :
  let scan :=
    provideDocumentLinks (path_api := Examples.paths) (json_api := Examples.json)
      Examples.rootOnly 10 Examples.page in
  let st1 := snd (scan initial) in
  fst (findNearestConfig (path_api := Examples.paths) Examples.rootOnly 10
         "/work" initial) = Returns None
  /\ fst (scan initial) = Returns []
  /\ JsObject.get "/work/page.scss" (documentLinkCache st1) = None
  /\ trace (snd (scan st1))
     = (trace st1 ++ [Access "/work/tsconfig.json"; Access "/work/jsconfig.json"])%list.
Proof. cbv zeta. repeat split; vm_compute; reflexivity. Qed.

Lemma config_failure_rejects_scan_witness :
  let disk := Examples.project 100 Examples.brokenText in
  let s1 :=
    snd (findNearestConfig (path_api := Examples.paths) disk 30 "/proj/src" initial) in
  provideDocumentLinks (path_api := Examples.paths) (json_api := Examples.json)
    disk 30 Examples.app initial
  = (Throws SyntaxError,
     logged [Stat "/proj/tsconfig.json"; ReadFile "/proj/tsconfig.json";
             Parse Examples.brokenText] s1).
Proof.
  intros disk s1.
  destruct (@config_failure_rejects_scan Examples.paths Examples.json disk 30
              Examples.app initial s1 "/proj/tsconfig.json") as (H1 & H2 & _).
  - reflexivity.
  - vm_compute. reflexivity.
  - discriminate.
  - apply H1.
    apply (H2 (Examples.file 100 Examples.brokenText)).
    + reflexivity.
    + reflexivity.
    + discriminate.
    + reflexivity.
    + reflexivity.
Defined.

(** C1 as stated fails: with a configuration file that is not JSON the
    scan of [app] does not return; the failure crosses the boundary of the
    link provider, and no link is produced for [./bar] either, which would
    resolve without any alias. *)
Lemma malformed_config_counterexample :
  let run :=
    provideDocumentLinks (path_api := Examples.paths) (json_api := Examples.json)
      (Examples.project 100 Examples.brokenText) 30 Examples.app initial in
  JSON.parse (API := Examples.json) Examples.brokenText = None
  /\ fst run = Throws SyntaxError
  /\ (forall links, fst run <> Returns links)
  /\ documentLinkCache (snd run) = []
  /\ fst (resolveAlias (path_api := Examples.paths)
            (Examples.project 100 Examples.brokenText) Examples.app "./bar" [] initial)
     = Returns (Some "/proj/src/bar.scss").
Proof.
  cbv zeta. repeat split; try (vm_compute; reflexivity).
  intros links H. vm_compute in H. discriminate.
Qed.

(** ** Invalidation on edit *)

Lemma get_filter_out {V : Type} (k : string) (o : JsObject.t V) :
  JsObject.get k (filter (fun kv => negb (String.eqb (fst kv) k)) o) = None.
Proof.
  induction o as [|[k' v] o IH]; simpl; [reflexivity|].
  destruct (String.eqb k' k) eqn:E; simpl; [exact IH|].
  rewrite E. exact IH.
Qed.

(** After an edit notification for a document nothing is cached for it,
    so the next scan does not answer from the cache. *)
Lemma edit_invalidates (document : vscode.TextDocument) (st : State) :
  let st' := snd (onDidChangeTextDocument document st) in
  JsObject.get (vscode.fileName document) (documentLinkCache st') = None
  /\ configCache st' = configCache st
  /\ configPathCache st' = configPathCache st
  /\ trace st' = trace st.
Proof.
  unfold onDidChangeTextDocument, modify. cbn [snd documentLinkCache].
  repeat split. apply get_filter_out.
Qed.

(** ** Termination of the scanning loop *)

Lemma length_drop (n : nat) (s : string) :
  String.length (JsString.drop n s) <= String.length s.
Proof.
  revert s. induction n as [|n IH]; intros [|c s]; simpl; auto.
Qed.

Lemma length_drop_exact (n : nat) (s : string) :
  n <= String.length s -> String.length (JsString.drop n s) = String.length s - n.
Proof.
  revert s. induction n as [|n IH]; intros [|c s] H; simpl in *; try lia.
  apply IH. lia.
Qed.

Lemma length_dropWhile (f : ascii -> bool) (s : string) :
  String.length (importRegex.dropWhile f s) <= String.length s.
Proof.
  induction s as [|c s IH]; simpl; [lia|].
  destruct (f c); simpl; lia.
Qed.

Lemma length_slice (len : nat) (s : string) :
  len <= String.length s -> String.length (JsString.slice 0 len s) = len.
Proof.
  unfold JsString.slice. revert s.
  induction len as [|len IH]; intros [|c s] H; simpl in *; try lia.
  rewrite IH; lia.
Qed.

(** A match is not empty and lies within the text. *)
Lemma matchHere_length (s : string) (len : nat) (specifier : string) :
  importRegex.matchHere s = Some (len, specifier) ->
  1 <= len <= String.length s.
Proof.
  unfold importRegex.matchHere. destruct s as [|c r1]; [discriminate|].
  destruct (Ascii.eqb c "@"); [|discriminate].
  destruct (importRegex.keyword r1) as [r2|] eqn:K; [|discriminate].
  assert (H2 : String.length r2 <= String.length r1).
  { unfold importRegex.keyword in K.
    destruct (String.prefix "use" r1).
    - injection K as <-. exact (length_drop 3 r1).
    - destruct (String.prefix "import" r1); [|discriminate].
      injection K as <-. exact (length_drop 6 r1). }
  pose proof (length_dropWhile importRegex.isSpace r2) as H3.
  destruct (importRegex.dropWhile importRegex.isSpace r2) as [|q r4]; [discriminate|].
  destruct (importRegex.isQuote q); [|discriminate].
  pose proof (length_dropWhile (fun c => negb (importRegex.isQuote c)) r4) as H4.
  destruct (importRegex.takeWhile (fun c => negb (importRegex.isQuote c)) r4);
    [discriminate|].
  destruct (importRegex.dropWhile (fun c => negb (importRegex.isQuote c)) r4)
    as [|q' r6]; [discriminate|].
  intros H. injection H as <- _. cbn [String.length] in *.
  destruct (String.length r6); lia.
Qed.

Lemma search_cons (c : ascii) (s : string) (i : nat) :
  importRegex.search (String c s) i
  = match importRegex.matchHere (String c s) with
    | Some (len, specifier) =>
        Some {| importRegex.index := i;
                importRegex.whole := JsString.slice 0 len (String c s);
                importRegex.group1 := specifier |}
    | None => importRegex.search s (S i)
    end.
Proof. reflexivity. Qed.

Lemma search_bounds (s : string) (i : nat) (m : importRegex.RegExpExecArray) :
  importRegex.search s i = Some m ->
  i < importRegex.index m + String.length (importRegex.whole m)
  /\ importRegex.index m + String.length (importRegex.whole m) <= i + String.length s.
Proof.
  revert i. induction s as [|c s IH]; intros i H.
  - simpl in H. discriminate.
  - rewrite search_cons in H.
    destruct (importRegex.matchHere (String c s)) as [[len specifier]|] eqn:E.
    + apply matchHere_length in E. injection H as <-.
      cbv beta iota delta [importRegex.index importRegex.whole].
      cbn [String.length] in E. destruct len as [|len]; [lia|].
      cbn [String.length]. rewrite length_slice by lia. lia.
    + apply IH in H. cbn [String.length]. lia.
Qed.

Lemma exec_eq (text : string) (st : State) :
  importRegex.exec text st
  = if (String.length text <? lastIndex st)%nat then (Returns None, atIndex 0 st)
    else match importRegex.search (JsString.drop (lastIndex st) text) (lastIndex st) with
         | Some m =>
             (Returns (Some m),
              atIndex (importRegex.index m + String.length (importRegex.whole m)) st)
         | None => (Returns None, atIndex 0 st)
         end.
Proof.
  unfold importRegex.exec, bind, gets, set_lastIndex, modify, ret.
  destruct (String.length text <? lastIndex st)%nat; [reflexivity|].
  destruct (importRegex.search (JsString.drop (lastIndex st) text) (lastIndex st));
    reflexivity.
Qed.

Section ScanTerminates.

Context {path_api : path.API}.
Variable disk : fs.FileSystem.

(** With more fuel than the text has characters left after [lastIndex],
    the loop returns. *)
Lemma provideDocumentLinks_while_returns (fuel : nat) (document : vscode.TextDocument)
  (aliases : JsObject.t (list string)) (links : list vscode.DocumentLink) (st : State) :
  String.length (vscode.getText document) - lastIndex st < fuel ->
  exists links' st',
    provideDocumentLinks_while disk fuel document aliases links st
    = (Returns links', st').
Proof.
  revert links st. induction fuel as [|fuel IH]; intros links st Hfuel; [lia|].
  cbn [provideDocumentLinks_while]. unfold bind at 1. rewrite exec_eq.
  destruct (String.length (vscode.getText document) <? lastIndex st)%nat eqn:Hlt.
  { do 2 eexists. reflexivity. }
  apply Nat.ltb_ge in Hlt.
  destruct (importRegex.search
              (JsString.drop (lastIndex st) (vscode.getText document)) (lastIndex st))
    as [m|] eqn:Hs.
  2:{ do 2 eexists. reflexivity. }
  apply search_bounds in Hs. rewrite length_drop_exact in Hs by exact Hlt.
  destruct (resolveAlias_total disk document (importRegex.group1 m) (JsObject.own aliases))
    as (r & es & Hres).
  unfold bind at 1. rewrite Hres.
  destruct r as [p|]; [destruct (truthy (Some p))|];
    apply IH; cbn [lastIndex logged atIndex]; lia.
Qed.

End ScanTerminates.

(** ** The models on examples *)

Example posix_examples_hold :
  forallb (fun p => String.eqb (fst p) (snd p)) posix_examples = true.
Proof. reflexivity. Qed.

Example importRegex_examples :
  importRegex.search "a @use   'x/y' @import'./a'" 0
  = Some {| importRegex.index := 2; importRegex.whole := "@use   'x/y'";
            importRegex.group1 := "x/y" |}
  /\ importRegex.search "@user 'z' @use '' @import 'q' rest" 0
     = Some {| importRegex.index := 18; importRegex.whole := "@import 'q'";
               importRegex.group1 := "q" |}
  /\ importRegex.search "@use 'unterminated" 0 = None.
Proof. repeat split. Qed.

Example object_keys_examples :
  JsObject.keys
    (JsObject.set "1" 1 (JsObject.set "b" 2 (JsObject.set "10" 3
       (JsObject.set "a" 4 (JsObject.set "01" 5 [])))))
  = ["1"; "10"; "01"; "a"; "b"].
Proof. reflexivity. Qed.

Example scan_of_app :
  fst (provideDocumentLinks (path_api := Examples.paths) (json_api := Examples.json)
         (Examples.project 100 Examples.configText) 30 Examples.app initial)
  = Returns Examples.appLinks.
Proof. vm_compute. reflexivity. Qed.

(** ** Totality *)

Section Totality.

Context {path_api : path.API} {json_api : JSON.API}.
Variable disk : fs.FileSystem.

(** With more fuel than there are directories below the root, the walk
    ends. *)
Lemma findNearestConfig_terminates (n fuel : nat) (dir : string) (st : State) :
  rootWithin n dir = true ->
  n < fuel ->
  fst (findNearestConfig disk fuel dir st) <> OutOfFuel.
Proof.
  unfold findNearestConfig. revert fuel dir st.
  induction n as [|n IH]; intros fuel dir st Hroot Hlt;
    (destruct fuel as [|fuel]; [lia|]); rewrite findNearestConfig_while_step.
  - simpl in Hroot. rewrite orb_false_r in Hroot. rewrite Hroot. discriminate.
  - destruct (String.eqb dir (path.root dir)) eqn:E; [discriminate|].
    cbn [rootWithin] in Hroot. rewrite E in Hroot. cbn [orb] in Hroot.
    destruct (notCachedIn st dir); [|discriminate]. cbv zeta.
    destruct (readableAt disk (path.join dir "tsconfig.json")); [discriminate|].
    destruct (readableAt disk (path.join dir "jsconfig.json")); [discriminate|].
    apply IH; [exact Hroot | lia].
Qed.

(** A scan that locates a configuration file and builds its table returns
    and caches what it returns, given more fuel than the text has
    characters. *)
Lemma scan_returns_and_caches (fuel : nat) (document : vscode.TextDocument)
  (st s1 s2 : State) (p : string) (aliases : JsObject.t (list string)) :
  JsObject.get (vscode.fileName document) (documentLinkCache st) = None ->
  findNearestConfig disk fuel (path.dirname (vscode.fileName document)) st
  = (Returns (Some p), s1) ->
  p <> "" ->
  getTsConfigAliases disk p s1 = (Returns aliases, s2) ->
  String.length (vscode.getText document) < fuel ->
  exists links st',
    provideDocumentLinks disk fuel document st = (Returns links, st')
    /\ JsObject.get (vscode.fileName document) (documentLinkCache st') = Some links.
Proof.
  intros Hget Hwalk Hp Hbuild Hfuel.
  rewrite (provideDocumentLinks_uncached _ _ _ _ Hget), Hwalk.
  apply String.eqb_neq in Hp. rewrite Hp, Hbuild.
  destruct (provideDocumentLinks_while_returns disk fuel document aliases [] s2)
    as (links & s3 & Hrun); [lia|].
  rewrite Hrun. exists links, (cachedLinks (vscode.fileName document) links s3).
  split; [reflexivity|]. cbn [cachedLinks documentLinkCache]. apply get_set_eq.
Qed.

End Totality.

(** *** POSIX paths: an absolute directory reaches the root *)

Lemma dropWhile_length {A : Type} (f : A -> bool) (l : list A) :
  List.length (posix.dropWhile f l) <= List.length l.
Proof.
  induction l as [|x l IH]; simpl; [lia|].
  destruct (f x); simpl; lia.
Qed.

(** Dropping the trailing separators and then the last segment leaves
    nothing, or less than there was. *)
Lemma dropWhile_twice {A : Type} (f : A -> bool) (l : list A) :
  let r := posix.dropWhile (fun x => negb (f x)) (posix.dropWhile f l) in
  r = [] \/ List.length r < List.length l.
Proof.
  induction l as [|x l IH]; cbn [posix.dropWhile].
  - left. reflexivity.
  - destruct (f x) eqn:E.
    + destruct IH as [IH|IH]; [left; exact IH | right; simpl; lia].
    + cbn [posix.dropWhile]. rewrite E. cbn [negb]. right.
      pose proof (dropWhile_length (fun x => negb (f x)) l). simpl. lia.
Qed.

Lemma length_list_ascii (s : string) :
  List.length (list_ascii_of_string s) = String.length s.
Proof. induction s; simpl; auto. Qed.

Lemma posix_dirname_shrinks (p : string) :
  posix.isAbsolute p = true ->
  p <> "/" ->
  posix.isAbsolute (posix.dirname p) = true
  /\ String.length (posix.dirname p) < String.length p.
Proof.
  destruct p as [|c0 rest]; [discriminate|].
  intros Habs Hne. cbn [posix.isAbsolute] in Habs.
  unfold posix.dirname. rewrite Habs.
  pose proof (dropWhile_twice (fun c => Ascii.eqb c posix.slash)
                (rev (list_ascii_of_string rest))) as Hr.
  cbv zeta in Hr. rewrite length_rev, length_list_ascii in Hr.
  destruct (posix.dropWhile (fun c => negb (Ascii.eqb c posix.slash))
              (posix.dropWhile (fun c => Ascii.eqb c posix.slash)
                 (rev (list_ascii_of_string rest)))) as [|x r].
  - split; [reflexivity|]. destruct rest as [|c1 rest].
    + apply Ascii.eqb_eq in Habs. subst c0. contradiction.
    + simpl. lia.
  - destruct Hr as [Hr|Hr]; [discriminate|].
    cbn [andb]. destruct (Nat.eqb (List.length (x :: r)) 1) eqn:E1.
    + split; [reflexivity|]. apply Nat.eqb_eq in E1. simpl in *. lia.
    + split.
      * simpl. exact Habs.
      * change (String.substring 0 (List.length (x :: r)) (String c0 rest))
          with (JsString.slice 0 (List.length (x :: r)) (String c0 rest)).
        rewrite length_slice; simpl in *; lia.
Qed.

Lemma posix_root_reached (cwd : string) (n : nat) (p : string) :
  posix.isAbsolute p = true ->
  String.length p <= S n ->
  rootWithin (path_api := posix.api cwd) n p = true.
Proof.
  revert p. induction n as [|n IH]; intros p Habs Hlen.
  - destruct p as [|c [|d p]]; try discriminate; [|simpl in Hlen; lia].
    cbn [posix.isAbsolute] in Habs. apply Ascii.eqb_eq in Habs. subst c. reflexivity.
  - cbn [rootWithin]. destruct (String.eqb p (path.root p)) eqn:E; [reflexivity|].
    cbn [orb].
    assert (Hne : p <> "/").
    { intros ->. discriminate. }
    destruct (posix_dirname_shrinks p Habs Hne) as [Ha Hl].
    apply IH; [exact Ha|]. cbn [path.dirname posix.api]. lia.
Qed.

(** On POSIX paths the walk from an absolute directory ends, given more
    fuel than the directory has characters. *)
Corollary posix_walk_terminates (cwd : string) (disk : fs.FileSystem)
  (fuel : nat) (dir : string) (st : State) :
  posix.isAbsolute dir = true ->
  String.length dir <= fuel ->
  fst (findNearestConfig (path_api := posix.api cwd) disk fuel dir st) <> OutOfFuel.
Proof.
  intros Habs Hlen. destruct fuel as [|fuel].
  - destruct dir; [discriminate | simpl in Hlen; lia].
  - apply (findNearestConfig_terminates disk fuel (S fuel)); [|lia].
    apply posix_root_reached; assumption.
Qed.

(** *** POSIX paths: normalised absolute directories *)

Lemma append_assoc (a b c : string) : (a ++ b) ++ c = a ++ (b ++ c).
Proof. induction a as [|x a IH]; simpl; [reflexivity | rewrite IH; reflexivity]. Qed.




























(** ** The walk against the file system *)

Section CacheSoundness.

Context {path_api : path.API}.

Lemma cacheSound_logged (disk : fs.FileSystem) (es : list Event) (st : State) :
  cacheSound disk st -> cacheSound disk (logged es st).
Proof. intros H. exact H. Qed.

Lemma cacheSound_cachedPath (disk : fs.FileSystem) (dir : string) (v : option string)
  (st : State) :
  cacheSound disk st ->
  (forall p, v = Some p -> p <> "" -> probeAnswer disk dir = Some p) ->
  cacheSound disk (cachedPath dir v st).
Proof.
  intros Hs Hv c p Hget Hp. unfold cachedPath in Hget. cbn [configPathCache] in Hget.
  destruct (String.eqb dir c) eqn:E.
  - apply String.eqb_eq in E. subst c. rewrite get_set_eq in Hget.
    injection Hget as ->. apply Hv; auto.
  - apply String.eqb_neq in E. rewrite get_set_ne in Hget by exact E.
    apply Hs; assumption.
Qed.

Lemma findNearestConfig_sound (disk : fs.FileSystem) (fuel : nat) (dir : string)
  (st : State) :
  cacheSound disk st ->
  fst (findNearestConfig disk fuel dir st) = nearestConfig disk fuel dir
  /\ cacheSound disk (snd (findNearestConfig disk fuel dir st)).
Proof.
  unfold findNearestConfig. revert dir st.
  induction fuel as [|fuel IH]; intros dir st Hs.
  - split; [reflexivity | exact Hs].
  - rewrite findNearestConfig_while_step. cbn [nearestConfig].
    destruct (String.eqb dir (path.root dir)); [split; [reflexivity | exact Hs]|].
    unfold notCachedIn.
    destruct (JsObject.get dir (configPathCache st)) as [[p|]|] eqn:Hget.
    + cbn [truthy]. destruct (String.eqb p "") eqn:Ep; cbn [negb].
      * unfold probeAnswer. cbv zeta.
        destruct (readableAt disk (path.join dir "tsconfig.json")) eqn:Hts.
        { split; [reflexivity|]. apply cacheSound_cachedPath; [exact Hs|].
          intros q Hq _. injection Hq as <-. unfold probeAnswer. rewrite Hts. reflexivity. }
        destruct (readableAt disk (path.join dir "jsconfig.json")) eqn:Hjs.
        { split; [reflexivity|]. apply cacheSound_cachedPath; [exact Hs|].
          intros q Hq _. injection Hq as <-. unfold probeAnswer. rewrite Hts, Hjs.
          reflexivity. }
        apply IH. apply cacheSound_cachedPath; [exact Hs | discriminate].
      * apply String.eqb_neq in Ep. rewrite (Hs dir p Hget Ep).
        split; [reflexivity | exact Hs].
    + cbn [truthy negb]. unfold probeAnswer. cbv zeta.
      destruct (readableAt disk (path.join dir "tsconfig.json")) eqn:Hts.
      { split; [reflexivity|]. apply cacheSound_cachedPath; [exact Hs|].
        intros q Hq _. injection Hq as <-. unfold probeAnswer. rewrite Hts. reflexivity. }
      destruct (readableAt disk (path.join dir "jsconfig.json")) eqn:Hjs.
      { split; [reflexivity|]. apply cacheSound_cachedPath; [exact Hs|].
        intros q Hq _. injection Hq as <-. unfold probeAnswer. rewrite Hts, Hjs.
        reflexivity. }
      apply IH. apply cacheSound_cachedPath; [exact Hs | discriminate].
    + unfold probeAnswer. cbv zeta.
      destruct (readableAt disk (path.join dir "tsconfig.json")) eqn:Hts.
      { split; [reflexivity|]. apply cacheSound_cachedPath; [exact Hs|].
        intros q Hq _. injection Hq as <-. unfold probeAnswer. rewrite Hts. reflexivity. }
      destruct (readableAt disk (path.join dir "jsconfig.json")) eqn:Hjs.
      { split; [reflexivity|]. apply cacheSound_cachedPath; [exact Hs|].
        intros q Hq _. injection Hq as <-. unfold probeAnswer. rewrite Hts, Hjs.
        reflexivity. }
      apply IH. apply cacheSound_cachedPath; [exact Hs | discriminate].
Qed.

End CacheSoundness.


(** ** The walk and the root directory *)




(** * Further properties of the program *)

(** ** The locator against its specification *)

Section LocatorSpecification.

Context {path_api : path.API}.

(** X1.  As long as the per-directory cache only holds what probes answer
    on the present file system (it does in a freshly loaded module), the
    walk returns the nearest configuration file: the [tsconfig.json], or
    else the [jsconfig.json], of the first directory from the start
    upwards, below the root, that holds one.  It leaves the cache in that
    condition, so walking again, from there or from anywhere else, gives
    the answer of the file system again. *)
Theorem walk_finds_nearest_config (disk : fs.FileSystem) (fuel : nat)
  (dir : string) (st : State) :
  cacheSound disk initial
  /\ (cacheSound disk st ->
      let st' := snd (findNearestConfig disk fuel dir st) in
      fst (findNearestConfig disk fuel dir st) = nearestConfig disk fuel dir
      /\ cacheSound disk st'
      /\ forall fuel' dir',
           fst (findNearestConfig disk fuel' dir' st') = nearestConfig disk fuel' dir').
Proof.
  split.
  - intros c p Hget. discriminate.
  - intros Hs. cbv zeta.
    destruct (findNearestConfig_sound disk fuel dir st Hs) as [H1 H2].
    split; [exact H1 | split; [exact H2|]].
    intros fuel' dir'. apply findNearestConfig_sound, H2.
Qed.

End LocatorSpecification.

Lemma walk_finds_nearest_config_witness :
  let disk := Examples.project 100 Examples.configText in
  fst (findNearestConfig (path_api := Examples.paths) disk 10 "/proj/src" initial)
  = Returns (Some "/proj/tsconfig.json").
Proof.
  intros disk.
  destruct (@walk_finds_nearest_config Examples.paths disk 10 "/proj/src" initial)
    as (Hinit & H).
  destruct (H Hinit) as (Hrun & _).
  rewrite Hrun. reflexivity.
Defined.

Section LocatorEdges.

Context {path_api : path.API} {json_api : JSON.API}.

(** X2.  A truthy entry of the per-directory cache is returned as it is,
    without a call and whatever the file system holds by now: the cache is
    never checked against the file system.  When the cached file has gone,
    the scan of a document of that directory is rejected with the [ENOENT]
    of [fs.stat], and nothing is cached for the document. *)
Theorem cached_path_is_never_rechecked (disk : fs.FileSystem) (fuel : nat)
  (document : vscode.TextDocument) (p : string) (st : State) :
  let dir := path.dirname (vscode.fileName document) in
  String.eqb dir (path.root dir) = false ->
  JsObject.get dir (configPathCache st) = Some (Some p) ->
  p <> "" ->
  findNearestConfig disk (S fuel) dir st = (Returns (Some p), st)
  /\ (disk p = None ->
      JsObject.get (vscode.fileName document) (documentLinkCache st) = None ->
      provideDocumentLinks disk (S fuel) document st
      = (Throws (SystemError "ENOENT"), logged [Stat p] st)).
Proof.
  intros dir Hroot Hget Hp.
  assert (Hwalk : findNearestConfig disk (S fuel) dir st = (Returns (Some p), st))
    by (apply cached_path_short_circuits; assumption).
  split; [exact Hwalk|].
  intros Hgone Hdoc.
  rewrite (provideDocumentLinks_uncached _ _ _ _ Hdoc). fold dir. rewrite Hwalk.
  apply String.eqb_neq in Hp. rewrite Hp.
  rewrite getTsConfigAliases_run, Hgone. reflexivity.
Qed.

(** X3.  The walk records a configuration file under the directory that
    holds it: when the probe of the starting directory answers, the walk
    returns that answer, and every later walk from this directory returns
    it again without a call, on whatever file system. *)
Theorem found_config_is_cached_for_its_directory (disk : fs.FileSystem)
  (fuel : nat) (dir p : string) (st : State) :
  String.eqb dir (path.root dir) = false ->
  notCachedIn st dir = true ->
  probeAnswer disk dir = Some p ->
  p <> "" ->
  let st1 := snd (findNearestConfig disk (S fuel) dir st) in
  fst (findNearestConfig disk (S fuel) dir st) = Returns (Some p)
  /\ JsObject.get dir (configPathCache st1) = Some (Some p)
  /\ forall disk' fuel',
       findNearestConfig disk' (S fuel') dir st1 = (Returns (Some p), st1).
Proof.
  intros Hroot Hc Hprobe Hp. cbv zeta.
  assert (Hrun : fst (findNearestConfig disk (S fuel) dir st) = Returns (Some p)
                 /\ JsObject.get dir
                      (configPathCache (snd (findNearestConfig disk (S fuel) dir st)))
                    = Some (Some p)).
  { unfold findNearestConfig. rewrite findNearestConfig_while_step, Hroot, Hc.
    cbv zeta. unfold probeAnswer in Hprobe.
    destruct (readableAt disk (path.join dir "tsconfig.json")).
    - injection Hprobe as <-. split; [reflexivity|].
      cbn [snd cachedPath configPathCache]. apply get_set_eq.
    - destruct (readableAt disk (path.join dir "jsconfig.json")); [|discriminate].
      injection Hprobe as <-. split; [reflexivity|].
      cbn [snd cachedPath configPathCache]. apply get_set_eq. }
  destruct Hrun as [H1 H2]. split; [exact H1 | split; [exact H2|]].
  intros disk' fuel'. apply cached_path_short_circuits; assumption.
Qed.

(** X4.  A directory that is its own parent without being its own root
    (the directory [.] of a relative path on POSIX) traps the walk: unless
    a configuration file is found there, the loop never ends, whatever
    fuel it is given. *)
Theorem walk_never_leaves_a_self_parent (disk : fs.FileSystem) (fuel : nat)
  (dir : string) (st : State) :
  path.dirname dir = dir ->
  String.eqb dir (path.root dir) = false ->
  noConfigIn disk dir = true ->
  notCachedIn st dir = true ->
  fst (findNearestConfig disk fuel dir st) = OutOfFuel.
Proof.
  intros Hself Hroot Hno. unfold findNearestConfig. revert st.
  induction fuel as [|fuel IH]; intros st Hc; [reflexivity|].
  rewrite findNearestConfig_while_step, Hroot, Hc. cbv zeta.
  unfold noConfigIn, configProbes in Hno. simpl in Hno.
  rewrite andb_true_r in Hno. apply andb_true_iff in Hno as [Hts Hjs].
  apply negb_true_iff in Hts, Hjs. rewrite Hts, Hjs, Hself.
  apply IH. apply notCachedIn_cachedPath_none. exact Hc.
Qed.

End LocatorEdges.

Lemma cached_path_is_never_rechecked_witness :
  let st :=
    snd (findNearestConfig (path_api := Examples.paths)
           (Examples.project 100 Examples.configText) 10 "/proj" initial) in
  let document := Examples.document "/proj/main.scss" "@use '@styles/button';" in
  provideDocumentLinks (path_api := Examples.paths) (json_api := Examples.json)
    Examples.rootOnly 10 document st
  = (Throws (SystemError "ENOENT"), logged [Stat "/proj/tsconfig.json"] st).
Proof.
  intros st document.
  destruct (@cached_path_is_never_rechecked Examples.paths Examples.json
              Examples.rootOnly 9 document "/proj/tsconfig.json" st) as (_ & H).
  - reflexivity.
  - reflexivity.
  - discriminate.
  - apply H; reflexivity.
Defined.

Lemma found_config_is_cached_for_its_directory_witness :
  let disk := Examples.project 100 Examples.configText in
  let st1 := snd (findNearestConfig (path_api := Examples.paths) disk 10 "/proj" initial) in
  findNearestConfig (path_api := Examples.paths) Examples.rootOnly 1 "/proj" st1
  = (Returns (Some "/proj/tsconfig.json"), st1).
Proof.
  intros disk st1.
  destruct (@found_config_is_cached_for_its_directory Examples.paths disk 9
              "/proj" "/proj/tsconfig.json" initial) as (_ & _ & H).
  - reflexivity.
  - reflexivity.
  - reflexivity.
  - discriminate.
  - apply H.
Defined.

Lemma walk_never_leaves_a_self_parent_witness :
  path.dirname (API := Examples.paths) "Untitled-1" = "."
  /\ fst (findNearestConfig (path_api := Examples.paths) Examples.rootOnly 1000
            "." initial) = OutOfFuel.
Proof.
  split; [reflexivity|].
  apply (@walk_never_leaves_a_self_parent Examples.paths Examples.rootOnly 1000
           "." initial); reflexivity.
Defined.

(** X5.  On POSIX paths the walk from an absolute directory ends: with no
    less fuel than the directory has characters it returns, whatever the
    file system and the caches hold. *)
Theorem absolute_walk_ends (cwd : string) (disk : fs.FileSystem) (fuel : nat)
  (dir : string) (st : State) :
  posix.isAbsolute dir = true ->
  String.length dir <= fuel ->
  exists answer,
    fst (findNearestConfig (path_api := posix.api cwd) disk fuel dir st)
    = Returns answer.
Proof.
  intros Habs Hlen.
  pose proof (posix_walk_terminates cwd disk fuel dir st Habs Hlen) as Hend.
  destruct (findNearestConfig (path_api := posix.api cwd) disk fuel dir st)
    as [[answer|e|] st'] eqn:E; cbn [fst] in *.
  - exists answer. reflexivity.
  - exfalso. revert E. clear. unfold findNearestConfig. revert dir st.
    induction fuel as [|fuel IH]; intros dir st; [discriminate|].
    rewrite findNearestConfig_while_step.
    destruct (String.eqb dir (path.root dir)); [discriminate|].
    destruct (notCachedIn st dir); [|discriminate]. cbv zeta.
    destruct (readableAt disk (path.join dir "tsconfig.json")); [discriminate|].
    destruct (readableAt disk (path.join dir "jsconfig.json")); [discriminate|].
    apply IH.
  - contradiction.
Qed.

Lemma absolute_walk_ends_witness :
  exists answer,
    fst (findNearestConfig (path_api := posix.api "/home/user") Examples.rootOnly 9
           "/work/css" initial) = Returns answer.
Proof.
  apply (absolute_walk_ends "/home/user" Examples.rootOnly 9 "/work/css" initial).
  - reflexivity.
  - simpl. lia.
Defined.

(** ** The alias table builder: typing, keys and repetition *)

Section ObjectKeys.

Context {V : Type}.

Lemma keys_update (k : string) (v : V) (o : JsObject.t V) :
  JsObject.keys (JsObject.update k v o) = JsObject.keys o.
Proof.
  induction o as [|[k' v'] o IH]; [reflexivity|].
  cbn [JsObject.update]. destruct (String.eqb k' k) eqn:E.
  - apply String.eqb_eq in E. subst k'. reflexivity.
  - unfold JsObject.keys in *. cbn [map fst]. rewrite IH. reflexivity.
Qed.

Lemma keys_insert_new (k : string) (v : V) (o : JsObject.t V) :
  exists pre post,
    JsObject.keys o = (pre ++ post)%list
    /\ JsObject.keys (JsObject.insert_new k v o) = (pre ++ k :: post)%list.
Proof.
  induction o as [|[k' v'] o IH].
  - exists [], []. split; reflexivity.
  - cbn [JsObject.insert_new]. destruct (JsObject.precedes k k').
    + exists [], (JsObject.keys ((k', v') :: o)). split; reflexivity.
    + destruct IH as (pre & post & H1 & H2).
      exists (k' :: pre), post. unfold JsObject.keys in *. cbn [map fst].
      rewrite H1, H2. split; reflexivity.
Qed.

Lemma has_false_not_key (k : string) (o : JsObject.t V) :
  JsObject.has k o = false -> ~ In k (JsObject.keys o).
Proof.
  unfold JsObject.has. intros H Hin.
  destruct (get_of_key k o Hin) as (v & Hv). rewrite Hv in H. discriminate.
Qed.

Lemma has_true_key (k : string) (o : JsObject.t V) :
  JsObject.has k o = true -> In k (JsObject.keys o).
Proof.
  unfold JsObject.has. induction o as [|[k' v'] o IH]; simpl; [discriminate|].
  destruct (String.eqb k' k) eqn:E.
  - intros _. left. apply String.eqb_eq, E.
  - intros H. right. apply IH, H.
Qed.

(** An assignment adds its key, once, and keeps the others. *)
Lemma keys_set (k : string) (v : V) (o : JsObject.t V) :
  (forall k', In k' (JsObject.keys (JsObject.set k v o)) <-> k' = k \/ In k' (JsObject.keys o))
  /\ (NoDup (JsObject.keys o) -> NoDup (JsObject.keys (JsObject.set k v o))).
Proof.
  unfold JsObject.set. destruct (JsObject.has k o) eqn:E.
  - rewrite keys_update. split; [|auto].
    intros k'. split; [auto|].
    intros [->|H]; [apply has_true_key, E | exact H].
  - destruct (keys_insert_new k v o) as (pre & post & H1 & H2).
    rewrite H2, H1. split.
    + intros k'. rewrite !in_app_iff. cbn [In]. split.
      * intros [H|[H|H]]; auto.
      * intros [H|[H|H]]; auto.
    + intros Hnd. apply NoDup_Add with (a := k) (l := (pre ++ post)%list).
      * apply Add_app.
      * split; [exact Hnd|]. rewrite <- H1. apply has_false_not_key, E.
Qed.

End ObjectKeys.

Section BuilderMore.

Context {path_api : path.API} {json_api : JSON.API}.

Lemma mapTargets_typed (configPath : string) (targets : list JSON.value) :
  match mapTargets configPath targets with
  | inr _ => isStringArray (JSON.Array targets) = true
  | inl e => e = TypeError /\ isStringArray (JSON.Array targets) = false
  end.
Proof.
  induction targets as [|t targets IH]; [reflexivity|].
  cbn [mapTargets isStringArray forallb] in *.
  destruct t; try (split; reflexivity).
  destruct (mapTargets configPath targets); [|exact IH].
  destruct IH as [-> IH]. split; [reflexivity | exact IH].
Qed.

Lemma buildAliases_typed (configPath : string) (entries : list (string * JSON.value))
  (acc : JsObject.t (list string)) :
  match buildAliases configPath entries acc with
  | inr _ => forallb (fun kv => isStringArray (snd kv)) entries = true
  | inl e => e = TypeError /\ forallb (fun kv => isStringArray (snd kv)) entries = false
  end.
Proof.
  revert acc. induction entries as [|[alias v] entries IH]; intros acc; [reflexivity|].
  cbn [buildAliases forallb snd].
  destruct v as [| | | |targets|]; try (split; reflexivity).
  pose proof (mapTargets_typed configPath targets) as Hm.
  destruct (mapTargets configPath targets) as [e|actualPaths].
  - destruct Hm as [-> Hm]. rewrite Hm. split; reflexivity.
  - rewrite Hm. cbn [andb]. apply IH.
Qed.

Lemma buildAliases_keys (configPath : string) (entries : list (string * JSON.value))
  (acc table : JsObject.t (list string)) :
  buildAliases configPath entries acc = inr table ->
  (forall k, In k (JsObject.keys table)
             <-> In k (map (fun kv => stripWildcard (fst kv)) entries)
                 \/ In k (JsObject.keys acc))
  /\ (NoDup (JsObject.keys acc) -> NoDup (JsObject.keys table)).
Proof.
  revert acc. induction entries as [|[alias v] entries IH]; intros acc H.
  - injection H as <-. split; [|auto]. intros k. cbn [map In]. tauto.
  - cbn [buildAliases] in H. destruct v as [| | | |targets|]; try discriminate.
    destruct (mapTargets configPath targets) as [e|actualPaths]; [discriminate|].
    destruct (IH _ H) as [Hin Hnd].
    destruct (keys_set (stripWildcard alias) actualPaths acc) as [Hin' Hnd'].
    split.
    + intros k. rewrite Hin, Hin'. cbn [map In fst]. split.
      * intros [Hk|[Hk|Hk]]; auto.
      * intros [[Hk|Hk]|Hk]; auto.
    + intros Hacc. apply Hnd, Hnd', Hacc.
Qed.

(** X6.  The loop that builds the table succeeds exactly when every
    declared alias maps to an array of strings; any other declaration makes
    it raise a [TypeError], and then [getTsConfigAliases] raises it after
    the file was read and parsed, leaving every cache as it was. *)
Theorem alias_table_needs_string_arrays (disk : fs.FileSystem) (configPath : string)
  (entries : list (string * JSON.value)) (acc : JsObject.t (list string))
  (st : State) :
  ((exists table, buildAliases configPath entries acc = inr table)
   <-> forallb (fun kv => isStringArray (snd kv)) entries = true)
  /\ (forallb (fun kv => isStringArray (snd kv)) entries = false ->
      buildAliases configPath entries acc = inl TypeError)
  /\ (forall node,
        disk configPath = Some node ->
        fs.readable node = true ->
        fs.kind node = fs.RegularFile ->
        freshTable st configPath (fs.mtimeMs node) = None ->
        parseAliases configPath (fs.content node) = inl TypeError ->
        getTsConfigAliases disk configPath st
        = (Throws TypeError,
           logged [Stat configPath; ReadFile configPath; Parse (fs.content node)] st)).
Proof.
  pose proof (buildAliases_typed configPath entries acc) as H.
  split; [|split].
  - destruct (buildAliases configPath entries acc) as [e|table].
    + destruct H as [_ H]. rewrite H. split; [intros (t & Ht)|]; discriminate.
    + rewrite H. split; [reflexivity | eauto].
  - intros Hbad. destruct (buildAliases configPath entries acc) as [e|table].
    + destruct H as [-> _]. reflexivity.
    + rewrite H in Hbad. discriminate.
  - intros node D Hr Hk Hfresh Hparse.
    rewrite getTsConfigAliases_run, D, Hfresh, Hr, Hk, Hparse. reflexivity.
Qed.

Lemma keys_own (o : JsObject.t (list string)) :
  JsObject.keys (JsObject.own o)
  = filter (fun k => negb (JsObject.isPrototype k)) (JsObject.keys o).
Proof.
  unfold JsObject.keys, JsObject.own.
  induction o as [|[k v] o IH]; [reflexivity|].
  cbn [filter map fst]. destruct (JsObject.isPrototype k); cbn [negb map fst].
  - exact IH.
  - rewrite IH. reflexivity.
Qed.

(** X7.  The keys that [Object.keys] lists for a built table are the
    declared aliases with the wildcard marker removed, other than
    [__proto__], each key once: two declarations that strip to the same key
    share one entry.  A declaration that strips to [__proto__] gives no
    key: its targets become the prototype of the table, and [resolveAlias]
    never selects it. *)
Theorem alias_table_keys_are_unique (configPath : string)
  (entries : list (string * JSON.value)) (table : JsObject.t (list string)) :
  buildAliases configPath entries [] = inr table ->
  NoDup (JsObject.keys (JsObject.own table))
  /\ (forall k, In k (JsObject.keys (JsObject.own table))
                <-> k <> "__proto__"
                    /\ In k (map (fun kv => stripWildcard (fst kv)) entries))
  /\ (forall importPath,
        findAliasKey importPath (JsObject.own table) <> Some "__proto__").
Proof.
  intros H. destruct (buildAliases_keys configPath entries [] table H) as [Hin Hnd].
  assert (Hown : forall k, In k (JsObject.keys (JsObject.own table))
                           <-> k <> "__proto__"
                               /\ In k (map (fun kv => stripWildcard (fst kv)) entries)).
  { intros k. rewrite keys_own, filter_In, Hin. unfold JsObject.isPrototype.
    cbn [JsObject.keys map In]. rewrite negb_true_iff, String.eqb_neq.
    tauto. }
  split; [|split].
  - rewrite keys_own. apply NoDup_filter, Hnd. constructor.
  - exact Hown.
  - intros importPath F. unfold findAliasKey in F. apply find_some in F as [Hk _].
    apply Hown in Hk as [Hne _]. apply Hne. reflexivity.
Qed.

(** X8.  Building the table of a configuration file twice in a row, the
    file keeping its timestamp, parses it once: the second call returns the
    same table after nothing but the [stat]. *)
Theorem second_build_is_a_cache_hit (disk : fs.FileSystem) (configPath : string)
  (st st1 : State) (table : JsObject.t (list string)) :
  getTsConfigAliases disk configPath st = (Returns table, st1) ->
  getTsConfigAliases disk configPath st1
  = (Returns table, logged [Stat configPath] st1).
Proof.
  intros H. rewrite getTsConfigAliases_run in H. rewrite getTsConfigAliases_run.
  destruct (disk configPath) as [node|]; [|discriminate].
  assert (Hfresh : freshTable st1 configPath (fs.mtimeMs node) = Some table).
  { destruct (freshTable st configPath (fs.mtimeMs node)) as [cached|] eqn:F.
    - injection H as <- <-. exact F.
    - destruct (fs.readable node); [|discriminate]. cbn [negb] in H.
      destruct (fs.kind node); try discriminate; cbv zeta in H;
        destruct (parseAliases configPath (fs.content node)); try discriminate;
        injection H as <- <-; unfold freshTable;
        cbn [cachedConfig configCache]; rewrite get_set_eq;
        cbn [ConfigCacheEntry.lastModified ConfigCacheEntry.aliases];
        rewrite Z.eqb_refl; reflexivity. }
  rewrite Hfresh. reflexivity.
Qed.

(** X9.  A configuration object that declares no alias (no
    [compilerOptions], one that is not an object, or one whose [paths] is
    missing or falsy) gives the empty table, and with the empty table every
    specifier is resolved by the relative fallback. *)
Theorem config_without_aliases_resolves_relatively (disk : fs.FileSystem)
  (configPath text : string) (props : JsObject.t JSON.value)
  (document : vscode.TextDocument) (importPath : string) (st : State) :
  JSON.parse text = Some (JSON.Object props) ->
  declaresNoAlias props = true ->
  parseAliases configPath text = inr []
  /\ resolveAlias disk document importPath [] st
     = tryWithExtensions disk document importPath st.
Proof.
  intros Hparse Hcase.
  split; [|rewrite resolveAlias_run; reflexivity].
  unfold parseAliases. rewrite Hparse. unfold pathsOf. cbn [JSON.member].
  unfold declaresNoAlias in Hcase.
  destruct (JsObject.get "compilerOptions" props) as [options|]; [|reflexivity].
  destruct options as [| | | | |options]; try reflexivity.
  cbn [JSON.member].
  destruct (JsObject.get "paths" options) as [paths|]; [|reflexivity].
  apply negb_true_iff in Hcase. rewrite Hcase. reflexivity.
Qed.

End BuilderMore.

Lemma alias_table_needs_string_arrays_witness :
  let disk := Examples.project 100 MoreExamples.badText in
  buildAliases (path_api := Examples.paths) "/proj/tsconfig.json"
    [("@x", JSON.String "src")] [] = inl TypeError
  /\ getTsConfigAliases (path_api := Examples.paths) (json_api := MoreExamples.json)
       disk "/proj/tsconfig.json" initial
     = (Throws TypeError,
        logged [Stat "/proj/tsconfig.json"; ReadFile "/proj/tsconfig.json";
                Parse MoreExamples.badText] initial)
  /\ exists table,
       buildAliases (path_api := Examples.paths) "/proj/tsconfig.json"
         [("@x", JSON.Array [JSON.String "src"])] [] = inr table.
Proof.
  intros disk.
  destruct (@alias_table_needs_string_arrays Examples.paths MoreExamples.json disk
              "/proj/tsconfig.json" [("@x", JSON.String "src")] [] initial)
    as (_ & Hbad & Hbuild).
  destruct (@alias_table_needs_string_arrays Examples.paths MoreExamples.json disk
              "/proj/tsconfig.json" [("@x", JSON.Array [JSON.String "src"])] [] initial)
    as (Hiff & _).
  split; [|split].
  - apply Hbad. reflexivity.
  - apply (Hbuild (Examples.file 100 MoreExamples.badText)); reflexivity.
  - apply Hiff. reflexivity.
Defined.

Lemma alias_table_keys_are_unique_witness :
  let table := [("__proto__", ["/proj/x"]); ("@a", ["/proj/z"])] in
  buildAliases (path_api := Examples.paths) "/proj/tsconfig.json"
    [("__proto__/*", JSON.Array [JSON.String "x/*"]);
     ("@a/*", JSON.Array [JSON.String "y/*"]); ("@a", JSON.Array [JSON.String "z"])] []
  = inr table
  /\ JsObject.keys (JsObject.own table) = ["@a"]
  /\ NoDup (JsObject.keys (JsObject.own table))
  /\ findAliasKey "__proto__/b" (JsObject.own table) <> Some "__proto__".
Proof.
  intros table. split; [reflexivity|]. split; [reflexivity|].
  destruct (@alias_table_keys_are_unique Examples.paths "/proj/tsconfig.json"
              [("__proto__/*", JSON.Array [JSON.String "x/*"]);
               ("@a/*", JSON.Array [JSON.String "y/*"]);
               ("@a", JSON.Array [JSON.String "z"])] table eq_refl)
    as (H1 & _ & H3).
  split; [exact H1 | apply H3].
Defined.

Lemma second_build_is_a_cache_hit_witness :
  let build :=
    getTsConfigAliases (path_api := Examples.paths) (json_api := Examples.json)
      (Examples.project 100 Examples.configText) "/proj/tsconfig.json" in
  let table := [("@styles", ["/proj/styles"]); ("@a", ["/proj/lib"; "/proj/vendor"])] in
  build (snd (build initial))
  = (Returns table, logged [Stat "/proj/tsconfig.json"] (snd (build initial))).
Proof.
  intros build table.
  apply (@second_build_is_a_cache_hit Examples.paths Examples.json
           (Examples.project 100 Examples.configText) "/proj/tsconfig.json" initial).
  vm_compute. reflexivity.
Defined.

Lemma config_without_aliases_resolves_relatively_witness :
  parseAliases (path_api := Examples.paths) (json_api := MoreExamples.json)
    "/proj/tsconfig.json" MoreExamples.emptyText = inr []
  /\ fst (resolveAlias (path_api := Examples.paths)
            (Examples.project 100 MoreExamples.emptyText) Examples.app "./bar" [] initial)
     = Returns (Some "/proj/src/bar.scss").
Proof.
  destruct (@config_without_aliases_resolves_relatively Examples.paths MoreExamples.json
              (Examples.project 100 MoreExamples.emptyText) "/proj/tsconfig.json"
              MoreExamples.emptyText [] Examples.app "./bar" initial) as (H1 & H2).
  - reflexivity.
  - reflexivity.
  - split; [exact H1|]. rewrite H2. reflexivity.
Defined.

(** ** The resolver: what it answers *)

Section ResolverMore.

Context {path_api : path.API} {json_api : JSON.API}.
Variable disk : fs.FileSystem.

Lemma resolveFor_readable (relativePath : string) (basePaths : list string) (p : string) :
  fst (resolveFor disk relativePath basePaths) = Some p -> readableAt disk p = true.
Proof.
  induction basePaths as [|basePath basePaths IH]; [discriminate|].
  cbn [resolveFor].
  destruct (disk (path.join basePath relativePath)) as [node|] eqn:D.
  2:{ destruct (resolveFor disk relativePath basePaths). exact IH. }
  destruct (fs.readable node) eqn:Hr.
  2:{ destruct (resolveFor disk relativePath basePaths). exact IH. }
  destruct (fs.kind node).
  - cbn [fst]. intros H. injection H as <-. unfold readableAt. rewrite D. exact Hr.
  - destruct (readableAt disk (path.join (path.join basePath relativePath) "index.scss"))
      eqn:Hi.
    + cbn [fst]. intros H. injection H as <-. exact Hi.
    + cbn [fst].
      destruct (readableAt disk (path.join (path.join basePath relativePath) "main.scss"))
        eqn:Hm; [|discriminate].
      intros H. injection H as <-. exact Hm.
  - discriminate.
Qed.

Lemma resolveAlias_readable (document : vscode.TextDocument) (importPath : string)
  (aliases : JsObject.t (list string)) (st : State) (p : string) :
  fst (resolveAlias disk document importPath aliases st) = Returns (Some p) ->
  readableAt disk p = true.
Proof.
  rewrite resolveAlias_run.
  assert (Hrel : fst (tryWithExtensions disk document importPath st) = Returns (Some p) ->
                 readableAt disk p = true).
  { rewrite tryWithExtensions_run. cbn [fst]. intros H.
    assert (Hf : List.find (readableAt disk) (candidates document importPath) = Some p)
      by congruence.
    apply find_some in Hf. apply Hf. }
  destruct (findAliasKey importPath aliases) as [aliasKey|]; [|exact Hrel].
  destruct (String.eqb aliasKey ""); [exact Hrel|].
  destruct (JsObject.get aliasKey aliases) as [basePaths|]; [|discriminate].
  rewrite resolveAlias_for_run. cbn [fst]. intros H.
  apply (resolveFor_readable (JsString.replace importPath aliasKey "") basePaths).
  congruence.
Qed.

Lemma provideDocumentLinks_while_targets (fuel : nat) (document : vscode.TextDocument)
  (aliases : JsObject.t (list string)) (links links' : list vscode.DocumentLink)
  (st st' : State) :
  provideDocumentLinks_while disk fuel document aliases links st = (Returns links', st') ->
  Forall (fun l => readableAt disk (vscode.target l) = true) links ->
  Forall (fun l => readableAt disk (vscode.target l) = true) links'
  /\ lastIndex st' = 0.
Proof.
  revert links st. induction fuel as [|fuel IH]; intros links st H Hall; [discriminate|].
  cbn [provideDocumentLinks_while] in H. unfold bind at 1 in H. rewrite exec_eq in H.
  destruct (String.length (vscode.getText document) <? lastIndex st)%nat.
  { injection H as <- <-. split; [exact Hall | reflexivity]. }
  destruct (importRegex.search
              (JsString.drop (lastIndex st) (vscode.getText document)) (lastIndex st))
    as [m|].
  2:{ injection H as <- <-. split; [exact Hall | reflexivity]. }
  unfold bind at 1 in H.
  destruct (resolveAlias disk document (importRegex.group1 m) (JsObject.own aliases)
              (atIndex (importRegex.index m + String.length (importRegex.whole m)) st))
    as [[[p|]|e|] s1] eqn:R; try discriminate.
  - pose proof (resolveAlias_readable document (importRegex.group1 m) (JsObject.own aliases)
                  (atIndex (importRegex.index m + String.length (importRegex.whole m)) st)
                  p) as Hp.
    rewrite R in Hp. specialize (Hp eq_refl).
    destruct (truthy (Some p)).
    + eapply IH; [exact H|]. apply Forall_app. split; [exact Hall|].
      constructor; [exact Hp | constructor].
    + eapply IH; [exact H | exact Hall].
  - eapply IH; [exact H | exact Hall].
Qed.

(** X10.  Whatever path the resolver answers, by an alias or by the
    relative fallback, something readable exists at it on the file system
    when it answers; and every link of a sequence a scan has just computed
    points to such a path: a link is never made to a path that was not
    found. *)
Theorem link_targets_were_found (fuel : nat) (document : vscode.TextDocument)
  (importPath : string) (aliases : JsObject.t (list string)) (st st' : State)
  (links : list vscode.DocumentLink) :
  (forall p,
     fst (resolveAlias disk document importPath aliases st) = Returns (Some p) ->
     readableAt disk p = true)
  /\ (JsObject.get (vscode.fileName document) (documentLinkCache st) = None ->
      provideDocumentLinks disk fuel document st = (Returns links, st') ->
      Forall (fun l => readableAt disk (vscode.target l) = true) links).
Proof.
  split; [apply resolveAlias_readable|].
  intros Hget H. rewrite (provideDocumentLinks_uncached _ _ _ _ Hget) in H.
  destruct (findNearestConfig disk fuel (path.dirname (vscode.fileName document)) st)
    as [[[p|]|e|] s1]; try discriminate.
  2:{ injection H as <- _. constructor. }
  destruct (String.eqb p ""); [injection H as <- _; constructor|].
  destruct (getTsConfigAliases disk p s1) as [[table|e|] s2]; try discriminate.
  destruct (provideDocumentLinks_while disk fuel document table [] s2)
    as [[links'|e|] s3] eqn:W; try discriminate.
  injection H as <- _.
  eapply provideDocumentLinks_while_targets; [exact W | constructor].
Qed.

(** X11.  The shared regular expression is left ready for the next scan:
    if [lastIndex] is 0 when a scan starts, it is 0 again when the scan
    returns or is rejected. *)
Theorem scan_resets_lastIndex (fuel : nat) (document : vscode.TextDocument)
  (st : State) :
  lastIndex st = 0 ->
  fst (provideDocumentLinks disk fuel document st) <> OutOfFuel ->
  lastIndex (snd (provideDocumentLinks disk fuel document st)) = 0.
Proof.
  intros H0 Hout.
  destruct (JsObject.get (vscode.fileName document) (documentLinkCache st))
    as [cached|] eqn:Hget.
  { rewrite (provideDocumentLinks_cached _ _ _ _ _ Hget). exact H0. }
  rewrite (provideDocumentLinks_uncached _ _ _ _ Hget) in *.
  pose proof (findNearestConfig_frame disk fuel
                (path.dirname (vscode.fileName document)) st) as (_ & _ & _ & H1).
  destruct (findNearestConfig disk fuel (path.dirname (vscode.fileName document)) st)
    as [[[p|]|e|] s1]; cbn [snd fst] in *; try congruence.
  destruct (String.eqb p ""); cbn [snd] in *; [congruence|].
  pose proof (getTsConfigAliases_frame disk p s1) as (_ & _ & _ & H2).
  destruct (getTsConfigAliases disk p s1) as [[table|e|] s2]; cbn [snd fst] in *;
    try congruence.
  destruct (provideDocumentLinks_while_effect disk fuel document table [] s2)
    as (out & es & i & W & Hnothrow).
  destruct (provideDocumentLinks_while disk fuel document table [] s2)
    as [[links'|e|] s3] eqn:W'; cbn [snd fst] in *.
  - apply provideDocumentLinks_while_targets in W' as [_ W']; [exact W' | constructor].
  - injection W as <- _. exfalso. apply (Hnothrow e). reflexivity.
  - contradiction.
Qed.

End ResolverMore.

Lemma link_targets_were_found_witness :
  Forall (fun l => readableAt (Examples.project 100 Examples.configText)
                     (vscode.target l) = true) Examples.appLinks.
Proof.
  destruct (@link_targets_were_found Examples.paths Examples.json
              (Examples.project 100 Examples.configText) 30 Examples.app "./bar" []
              initial
              (snd (provideDocumentLinks (path_api := Examples.paths)
                      (json_api := Examples.json)
                      (Examples.project 100 Examples.configText) 30 Examples.app initial))
              Examples.appLinks) as (_ & H).
  apply H; [reflexivity | vm_compute; reflexivity].
Defined.

Lemma scan_resets_lastIndex_witness :
  lastIndex (snd (provideDocumentLinks (path_api := Examples.paths)
                    (json_api := Examples.json)
                    (Examples.project 100 Examples.configText) 30 Examples.app initial))
  = 0.
Proof.
  apply (@scan_resets_lastIndex Examples.paths Examples.json
           (Examples.project 100 Examples.configText) 30 Examples.app initial).
  - reflexivity.
  - vm_compute. discriminate.
Defined.

Section AliasTargets.

Context {path_api : path.API}.
Variable disk : fs.FileSystem.

Lemma resolveFor_skips (relativePath : string) (pre rest : list string) :
  (forall b, In b pre -> readableAt disk (path.join b relativePath) = false) ->
  resolveFor disk relativePath (pre ++ rest)
  = (fst (resolveFor disk relativePath rest),
     (map (fun b => Access (path.join b relativePath)) pre
      ++ snd (resolveFor disk relativePath rest))%list).
Proof.
  intros Hpre. induction pre as [|b pre IH].
  - cbn [app map]. destruct (resolveFor disk relativePath rest); reflexivity.
  - cbn [app resolveFor map].
    assert (Hb : readableAt disk (path.join b relativePath) = false)
      by (apply Hpre; left; reflexivity).
    rewrite IH by (intros b' Hb'; apply Hpre; right; exact Hb').
    unfold readableAt in Hb.
    destruct (disk (path.join b relativePath)) as [n|]; [|reflexivity].
    rewrite Hb. reflexivity.
Qed.

(** X12.  With several base paths for an alias, those under which nothing
    readable exists are passed over in order, and the first joined path
    that is a readable regular file is the answer; [fs.stat] is called on
    that path only and the base paths after it are not probed. *)
Theorem alias_resolves_under_first_base_with_file
  (document : vscode.TextDocument) (importPath : string)
  (aliases : JsObject.t (list string)) (st : State)
  (aliasKey : string) (pre post : list string) (basePath : string) (node : fs.Node) :
  findAliasKey importPath aliases = Some aliasKey ->
  aliasKey <> "" ->
  JsObject.get aliasKey aliases = Some (pre ++ basePath :: post)%list ->
  let relativePath := JsString.replace importPath aliasKey "" in
  let resolvedPath := path.join basePath relativePath in
  (forall b, In b pre -> readableAt disk (path.join b relativePath) = false) ->
  disk resolvedPath = Some node ->
  fs.readable node = true ->
  fs.kind node = fs.RegularFile ->
  resolveAlias disk document importPath aliases st
  = (Returns (Some resolvedPath),
     logged (map (fun b => Access (path.join b relativePath)) pre
             ++ [Access resolvedPath; Stat resolvedPath])%list st).
Proof.
  intros Hkey Hne Hget relativePath resolvedPath Hpre D Hr Hk.
  rewrite resolveAlias_run, Hkey, Hget.
  apply String.eqb_neq in Hne. rewrite Hne.
  rewrite resolveAlias_for_run. fold relativePath.
  rewrite (resolveFor_skips relativePath pre (basePath :: post) Hpre).
  cbn [resolveFor]. fold resolvedPath. rewrite D, Hr, Hk. reflexivity.
Qed.

(** X13.  An alias match is final.  When nothing readable exists under any
    base path of the selected alias, the answer is [null] after one probe
    per base path: the relative fallback is not tried.  And when the first
    readable joined path is neither a regular file nor a directory, the
    answer is [null] at once, the remaining base paths being left
    untried. *)
Theorem alias_match_has_no_fallback
  (document : vscode.TextDocument) (importPath : string)
  (aliases : JsObject.t (list string)) (st : State)
  (aliasKey : string) (basePaths : list string) :
  findAliasKey importPath aliases = Some aliasKey ->
  aliasKey <> "" ->
  JsObject.get aliasKey aliases = Some basePaths ->
  let relativePath := JsString.replace importPath aliasKey "" in
  ((forall b, In b basePaths -> readableAt disk (path.join b relativePath) = false) ->
   resolveAlias disk document importPath aliases st
   = (Returns None,
      logged (map (fun b => Access (path.join b relativePath)) basePaths) st))
  /\ (forall pre basePath post node,
        basePaths = (pre ++ basePath :: post)%list ->
        (forall b, In b pre -> readableAt disk (path.join b relativePath) = false) ->
        disk (path.join basePath relativePath) = Some node ->
        fs.readable node = true ->
        fs.kind node = fs.Special ->
        resolveAlias disk document importPath aliases st
        = (Returns None,
           logged (map (fun b => Access (path.join b relativePath)) pre
                   ++ [Access (path.join basePath relativePath);
                       Stat (path.join basePath relativePath)])%list st)).
Proof.
  intros Hkey Hne Hget relativePath.
  assert (Hrun : resolveAlias disk document importPath aliases st
                 = (Returns (fst (resolveFor disk relativePath basePaths)),
                    logged (snd (resolveFor disk relativePath basePaths)) st)).
  { rewrite resolveAlias_run, Hkey, Hget.
    apply String.eqb_neq in Hne. rewrite Hne. apply resolveAlias_for_run. }
  split.
  - intros Hnone. rewrite Hrun.
    rewrite <- (app_nil_r basePaths) at 1 2.
    rewrite (resolveFor_skips relativePath basePaths [] Hnone).
    cbn [resolveFor fst snd]. rewrite app_nil_r. reflexivity.
  - intros pre basePath post node -> Hpre D Hr Hk. rewrite Hrun.
    rewrite (resolveFor_skips relativePath pre (basePath :: post) Hpre).
    cbn [resolveFor]. rewrite D, Hr, Hk. reflexivity.
Qed.

End AliasTargets.

Lemma alias_resolves_under_first_base_with_file_witness :
  let disk := Examples.project 100 Examples.configText in
  let aliases := [("@s", ["/proj/lib"; "/proj/src"; "/proj/styles"])] in
  resolveAlias (path_api := Examples.paths) disk Examples.app "@s/bar.scss" aliases initial
  = (Returns (Some "/proj/src/bar.scss"),
     logged [Access "/proj/lib/bar.scss"; Access "/proj/src/bar.scss";
             Stat "/proj/src/bar.scss"] initial).
Proof.
  intros disk aliases.
  apply (@alias_resolves_under_first_base_with_file Examples.paths disk Examples.app
           "@s/bar.scss" aliases initial "@s" ["/proj/lib"] ["/proj/styles"]
           "/proj/src" (Examples.file 1 "")).
  - reflexivity.
  - discriminate.
  - reflexivity.
  - intros b [<-|[]]. reflexivity.
  - reflexivity.
  - reflexivity.
  - reflexivity.
Defined.

Lemma alias_match_has_no_fallback_witness :
  let socket :=
    {| fs.kind := fs.Special; fs.readable := true; fs.mtimeMs := 0;
       fs.content := "" |} in
  let disk := fun p =>
    if String.eqb p "/proj/run/bar" then Some socket
    else Examples.project 100 Examples.configText p in
  readableAt disk "/proj/src/bar.scss" = true
  /\ resolveAlias (path_api := Examples.paths) disk Examples.app "./bar"
       [("./", ["/proj/lib"; "/proj/vendor"])] initial
     = (Returns None, logged [Access "/proj/lib/bar"; Access "/proj/vendor/bar"] initial)
  /\ resolveAlias (path_api := Examples.paths) disk Examples.app "@r/bar"
       [("@r", ["/proj/lib"; "/proj/run"; "/proj/src"])] initial
     = (Returns None,
        logged [Access "/proj/lib/bar"; Access "/proj/run/bar"; Stat "/proj/run/bar"]
          initial).
Proof.
  intros socket disk. split; [reflexivity|]. split.
  - destruct (@alias_match_has_no_fallback Examples.paths disk Examples.app "./bar"
                [("./", ["/proj/lib"; "/proj/vendor"])] initial "./"
                ["/proj/lib"; "/proj/vendor"]) as (H & _).
    + reflexivity.
    + discriminate.
    + reflexivity.
    + apply H. intros b [<-|[<-|[]]]; reflexivity.
  - destruct (@alias_match_has_no_fallback Examples.paths disk Examples.app "@r/bar"
                [("@r", ["/proj/lib"; "/proj/run"; "/proj/src"])] initial "@r"
                ["/proj/lib"; "/proj/run"; "/proj/src"]) as (_ & H).
    + reflexivity.
    + discriminate.
    + reflexivity.
    + apply (H ["/proj/lib"] "/proj/run" ["/proj/src"] socket).
      * reflexivity.
      * intros b [<-|[]]. reflexivity.
      * reflexivity.
      * reflexivity.
      * reflexivity.
Defined.

(** ** The document cache *)

Section DocumentCache.

Context {path_api : path.API} {json_api : JSON.API}.

Lemma get_filter_other {V : Type} (k k' : string) (o : JsObject.t V) :
  k <> k' ->
  JsObject.get k' (filter (fun kv => negb (String.eqb (fst kv) k)) o) = JsObject.get k' o.
Proof.
  intros Hne. induction o as [|[k0 v] o IH]; [reflexivity|].
  cbn [filter fst]. destruct (String.eqb k0 k) eqn:E; cbn [negb].
  - apply String.eqb_eq in E. subst k0. cbn [JsObject.get].
    apply String.eqb_neq in Hne. rewrite Hne. exact IH.
  - cbn [JsObject.get]. rewrite IH. reflexivity.
Qed.

(** X14.  A scan writes the document cache for its own document only:
    whatever its outcome, the sequence cached for any other document is as
    it was. *)
Theorem scan_keeps_other_documents (disk : fs.FileSystem) (fuel : nat)
  (document : vscode.TextDocument) (st : State) (other : string) :
  other <> vscode.fileName document ->
  JsObject.get other (documentLinkCache (snd (provideDocumentLinks disk fuel document st)))
  = JsObject.get other (documentLinkCache st).
Proof.
  intros Hne.
  destruct (JsObject.get (vscode.fileName document) (documentLinkCache st))
    as [cached|] eqn:Hget.
  { rewrite (provideDocumentLinks_cached _ _ _ _ _ Hget). reflexivity. }
  rewrite (provideDocumentLinks_uncached _ _ _ _ Hget).
  pose proof (findNearestConfig_frame disk fuel
                (path.dirname (vscode.fileName document)) st) as (_ & _ & H1 & _).
  destruct (findNearestConfig disk fuel (path.dirname (vscode.fileName document)) st)
    as [[[p|]|e|] s1]; cbn [snd] in *; try (rewrite H1; reflexivity).
  destruct (String.eqb p ""); cbn [snd]; [rewrite H1; reflexivity|].
  pose proof (getTsConfigAliases_frame disk p s1) as (_ & _ & H2 & _).
  destruct (getTsConfigAliases disk p s1) as [[table|e|] s2]; cbn [snd] in *;
    try (rewrite H2, H1; reflexivity).
  destruct (provideDocumentLinks_while_effect disk fuel document table [] s2)
    as (out & es & i & W & _).
  rewrite W. destruct out as [links'|e|]; cbn [snd cachedLinks documentLinkCache atIndex logged].
  - rewrite get_set_ne by (intros Heq; apply Hne; symmetry; exact Heq).
    rewrite H2, H1. reflexivity.
  - rewrite H2, H1. reflexivity.
  - rewrite H2, H1. reflexivity.
Qed.

(** X15.  Once a scan has located a configuration file and returned, the
    sequence it returned is what every later scan of the document returns,
    without a call, until the document is edited: neither a change of the
    configuration file nor of the files linked to is noticed. *)
Theorem rescan_is_served_from_cache (disk : fs.FileSystem) (fuel : nat)
  (document : vscode.TextDocument) (st s1 st1 : State) (p : string)
  (links : list vscode.DocumentLink) :
  findNearestConfig disk fuel (path.dirname (vscode.fileName document)) st
  = (Returns (Some p), s1) ->
  p <> "" ->
  provideDocumentLinks disk fuel document st = (Returns links, st1) ->
  forall disk' fuel',
    provideDocumentLinks disk' fuel' document st1 = (Returns links, st1).
Proof.
  intros Hwalk Hp Hrun.
  apply (second_scan_returns_cached disk fuel document st st1 links Hrun).
  right. exists p, s1. split; assumption.
Qed.

(** X16.  An edit notification for a document removes what is cached for
    that document and nothing else: the sequences of the other documents,
    the alias tables and the per-directory cache stay, no call is made, and
    the next scan of the document starts with a new walk. *)
Theorem edit_drops_the_document_only (disk : fs.FileSystem) (fuel : nat)
  (document : vscode.TextDocument) (st : State) (other : string) :
  let st' := snd (onDidChangeTextDocument document st) in
  JsObject.get (vscode.fileName document) (documentLinkCache st') = None
  /\ (other <> vscode.fileName document ->
      JsObject.get other (documentLinkCache st') = JsObject.get other (documentLinkCache st))
  /\ configCache st' = configCache st
  /\ configPathCache st' = configPathCache st
  /\ trace st' = trace st
  /\ exists es,
       trace (snd (provideDocumentLinks disk fuel document st'))
       = (trace (snd (findNearestConfig disk fuel
                        (path.dirname (vscode.fileName document)) st')) ++ es)%list.
Proof.
  cbv zeta.
  assert (Hgone : JsObject.get (vscode.fileName document)
                    (documentLinkCache (snd (onDidChangeTextDocument document st))) = None)
    by apply edit_invalidates.
  split; [exact Hgone|]. split; [|repeat split].
  - intros Hne. unfold onDidChangeTextDocument, modify. cbn [snd documentLinkCache].
    apply get_filter_other. intros Heq. apply Hne. symmetry. exact Heq.
  - apply provideDocumentLinks_after_walk, Hgone.
Qed.

(** X17.  A scan that locates a configuration file and gets its alias
    table returns: the scanning loop ends, with more fuel than the text has
    characters, since every match takes a character at least.  What it
    returns is cached under the name of the document. *)
Theorem scan_with_config_returns (disk : fs.FileSystem) (fuel : nat)
  (document : vscode.TextDocument) (st s1 s2 : State) (p : string)
  (aliases : JsObject.t (list string)) :
  JsObject.get (vscode.fileName document) (documentLinkCache st) = None ->
  findNearestConfig disk fuel (path.dirname (vscode.fileName document)) st
  = (Returns (Some p), s1) ->
  p <> "" ->
  getTsConfigAliases disk p s1 = (Returns aliases, s2) ->
  String.length (vscode.getText document) < fuel ->
  exists links st',
    provideDocumentLinks disk fuel document st = (Returns links, st')
    /\ JsObject.get (vscode.fileName document) (documentLinkCache st') = Some links.
Proof. apply scan_returns_and_caches. Qed.

End DocumentCache.

Lemma scan_keeps_other_documents_witness :
  let st := cachedLinks "/proj/other.scss" [] initial in
  JsObject.get "/proj/other.scss"
    (documentLinkCache
       (snd (provideDocumentLinks (path_api := Examples.paths) (json_api := Examples.json)
               (Examples.project 100 Examples.configText) 30 Examples.app st)))
  = Some [].
Proof.
  intros st.
  rewrite (@scan_keeps_other_documents Examples.paths Examples.json
             (Examples.project 100 Examples.configText) 30 Examples.app st
             "/proj/other.scss").
  - reflexivity.
  - discriminate.
Defined.

Lemma rescan_is_served_from_cache_witness :
  let run1 :=
    provideDocumentLinks (path_api := Examples.paths) (json_api := Examples.json)
      (Examples.project 100 Examples.configText) 30 Examples.app initial in
  provideDocumentLinks (path_api := Examples.paths) (json_api := Examples.json)
    (Examples.project 200 Examples.midText) 0 Examples.app (snd run1)
  = (Returns Examples.appLinks, snd run1).
Proof.
  intros run1.
  apply (@rescan_is_served_from_cache Examples.paths Examples.json
           (Examples.project 100 Examples.configText) 30 Examples.app initial
           (snd (findNearestConfig (path_api := Examples.paths)
                   (Examples.project 100 Examples.configText) 30 "/proj/src" initial))
           (snd run1) "/proj/tsconfig.json").
  - vm_compute. reflexivity.
  - discriminate.
  - vm_compute. reflexivity.
Defined.

Lemma edit_drops_the_document_only_witness :
  let st :=
    cachedLinks "/proj/other.scss" []
      (cachedLinks "/proj/src/app.scss" Examples.appLinks initial) in
  let st' := snd (onDidChangeTextDocument Examples.app st) in
  JsObject.get "/proj/src/app.scss" (documentLinkCache st') = None
  /\ JsObject.get "/proj/other.scss" (documentLinkCache st') = Some [].
Proof.
  intros st st'.
  destruct (@edit_drops_the_document_only Examples.paths Examples.json
              Examples.rootOnly 0 Examples.app st "/proj/other.scss")
    as (H1 & H2 & _).
  split; [exact H1|]. unfold st'. rewrite H2; [reflexivity | discriminate].
Defined.

Lemma scan_with_config_returns_witness :
  exists links st',
    provideDocumentLinks (path_api := Examples.paths) (json_api := Examples.json)
      (Examples.project 100 Examples.configText) 100 Examples.app initial
    = (Returns links, st')
    /\ JsObject.get "/proj/src/app.scss" (documentLinkCache st') = Some links.
Proof.
  apply (@scan_with_config_returns Examples.paths Examples.json
           (Examples.project 100 Examples.configText) 100 Examples.app initial
           (snd (findNearestConfig (path_api := Examples.paths)
                   (Examples.project 100 Examples.configText) 100 "/proj/src" initial))
           (snd (getTsConfigAliases (path_api := Examples.paths)
                   (json_api := Examples.json)
                   (Examples.project 100 Examples.configText) "/proj/tsconfig.json"
                   (snd (findNearestConfig (path_api := Examples.paths)
                           (Examples.project 100 Examples.configText) 100 "/proj/src"
                           initial))))
           "/proj/tsconfig.json"
           [("@styles", ["/proj/styles"]); ("@a", ["/proj/lib"; "/proj/vendor"])]).
  - reflexivity.
  - vm_compute. reflexivity.
  - discriminate.
  - vm_compute. reflexivity.
  - vm_compute. lia.
Defined.

(** ** The import pattern *)

Lemma take_drop_while (f : ascii -> bool) (s : string) :
  importRegex.takeWhile f s ++ importRegex.dropWhile f s = s.
Proof.
  induction s as [|c s IH]; [reflexivity|].
  cbn [importRegex.takeWhile importRegex.dropWhile].
  destruct (f c); [cbn [append]; rewrite IH|]; reflexivity.
Qed.

Lemma every_takeWhile (f : ascii -> bool) (s : string) :
  every f (importRegex.takeWhile f s) = true.
Proof.
  induction s as [|c s IH]; [reflexivity|].
  cbn [importRegex.takeWhile]. destruct (f c) eqn:E; [|reflexivity].
  cbn [every]. rewrite E, IH. reflexivity.
Qed.

Lemma dropWhile_head (f : ascii -> bool) (s : string) (c : ascii) (r : string) :
  importRegex.dropWhile f s = String c r -> f c = false.
Proof.
  induction s as [|c0 s IH]; [discriminate|].
  cbn [importRegex.dropWhile]. destruct (f c0) eqn:E; [exact IH|].
  intros H. assert (c0 = c) by congruence. subst. exact E.
Qed.

Lemma takeWhile_app (f : ascii -> bool) (a : string) (c : ascii) (r : string) :
  every f a = true -> f c = false ->
  importRegex.takeWhile f (a ++ String c r) = a.
Proof.
  intros Ha Hc. induction a as [|c0 a IH].
  - cbn [append importRegex.takeWhile]. rewrite Hc. reflexivity.
  - cbn [every] in Ha. apply andb_prop in Ha as [H0 Ha].
    cbn [append importRegex.takeWhile]. rewrite H0, (IH Ha). reflexivity.
Qed.

Lemma dropWhile_app (f : ascii -> bool) (a : string) (c : ascii) (r : string) :
  every f a = true -> f c = false ->
  importRegex.dropWhile f (a ++ String c r) = String c r.
Proof.
  intros Ha Hc. induction a as [|c0 a IH].
  - cbn [append importRegex.dropWhile]. rewrite Hc. reflexivity.
  - cbn [every] in Ha. apply andb_prop in Ha as [H0 Ha].
    cbn [append importRegex.dropWhile]. rewrite H0. exact (IH Ha).
Qed.

Lemma keyword_shape (s r : string) :
  importRegex.keyword s = Some r <-> (s = "use" ++ r \/ s = "import" ++ r).
Proof.
  unfold importRegex.keyword. split.
  - destruct (String.prefix "use" s) eqn:U.
    + intros H. assert (r = JsString.drop 3 s) by congruence. subst r.
      left. exact (prefix_split "use" s U).
    + destruct (String.prefix "import" s) eqn:I; [|discriminate].
      intros H. assert (r = JsString.drop 6 s) by congruence. subst r.
      right. exact (prefix_split "import" s I).
  - intros [-> | ->].
    + rewrite (prefix_app "use" r). f_equal.
    + replace (String.prefix "use" ("import" ++ r)) with false by reflexivity.
      rewrite (prefix_app "import" r). f_equal.
Qed.

Lemma length_app (a b : string) :
  String.length (a ++ b) = String.length a + String.length b.
Proof. induction a as [|c a IH]; cbn [append String.length]; [|rewrite IH]; reflexivity. Qed.

(** A match of the pattern has the shape of an import. *)
Lemma matchHere_sound (s : string) (len : nat) (specifier : string) :
  importRegex.matchHere s = Some (len, specifier) ->
  exists kw ws q1 q2 rest,
    importShape kw ws q1 specifier q2
    /\ s = importText kw ws q1 specifier q2 ++ rest
    /\ len = String.length (importText kw ws q1 specifier q2).
Proof.
  unfold importRegex.matchHere. destruct s as [|c r1]; [discriminate|].
  destruct (Ascii.eqb c "@") eqn:Ec; [|discriminate].
  apply Ascii.eqb_eq in Ec. subst c.
  destruct (importRegex.keyword r1) as [r2|] eqn:K; [|discriminate].
  pose proof (take_drop_while importRegex.isSpace r2) as Hws.
  pose proof (every_takeWhile importRegex.isSpace r2) as Hsp.
  destruct (importRegex.dropWhile importRegex.isSpace r2) as [|q1 r4] eqn:D;
    [discriminate|].
  destruct (importRegex.isQuote q1) eqn:Q1; [|discriminate].
  pose proof (take_drop_while (fun c => negb (importRegex.isQuote c)) r4) as Hg.
  pose proof (every_takeWhile (fun c => negb (importRegex.isQuote c)) r4) as Hnq.
  destruct (importRegex.takeWhile (fun c => negb (importRegex.isQuote c)) r4)
    as [|g0 g] eqn:T; [discriminate|].
  destruct (importRegex.dropWhile (fun c => negb (importRegex.isQuote c)) r4)
    as [|q2 r6] eqn:D2; [discriminate|].
  apply dropWhile_head in D2. apply negb_false_iff in D2.
  intros H.
  assert (Hspec : specifier = String g0 g) by congruence.
  assert (Hlen : len = String.length (String "@" r1) - String.length r6) by congruence.
  clear H. subst specifier.
  apply keyword_shape in K.
  set (kw := if String.prefix "use" r1 then "use" else "import").
  assert (Hkw : (kw = "use" \/ kw = "import") /\ r1 = kw ++ r2).
  { destruct K as [-> | ->]; subst kw.
    - rewrite (prefix_app "use" r2). split; [left|]; reflexivity.
    - replace (String.prefix "use" ("import" ++ r2)) with false by reflexivity.
      split; [right|]; reflexivity. }
  destruct Hkw as [Hkw Hr1].
  exists kw, (importRegex.takeWhile importRegex.isSpace r2), q1, q2, r6.
  assert (Hs : String "@" r1
               = importText kw (importRegex.takeWhile importRegex.isSpace r2) q1
                   (String g0 g) q2 ++ r6).
  { unfold importText. rewrite Hr1. rewrite <- Hws at 1. rewrite <- Hg.
    rewrite !append_assoc. cbn [append]. rewrite !append_assoc. cbn [append].
    reflexivity. }
  split; [|split].
  - unfold importShape. repeat split; try assumption. discriminate.
  - exact Hs.
  - rewrite Hlen, Hs, length_app. lia.
Qed.

(** A text of the shape of an import is matched, up to its closing quote. *)
Lemma matchHere_complete (s : string) (len : nat) (specifier : string) :
  (exists kw ws q1 q2 rest,
     importShape kw ws q1 specifier q2
     /\ s = importText kw ws q1 specifier q2 ++ rest
     /\ len = String.length (importText kw ws q1 specifier q2)) ->
  importRegex.matchHere s = Some (len, specifier).
Proof.
  intros (kw & ws & q1 & q2 & rest & (Hkw & Hws & Hq1 & Hne & Hnq & Hq2) & -> & ->).
  assert (K : importRegex.keyword (kw ++ ws ++ String q1 (specifier ++ String q2 rest))
              = Some (ws ++ String q1 (specifier ++ String q2 rest))).
  { apply keyword_shape. destruct Hkw as [-> | ->]; [left | right]; reflexivity. }
  assert (Hq1' : importRegex.isSpace q1 = false).
  { unfold importRegex.isQuote in Hq1. unfold importRegex.isSpace.
    apply orb_prop in Hq1 as [H|H]; apply Nat.eqb_eq in H; rewrite H; reflexivity. }
  assert (Hs : importText kw ws q1 specifier q2 ++ rest
               = String "@" (kw ++ ws ++ String q1 (specifier ++ String q2 rest))).
  { unfold importText. rewrite !append_assoc. cbn [append]. rewrite !append_assoc.
    cbn [append]. reflexivity. }
  rewrite Hs. unfold importRegex.matchHere.
  replace (Ascii.eqb "@" "@") with true by reflexivity.
  rewrite K.
  rewrite (dropWhile_app importRegex.isSpace ws q1 _ Hws Hq1').
  rewrite Hq1.
  assert (Hq2' : negb (importRegex.isQuote q2) = false) by (rewrite Hq2; reflexivity).
  rewrite (takeWhile_app (fun c => negb (importRegex.isQuote c)) specifier q2 rest Hnq Hq2').
  rewrite (dropWhile_app (fun c => negb (importRegex.isQuote c)) specifier q2 rest Hnq Hq2').
  destruct specifier as [|g0 g]; [congruence|].
  f_equal. f_equal. rewrite <- Hs, length_app.
  cbn [String.length]. lia.
Qed.

(** X18.  The import pattern matches at the first character of a text
    exactly when the text begins with an at sign, [use] or [import], any
    white space, a quote of either kind, a specifier that is not empty and
    holds no quote, and a quote of either kind, which need not be the kind
    of the opening one.  The match ends with the closing quote and its
    group is the specifier. *)
Theorem import_match_shape (s : string) (len : nat) (specifier : string) :
  importRegex.matchHere s = Some (len, specifier)
  <-> exists kw ws q1 q2 rest,
        importShape kw ws q1 specifier q2
        /\ s = importText kw ws q1 specifier q2 ++ rest
        /\ len = String.length (importText kw ws q1 specifier q2).
Proof.
  split.
  - apply matchHere_sound.
  - apply matchHere_complete.
Qed.

Lemma drop_drop (i k : nat) (s : string) :
  JsString.drop k (JsString.drop i s) = JsString.drop (i + k) s.
Proof.
  revert s. induction i as [|i IH]; intros s; [reflexivity|].
  destruct s as [|c s]; cbn [JsString.drop Nat.add].
  - destruct k; reflexivity.
  - apply IH.
Qed.

Lemma slice_drop (i k len : nat) (s : string) :
  JsString.slice (i + k) len s = JsString.slice k len (JsString.drop i s).
Proof.
  unfold JsString.slice. revert s. induction i as [|i IH]; intros s; [reflexivity|].
  destruct s as [|c s]; cbn [JsString.drop Nat.add].
  - destruct k, len; reflexivity.
  - cbn [substring]. apply IH.
Qed.

Lemma slice_app_left (k len : nat) (a b : string) :
  k + len <= String.length a ->
  JsString.slice k len (a ++ b) = JsString.slice k len a.
Proof.
  unfold JsString.slice. revert k len. induction a as [|c a IH]; intros k len H.
  - cbn [String.length] in H. assert (k = 0) by lia. assert (len = 0) by lia.
    subst. destruct b; reflexivity.
  - cbn [String.length] in H. destruct k as [|k].
    + destruct len as [|len]; [reflexivity|].
      cbn [append substring]. f_equal. apply (IH 0). lia.
    + cbn [append substring]. apply IH. lia.
Qed.

Lemma slice_all (a : string) : JsString.slice 0 (String.length a) a = a.
Proof.
  unfold JsString.slice. induction a as [|c a IH]; [reflexivity|].
  cbn [String.length substring]. rewrite IH. reflexivity.
Qed.

Lemma prefix_slice (pat s : string) (n : nat) :
  String.prefix pat (JsString.drop n s) = true
  <-> JsString.slice n (String.length pat) s = pat.
Proof.
  replace n with (n + 0) at 2 by lia. rewrite slice_drop.
  apply prefix_correct.
Qed.

(** [indexOf] gives the first offset at which the pattern is read. *)
Lemma indexOf_from_first (s pat : string) (i : Z) :
  (exists n,
     JsString.indexOf_from s pat i = (i + Z.of_nat n)%Z
     /\ n <= String.length s
     /\ String.prefix pat (JsString.drop n s) = true
     /\ forall j, j < n -> String.prefix pat (JsString.drop j s) = false)
  \/ (JsString.indexOf_from s pat i = (-1)%Z
      /\ forall j, j <= String.length s -> String.prefix pat (JsString.drop j s) = false).
Proof.
  revert i. induction s as [|c s IH]; intros i.
  - cbn [JsString.indexOf_from]. destruct (String.prefix pat "") eqn:P.
    + left. exists 0. rewrite Z.add_0_r. repeat split; [reflexivity | exact P | lia].
    + right. split; [reflexivity|]. intros j Hj. cbn [String.length] in Hj.
      assert (j = 0) by lia. subst. exact P.
  - cbn [JsString.indexOf_from]. destruct (String.prefix pat (String c s)) eqn:P.
    + left. exists 0. rewrite Z.add_0_r. repeat split; [cbn; lia | exact P | lia].
    + destruct (IH (i + 1)%Z) as [(n & E & Hn & Hp & Hmin) | (E & Hnone)].
      * left. exists (S n). repeat split.
        -- rewrite E. lia.
        -- cbn [String.length]. lia.
        -- exact Hp.
        -- intros [|j] Hj; [exact P|]. cbn [JsString.drop]. apply Hmin. lia.
      * right. split; [exact E|]. intros [|j] Hj; [exact P|].
        cbn [JsString.drop]. apply Hnone. cbn [String.length] in Hj. lia.
Qed.

Lemma search_found (s : string) (i : nat) (m : importRegex.RegExpExecArray) :
  importRegex.search s i = Some m ->
  exists k len,
    importRegex.matchHere (JsString.drop k s) = Some (len, importRegex.group1 m)
    /\ importRegex.index m = i + k
    /\ importRegex.whole m = JsString.slice 0 len (JsString.drop k s).
Proof.
  revert i. induction s as [|c s IH]; intros i H.
  - discriminate.
  - rewrite search_cons in H.
    destruct (importRegex.matchHere (String c s)) as [[len g]|] eqn:E.
    + exists 0, len. assert (Hm : m = {| importRegex.index := i;
                                       importRegex.whole := JsString.slice 0 len (String c s);
                                       importRegex.group1 := g |}) by congruence.
      subst m. cbn [JsString.drop importRegex.index importRegex.whole importRegex.group1].
      repeat split; [exact E | lia].
    + destruct (IH (S i) H) as (k & len & Hk & Hi & Hw).
      exists (S k), len. cbn [JsString.drop]. repeat split; [exact Hk | lia | exact Hw].
Qed.

(** X19.  The range of a link starts at the first place of the match
    where the specifier is read: the characters of the text from there on
    are the specifier, the range ends before the closing quote, and the
    specifier is read at no earlier place of the match. *)
Theorem link_range_reads_the_specifier (text : string) (i : nat)
  (m : importRegex.RegExpExecArray) :
  importRegex.search (JsString.drop i text) i = Some m ->
  exists n,
    JsString.indexOf (importRegex.whole m) (importRegex.group1 m) = Z.of_nat n
    /\ JsString.slice (importRegex.index m + n) (String.length (importRegex.group1 m)) text
       = importRegex.group1 m
    /\ n + String.length (importRegex.group1 m) < String.length (importRegex.whole m)
    /\ forall j, j < n ->
         JsString.slice (importRegex.index m + j) (String.length (importRegex.group1 m)) text
         <> importRegex.group1 m.
Proof.
  intros H. destruct (search_found _ _ _ H) as (k & len & Hk & Hi & Hw).
  set (g := importRegex.group1 m) in *.
  apply matchHere_sound in Hk
    as (kw & ws & q1 & q2 & rest & _ & Hs & Hlen).
  set (T := importText kw ws q1 g q2) in *.
  assert (HT : importRegex.whole m = T).
  { rewrite Hw, Hs, Hlen, slice_app_left by lia. apply slice_all. }
  assert (Hat : forall j, j + String.length g <= String.length T ->
            JsString.slice (importRegex.index m + j) (String.length g) text
            = JsString.slice j (String.length g) T).
  { intros j Hj. rewrite Hi, <- Nat.add_assoc, !slice_drop, Hs.
    apply slice_app_left. exact Hj. }
  set (p0 := String.length ("@" ++ kw ++ ws) + 1).
  assert (HTsplit : T = ("@" ++ kw ++ ws ++ String q1 "") ++ g ++ String q2 "").
  { unfold T, importText. cbn [append]. rewrite !append_assoc. reflexivity. }
  assert (Hp0 : p0 = String.length ("@" ++ kw ++ ws ++ String q1 "")).
  { unfold p0. cbn [append String.length]. rewrite !length_app. cbn [String.length]. lia. }
  assert (HlenT : String.length T = p0 + String.length g + 1).
  { rewrite HTsplit, Hp0, !length_app. cbn [String.length]. lia. }
  assert (Hocc : String.prefix g (JsString.drop p0 T) = true).
  { rewrite HTsplit, Hp0, drop_app. apply prefix_app. }
  rewrite HT. unfold JsString.indexOf.
  destruct (indexOf_from_first T g 0) as [(n & E & Hn & Hp & Hmin) | (_ & Hnone)].
  - assert (Hle : n <= p0).
    { destruct (Nat.le_gt_cases n p0) as [L|L]; [exact L|].
      rewrite (Hmin p0 L) in Hocc. discriminate. }
    exists n. repeat split.
    + rewrite E. lia.
    + rewrite Hat by lia. apply prefix_slice. exact Hp.
    + lia.
    + intros j Hj. rewrite Hat by lia. intros Hc. apply prefix_slice in Hc.
      rewrite (Hmin j Hj) in Hc. discriminate.
  - rewrite Hnone in Hocc by lia. discriminate.
Qed.

Lemma indexOf_from_here (s pat : string) (i : Z) :
  String.prefix pat s = true -> JsString.indexOf_from s pat i = i.
Proof. intros H. destruct s; cbn [JsString.indexOf_from]; rewrite H; reflexivity. Qed.

(** X20.  That first place need not be the quoted one: when the
    specifier of an import is its own keyword, the range starts one
    character after the at sign, on the keyword, and the quoted specifier
    stands further on, after the opening quote. *)
Theorem keyword_named_import_links_the_keyword (kw ws : string) (q1 q2 : ascii)
  (rest : string) (i : nat) :
  importShape kw ws q1 kw q2 ->
  exists m,
    importRegex.search (importText kw ws q1 kw q2 ++ rest) i = Some m
    /\ importRegex.index m = i
    /\ importRegex.group1 m = kw
    /\ JsString.indexOf (importRegex.whole m) (importRegex.group1 m) = 1%Z
    /\ JsString.slice (String.length ("@" ++ kw ++ ws) + 1) (String.length kw)
         (importRegex.whole m) = kw.
Proof.
  intros Hshape.
  assert (Hm : importRegex.matchHere (importText kw ws q1 kw q2 ++ rest)
               = Some (String.length (importText kw ws q1 kw q2), kw)).
  { apply matchHere_complete. exists kw, ws, q1, q2, rest.
    split; [exact Hshape | split; reflexivity]. }
  assert (Hs : importText kw ws q1 kw q2 ++ rest
               = String "@" (kw ++ (ws ++ String q1 (kw ++ String q2 "")) ++ rest)).
  { unfold importText. cbn [append]. rewrite !append_assoc. reflexivity. }
  rewrite Hs in Hm |- *. rewrite search_cons, Hm. eexists. split; [reflexivity|].
  cbn [importRegex.index importRegex.whole importRegex.group1].
  rewrite <- Hs, slice_app_left, slice_all by lia.
  repeat split.
  - unfold JsString.indexOf.
    destruct Hshape as ([-> | ->] & _).
    + change (JsString.indexOf_from (importText "use" ws q1 "use" q2) "use" 0)
        with (JsString.indexOf_from
                ("use" ++ ws ++ String q1 ("use" ++ String q2 "")) "use" 1).
      apply indexOf_from_here, prefix_app.
    + change (JsString.indexOf_from (importText "import" ws q1 "import" q2) "import" 0)
        with (JsString.indexOf_from
                ("import" ++ ws ++ String q1 ("import" ++ String q2 "")) "import" 1).
      apply indexOf_from_here, prefix_app.
  - assert (HT : importText kw ws q1 kw q2
                 = ("@" ++ kw ++ ws ++ String q1 "") ++ kw ++ String q2 "").
    { unfold importText. cbn [append]. rewrite !append_assoc. reflexivity. }
    rewrite HT at 1.
    replace (String.length ("@" ++ kw ++ ws) + 1)
      with (String.length ("@" ++ kw ++ ws ++ String q1 "") + 0).
    + rewrite slice_drop, drop_app. apply prefix_correct, prefix_app.
    + cbn [append String.length]. rewrite !length_app. cbn [String.length]. lia.
Qed.

Lemma import_match_shape_witness :
  importRegex.matchHere ("@import  " ++ Examples.dq ++ "a/b'x")
  = Some (14, "a/b").
Proof.
  apply (proj2 (import_match_shape ("@import  " ++ Examples.dq ++ "a/b'x") 14 "a/b")).
  exists "import", "  ", (ascii_of_nat 34), "'"%char, "x".
  repeat split; try reflexivity.
  - right. reflexivity.
  - discriminate.
Defined.

Lemma link_range_reads_the_specifier_witness :
  exists n,
    JsString.indexOf "@use '@styles/button'" "@styles/button" = Z.of_nat n
    /\ JsString.slice (0 + n) 14 Examples.appText = "@styles/button"
    /\ n + 14 < 21
    /\ forall j, j < n -> JsString.slice (0 + j) 14 Examples.appText <> "@styles/button".
Proof.
  exact (link_range_reads_the_specifier Examples.appText 0
           {| importRegex.index := 0; importRegex.whole := "@use '@styles/button'";
              importRegex.group1 := "@styles/button" |} eq_refl).
Defined.

Lemma keyword_named_import_links_the_keyword_witness :
  exists m,
    importRegex.search ("@use 'use';" ++ "@use 'a';") 0 = Some m
    /\ importRegex.index m = 0
    /\ importRegex.group1 m = "use"
    /\ JsString.indexOf (importRegex.whole m) (importRegex.group1 m) = 1%Z
    /\ JsString.slice 6 3 (importRegex.whole m) = "use".
Proof.
  apply (keyword_named_import_links_the_keyword "use" " " "'"%char "'"%char
           (";" ++ "@use 'a';") 0).
  repeat split; try reflexivity.
  - left. reflexivity.
  - discriminate.
Defined.

(** ** Activation and settings *)

Section ActivationProperties.

Context {path_api : path.API} {json_api : JSON.API}.

Import Activation.

Lemma debug_same (msg : string) (w : World) :
  sameRegistrations w (debug msg w)
  /\ memory (debug msg w) = memory w
  /\ debugMode (debug msg w) = debugMode w
  /\ isDevelopment (debug msg w) = isDevelopment w.
Proof.
  unfold debug, sameRegistrations.
  destruct (debugMode w || isDevelopment w); cbn; repeat split.
Qed.

Lemma textListener_same (document : vscode.TextDocument) (w : World) :
  sameRegistrations w (textListener document w)
  /\ debugMode (textListener document w) = debugMode w
  /\ isDevelopment (textListener document w) = isDevelopment w.
Proof.
  unfold textListener, sameRegistrations.
  destruct (JsObject.get (vscode.fileName document) (documentLinkCache (memory w)));
    [|repeat split].
  unfold debug. destruct (debugMode w || isDevelopment w); cbn; repeat split.
Qed.

Lemma provideLinks_same (disk : fs.FileSystem) (fuel : nat)
  (document : vscode.TextDocument) (w : World) :
  sameRegistrations w (snd (provideLinks disk fuel document w))
  /\ debugMode (snd (provideLinks disk fuel document w)) = debugMode w
  /\ isDevelopment (snd (provideLinks disk fuel document w)) = isDevelopment w
  /\ outputChannel (snd (provideLinks disk fuel document w)) = outputChannel w.
Proof.
  unfold provideLinks, sameRegistrations.
  destruct (fold_left _ (linkProviders w) ([], memory w)) as [answers m].
  cbn. repeat split.
Qed.

Lemma live_same (w w' : World) : sameRegistrations w w' -> live w -> live w'.
Proof.
  unfold sameRegistrations, live.
  intros (-> & -> & _ & -> & -> & -> & -> & ->) H. exact H.
Qed.

Lemma activate_live (settings : WorkspaceConfiguration.t) (mode : ExtensionMode) :
  WorkspaceConfiguration.get (WorkspaceConfiguration.enabled settings) true = true ->
  live (activate (loaded settings mode)).
Proof.
  intros H. unfold activate, loaded, live, debug. cbn. rewrite H. cbn.
  destruct (WorkspaceConfiguration.get (WorkspaceConfiguration.debugMode settings) false
            || isDevelopmentMode mode); cbn;
    repeat split; try discriminate; intros; exact H.
Qed.

Lemma configurationListener_live (affects : string -> bool) (w : World) :
  live w -> live (configurationListener affects w).
Proof.
  intros H.
  unfold configurationListener.
  set (w1 := if affects "sass-alias.enabled" then _ else w).
  assert (H1 : live w1).
  { subst w1. destruct (affects "sass-alias.enabled"); [|exact H].
    destruct w as [dm en dev prov mem conf mode lp regs subs tl cl out].
    unfold live in *. cbn -[seq] in *. destruct H as (Ht & Hc & Hl & He & Hs).
    unfold debug. cbn -[seq].
    destruct (WorkspaceConfiguration.get (WorkspaceConfiguration.enabled conf) true);
      destruct (dm || dev); destruct prov as [d|]; subst lp; cbn -[seq];
      rewrite ?Nat.eqb_refl, ?seq_S; cbn -[seq]; subst subs;
      repeat split; auto; try discriminate; try congruence. }
  destruct (affects "sass-alias.debugMode"); [|exact H1].
  apply (live_same (set_debugMode
                      (WorkspaceConfiguration.get
                         (WorkspaceConfiguration.debugMode (configuration w1)) false) w1)).
  - apply debug_same.
  - exact H1.
Qed.

Lemma deliver_live (e : HostEvent) (w : World) : live w -> live (deliver e w).
Proof.
  intros H. pose proof H as (Ht & Hc & _).
  destruct e as [settings affects | document | disk fuel document]; cbn [deliver].
  - rewrite Hc. cbn [Nat.iter nat_rect]. apply configurationListener_live. exact H.
  - rewrite Ht. cbn [Nat.iter nat_rect].
    apply (live_same w); [apply textListener_same | exact H].
  - apply (live_same w); [apply provideLinks_same | exact H].
Qed.

Lemma run_live (events : list HostEvent) (w : World) : live w -> live (run events w).
Proof.
  revert w. induction events as [|e events IH]; intros w H; [exact H|].
  cbn [run]. apply IH, deliver_live, H.
Qed.

(** X22.  While the extension is active and was enabled at activation,
    one registration of the link provider is live when [isEnabled] holds
    and none when it does not, whatever happens in the editor; the two
    listeners are registered once, and every registration made is among
    the subscriptions of the context, the disposed ones included. *)
Theorem provider_is_live_while_enabled (settings : WorkspaceConfiguration.t)
  (mode : ExtensionMode) (events : list HostEvent) :
  WorkspaceConfiguration.get (WorkspaceConfiguration.enabled settings) true = true ->
  let w := run events (activate (loaded settings mode)) in
  (isEnabled w = true -> exists d, provider w = Some d /\ linkProviders w = [d])
  /\ (isEnabled w = false -> provider w = None /\ linkProviders w = [])
  /\ textListeners w = 1
  /\ configurationListeners w = 1
  /\ subscriptions w = seq 0 (registrations w).
Proof.
  intros H w.
  destruct (run_live events _ (activate_live settings mode H)) as (Ht & Hc & Hl & He & Hs).
  fold w in Ht, Hc, Hl, He, Hs.
  repeat split; try assumption.
  - intros E. destruct (provider w) as [d|]; [exists d; split; [reflexivity | exact Hl]|].
    apply He in E. congruence.
  - destruct (provider w) as [d|]; [|reflexivity].
    assert (isEnabled w = true) by (apply He; discriminate). congruence.
  - destruct (provider w) as [d|]; [|exact Hl].
    assert (isEnabled w = true) by (apply He; discriminate). congruence.
Qed.

Lemma deliver_idle (e : HostEvent) (w : World) : idle w -> idle (deliver e w).
Proof.
  intros (Hl & Hp & Ht & Hc & He & Hm).
  destruct e as [settings affects | document | disk fuel document]; cbn [deliver].
  - rewrite Hc. cbn [Nat.iter nat_rect]. repeat split; assumption.
  - rewrite Ht. cbn [Nat.iter nat_rect]. repeat split; assumption.
  - unfold provideLinks. rewrite Hl. cbn. repeat split; assumption.
Qed.

Lemma run_idle (events : list HostEvent) (w : World) : idle w -> idle (run events w).
Proof.
  revert w. induction events as [|e events IH]; intros w H; [exact H|].
  cbn [run]. apply IH, deliver_idle, H.
Qed.

(** X21.  When the setting [enabled] is off at activation, [activate]
    registers neither listener nor provider: whatever the settings are
    changed to afterwards, no provider is registered, no link request is
    answered and [isEnabled] stays off. *)
Theorem disabled_at_activation_stays_off (settings : WorkspaceConfiguration.t)
  (mode : ExtensionMode) (events : list HostEvent) :
  WorkspaceConfiguration.get (WorkspaceConfiguration.enabled settings) true = false ->
  let w := run events (activate (loaded settings mode)) in
  linkProviders w = [] /\ provider w = None
  /\ textListeners w = 0 /\ configurationListeners w = 0
  /\ isEnabled w = false /\ memory w = initial
  /\ forall disk fuel document, fst (provideLinks disk fuel document w) = [].
Proof.
  intros H w.
  assert (Hidle : idle w).
  { apply run_idle. unfold activate, loaded, idle, debug. cbn. rewrite H. cbn.
    destruct (WorkspaceConfiguration.get
                (WorkspaceConfiguration.debugMode settings) false
              || isDevelopmentMode mode); cbn; repeat split; exact H. }
  destruct Hidle as (Hl & Hp & Ht & Hc & He & Hm).
  repeat split; try assumption.
  intros disk fuel document. unfold provideLinks. rewrite Hl. reflexivity.
Qed.

Lemma configurationListener_fields (affects : string -> bool) (w : World) :
  let w' := configurationListener affects w in
  configuration w' = configuration w
  /\ memory w' = memory w
  /\ isDevelopment w' = isDevelopment w
  /\ isEnabled w'
     = (if affects "sass-alias.enabled"
        then WorkspaceConfiguration.get
               (WorkspaceConfiguration.enabled (configuration w)) true
        else isEnabled w)
  /\ debugMode w'
     = (if affects "sass-alias.debugMode"
        then WorkspaceConfiguration.get
               (WorkspaceConfiguration.debugMode (configuration w)) false
        else debugMode w).
Proof.
  destruct w as [dm en dev prov mem [e d] mode lp regs subs tl cl out].
  unfold configurationListener, debug. cbn.
  destruct (affects "sass-alias.enabled"), (affects "sass-alias.debugMode");
    destruct e as [[|]|], d as [[|]|], dm, dev, prov; cbn; repeat split.
Qed.

Lemma run_follows_setting (events : list HostEvent) (w : World) :
  live w ->
  isEnabled w
  = WorkspaceConfiguration.get (WorkspaceConfiguration.enabled (configuration w)) true ->
  announced (configuration w) events ->
  isEnabled (run events w)
  = WorkspaceConfiguration.get
      (WorkspaceConfiguration.enabled (configuration (run events w))) true.
Proof.
  revert w. induction events as [|e events IH]; intros w Hlive Hen Han; [exact Hen|].
  cbn [run]. pose proof (deliver_live e w Hlive) as Hlive'.
  pose proof Hlive as (Ht & Hc & _).
  destruct e as [settings affects | document | disk fuel document];
    cbn [announced] in Han.
  - destruct Han as [Hann Han]. apply IH; [exact Hlive' | |].
    + cbn [deliver]. rewrite Hc. cbn [Nat.iter nat_rect].
      destruct (configurationListener_fields affects (set_configuration settings w))
        as (-> & _ & _ & -> & _).
      cbn [configuration isEnabled set_configuration].
      destruct (affects "sass-alias.enabled") eqn:A; [reflexivity|].
      rewrite Hen.
      destruct (Bool.bool_dec
                  (WorkspaceConfiguration.get
                     (WorkspaceConfiguration.enabled settings) true)
                  (WorkspaceConfiguration.get
                     (WorkspaceConfiguration.enabled (configuration w)) true))
        as [Heq|Hne]; [symmetry; exact Heq|].
      apply Hann in Hne. discriminate.
    + cbn [deliver]. rewrite Hc. cbn [Nat.iter nat_rect].
      destruct (configurationListener_fields affects (set_configuration settings w))
        as (-> & _). exact Han.
  - cbn [deliver] in *. rewrite Ht in *. cbn [Nat.iter nat_rect] in *.
    destruct (textListener_same document w) as ((E1 & _ & E2 & _) & _).
    apply IH; [exact Hlive' | rewrite E1, E2; exact Hen | rewrite E2; exact Han].
  - cbn [deliver] in *.
    destruct (provideLinks_same disk fuel document w) as ((E1 & _ & E2 & _) & _).
    apply IH; [exact Hlive' | rewrite E1, E2; exact Hen | rewrite E2; exact Han].
Qed.

(** X23.  After an activation with the setting [enabled] on, and when
    every change of the setting is announced by the event that carries it,
    the provider is registered exactly while the setting is on: after any
    events, one registration is live when the setting is on and none when
    it is off.  (After an activation with the setting off no provider is
    ever registered, whatever the setting becomes.) *)
Theorem provider_follows_the_setting (settings : WorkspaceConfiguration.t)
  (mode : ExtensionMode) (events : list HostEvent) :
  WorkspaceConfiguration.get (WorkspaceConfiguration.enabled settings) true = true ->
  announced settings events ->
  let w := run events (activate (loaded settings mode)) in
  (WorkspaceConfiguration.get (WorkspaceConfiguration.enabled (configuration w)) true
   = true -> exists d, linkProviders w = [d])
  /\ (WorkspaceConfiguration.get (WorkspaceConfiguration.enabled (configuration w)) true
      = false -> linkProviders w = []).
Proof.
  intros H Han w.
  pose proof (activate_live settings mode H) as Hlive.
  assert (Hstart : configuration (activate (loaded settings mode)) = settings
                   /\ isEnabled (activate (loaded settings mode)) = true).
  { destruct settings as [[[|]|] [[|]|]]; destruct mode; cbn in H; try discriminate;
      split; reflexivity. }
  destruct Hstart as [Hconf Hen].
  assert (Hfollow : isEnabled w
                    = WorkspaceConfiguration.get
                        (WorkspaceConfiguration.enabled (configuration w)) true).
  { apply run_follows_setting; [exact Hlive | rewrite Hconf, Hen, H; reflexivity |].
    rewrite Hconf. exact Han. }
  destruct (run_live events _ Hlive) as (_ & _ & Hl & He & _). fold w in Hl, He.
  rewrite <- Hfollow. split; intros E.
  - destruct (provider w) as [d|]; [exists d; exact Hl|].
    apply He in E. congruence.
  - destruct (provider w) as [d|]; [|exact Hl].
    assert (isEnabled w = true) by (apply He; discriminate). congruence.
Qed.

Lemma debug_quiet (msg : string) (w : World) : quiet w -> debug msg w = w.
Proof. intros (H1 & H2 & _). unfold debug. rewrite H1, H2. reflexivity. Qed.

Lemma configurationListener_quiet (affects : string -> bool) (w : World) :
  WorkspaceConfiguration.get (WorkspaceConfiguration.debugMode (configuration w)) false
  = false ->
  quiet w -> quiet (configurationListener affects w).
Proof.
  destruct w as [dm en dev prov mem [e d] mode lp regs subs tl cl out].
  unfold quiet, configurationListener, debug. cbn. intros Hd (-> & -> & ->).
  destruct (affects "sass-alias.enabled"), (affects "sass-alias.debugMode");
    destruct e as [[|]|], d as [[|]|], prov; cbn in *; try discriminate; repeat split.
Qed.

Lemma iter_S {A : Type} (f : A -> A) (n : nat) (x : A) :
  Nat.iter (S n) f x = f (Nat.iter n f x).
Proof. reflexivity. Qed.

Lemma iter_quiet (f : World -> World) (n : nat) (w : World) :
  (forall w, quiet w -> quiet (f w)) -> quiet w -> quiet (Nat.iter n f w).
Proof.
  intros Hf Hw. induction n as [|n IH]; [exact Hw|].
  rewrite iter_S. apply Hf, IH.
Qed.

Lemma iter_configuration (affects : string -> bool) (n : nat) (w : World) :
  configuration (Nat.iter n (configurationListener affects) w) = configuration w.
Proof.
  induction n as [|n IH]; [reflexivity|]. rewrite iter_S.
  destruct (configurationListener_fields affects
              (Nat.iter n (configurationListener affects) w)) as (-> & _).
  exact IH.
Qed.

Lemma deliver_quiet (e : HostEvent) (w : World) :
  debugOff [e] -> quiet w -> quiet (deliver e w).
Proof.
  intros Hoff Hq.
  destruct e as [settings affects | document | disk fuel document]; cbn [deliver].
  - cbn [debugOff] in Hoff. destruct Hoff as [Hoff _].
    generalize (configurationListeners w). intros n.
    induction n as [|n IH]; [exact Hq|]. rewrite iter_S.
    apply configurationListener_quiet; [|exact IH].
    rewrite iter_configuration. exact Hoff.
  - apply iter_quiet; [|exact Hq]. intros w0 Hq0.
    pose proof Hq0 as (H1 & H2 & H3). unfold textListener.
    destruct (JsObject.get (vscode.fileName document) (documentLinkCache (memory w0)));
      [|exact Hq0].
    rewrite (debug_quiet _ w0 Hq0). repeat split; assumption.
  - destruct Hq as (H1 & H2 & H3).
    destruct (provideLinks_same disk fuel document w) as (_ & E1 & E2 & E3).
    unfold quiet. rewrite E1, E2, E3. repeat split; assumption.
Qed.

(** X24.  Outside development mode and as long as the setting
    [debugMode] is off, [activate], the two listeners and [deactivate]
    write nothing to the output channel. *)
Theorem quiet_unless_debugging (settings : WorkspaceConfiguration.t)
  (mode : ExtensionMode) (events : list HostEvent) :
  mode <> Development ->
  WorkspaceConfiguration.get (WorkspaceConfiguration.debugMode settings) false = false ->
  debugOff events ->
  outputChannel (deactivate (run events (activate (loaded settings mode)))) = [].
Proof.
  intros Hmode Hd Hoff.
  assert (H0 : quiet (activate (loaded settings mode))).
  { assert (Hdev : isDevelopmentMode mode = false) 
      by (destruct mode; [reflexivity | exfalso; apply Hmode; reflexivity | reflexivity]).
    unfold activate, loaded, quiet, debug. cbn. rewrite Hd, Hdev. cbn.
    destruct (WorkspaceConfiguration.get (WorkspaceConfiguration.enabled settings) true);
      cbn; repeat split. }
  revert H0. generalize (activate (loaded settings mode)).
  induction events as [|e events IH]; intros w Hq.
  - cbn [run]. unfold deactivate. rewrite (debug_quiet _ w Hq). apply Hq.
  - cbn [run]. apply IH.
    + destruct e; cbn [debugOff] in Hoff; [apply Hoff | exact Hoff | exact Hoff].
    + apply deliver_quiet; [|exact Hq].
      destruct e; cbn [debugOff] in *; [split; [apply Hoff | exact I] | exact I | exact I].
Qed.

Lemma run_settings_memory (events : list HostEvent) (w : World) :
  forallb settingsOnly events = true -> memory (run events w) = memory w.
Proof.
  revert w. induction events as [|e events IH]; intros w H; [reflexivity|].
  cbn [forallb] in H. apply andb_prop in H as [He H].
  cbn [run]. rewrite (IH _ H).
  destruct e as [settings affects | |]; try discriminate. cbn [deliver].
  generalize (configurationListeners w). intros n.
  induction n as [|n IHn]; [reflexivity|]. rewrite iter_S.
  destruct (configurationListener_fields affects
              (Nat.iter n (configurationListener affects) (set_configuration settings w)))
    as (_ & -> & _).
  exact IHn.
Qed.

(** X25.  Disabling the extension disposes of the registration and leaves
    the caches: after any changes of the settings that leave the extension
    enabled, a request for the links of a document scanned before is
    answered by the one live registration with the links cached then,
    without a call to the file system, whatever the files are by then. *)
Theorem caches_survive_disabling (settings : WorkspaceConfiguration.t)
  (mode : ExtensionMode) (before after : list HostEvent)
  (document : vscode.TextDocument) (links : list vscode.DocumentLink)
  (disk : fs.FileSystem) (fuel : nat) :
  WorkspaceConfiguration.get (WorkspaceConfiguration.enabled settings) true = true ->
  forallb settingsOnly after = true ->
  let w1 := run before (activate (loaded settings mode)) in
  let w2 := run after w1 in
  JsObject.get (vscode.fileName document) (documentLinkCache (memory w1)) = Some links ->
  isEnabled w2 = true ->
  provideLinks disk fuel document w2 = ([Returns links], w2).
Proof.
  intros H Hafter w1 w2 Hget Hen.
  assert (Hlive : live w2).
  { apply run_live, run_live, activate_live, H. }
  destruct Hlive as (_ & _ & Hl & He & _).
  assert (Hmem : memory w2 = memory w1) by (apply run_settings_memory, Hafter).
  destruct (provider w2) as [d|] eqn:P.
  - unfold provideLinks. rewrite Hl. cbn [fold_left].
    rewrite Hmem, (provideDocumentLinks_cached disk fuel document links _ Hget).
    cbn [app]. rewrite <- Hmem. destruct w2; reflexivity.
  - apply He in Hen. congruence.
Qed.


End ActivationProperties.

Lemma disabled_at_activation_stays_off_witness :
  let w :=
    Activation.run (path_api := Examples.paths) (json_api := Examples.json)
      [ActivationExamples.changed (ActivationExamples.switched true);
       ActivationExamples.scanned]
      (Activation.activate
         (Activation.loaded (ActivationExamples.switched false) Activation.Production)) in
  Activation.linkProviders w = [] /\ Activation.memory w = initial.
Proof.
  intros w.
  destruct (@disabled_at_activation_stays_off Examples.paths Examples.json
              (ActivationExamples.switched false) Activation.Production
              [ActivationExamples.changed (ActivationExamples.switched true);
               ActivationExamples.scanned] eq_refl)
    as (H1 & _ & _ & _ & _ & H2 & _).
  split; [exact H1 | exact H2].
Defined.

Lemma provider_is_live_while_enabled_witness :
  let w :=
    Activation.run (path_api := Examples.paths) (json_api := Examples.json)
      [ActivationExamples.changed (ActivationExamples.switched false);
       ActivationExamples.changed (ActivationExamples.switched true)]
      (Activation.activate
         (Activation.loaded ActivationExamples.defaults Activation.Production)) in
  Activation.linkProviders w = [1] /\ Activation.subscriptions w = [0; 1].
Proof.
  intros w.
  destruct (@provider_is_live_while_enabled Examples.paths Examples.json
              ActivationExamples.defaults Activation.Production
              [ActivationExamples.changed (ActivationExamples.switched false);
               ActivationExamples.changed (ActivationExamples.switched true)] eq_refl)
    as (H1 & _ & _ & _ & H2).
  destruct (H1 eq_refl) as (d & Hp & Hl).
  split; [|exact H2].
  assert (Hd : d = 1) by (vm_compute in Hp; congruence).
  rewrite <- Hd. exact Hl.
Defined.

Lemma provider_follows_the_setting_witness :
  Activation.linkProviders
    (Activation.run (path_api := Examples.paths) (json_api := Examples.json)
       [Activation.DocumentChanged Examples.app;
        ActivationExamples.changed (ActivationExamples.switched false)]
       (Activation.activate
          (Activation.loaded ActivationExamples.defaults Activation.Development)))
  = [].
Proof.
  assert (Hann : Activation.announced ActivationExamples.defaults
                   [Activation.DocumentChanged Examples.app;
                    ActivationExamples.changed (ActivationExamples.switched false)]).
  { cbn. repeat split. }
  apply (@provider_follows_the_setting Examples.paths Examples.json
           ActivationExamples.defaults Activation.Development
           [Activation.DocumentChanged Examples.app;
            ActivationExamples.changed (ActivationExamples.switched false)]
           eq_refl Hann).
  vm_compute. reflexivity.
Defined.

Lemma quiet_unless_debugging_witness :
  Activation.outputChannel
    (Activation.deactivate
       (Activation.run (path_api := Examples.paths) (json_api := Examples.json)
          [ActivationExamples.scanned;
           Activation.DocumentChanged Examples.app;
           ActivationExamples.changed (ActivationExamples.switched false)]
          (Activation.activate
             (Activation.loaded ActivationExamples.defaults Activation.Production))))
  = [].
Proof.
  apply (@quiet_unless_debugging Examples.paths Examples.json
           ActivationExamples.defaults Activation.Production).
  - discriminate.
  - reflexivity.
  - cbn. repeat split.
Defined.

Lemma caches_survive_disabling_witness :
  let w1 :=
    Activation.run (path_api := Examples.paths) (json_api := Examples.json)
      [ActivationExamples.scanned]
      (Activation.activate
         (Activation.loaded ActivationExamples.defaults Activation.Production)) in
  let w2 :=
    Activation.run (path_api := Examples.paths) (json_api := Examples.json)
      [ActivationExamples.changed (ActivationExamples.switched false);
       ActivationExamples.changed (ActivationExamples.switched true)] w1 in
  Activation.linkProviders w1 = [0]
  /\ Activation.linkProviders w2 = [1]
  /\ Activation.provideLinks (path_api := Examples.paths) (json_api := Examples.json)
       Examples.rootOnly 0 Examples.app w2
     = ([Returns Examples.appLinks], w2).
Proof.
  intros w1 w2. split; [vm_compute; reflexivity|]. split; [vm_compute; reflexivity|].
  apply (@caches_survive_disabling Examples.paths Examples.json
           ActivationExamples.defaults Activation.Production
           [ActivationExamples.scanned]
           [ActivationExamples.changed (ActivationExamples.switched false);
            ActivationExamples.changed (ActivationExamples.switched true)]
           Examples.app Examples.appLinks Examples.rootOnly 0).
  - reflexivity.
  - reflexivity.
  - vm_compute. reflexivity.
  - vm_compute. reflexivity.
Defined.

